(** * openaicproxy: the retry engine, the request rewriter and the relays

    A shallow embedding of [src/proxy.py].  Python values are modelled as
    they are at run time: a [str] is a sequence of code points, [bytes] a
    sequence of octets, a parsed JSON document a tree whose objects keep
    their insertion order, an exception an early exit through a result
    type.  The library entry points the proxy calls but does not define
    ([json.loads], [json.dumps], [int]) are the fields of the class [PyLib];
    the general theorems hold for every instance, and the instance
    [cpython] gives an executable reading used for the concrete runs. *)

From Stdlib Require Import List ZArith NArith QArith Bool String Ascii Lia.
Import ListNotations.

Set Implicit Arguments.

(** ** Exceptions and fallible computations *)

Inductive exn : Type :=
| ValueError
| JSONDecodeError          (* subclass of ValueError *)
| UnicodeDecodeError       (* subclass of ValueError *)
| TypeError
| AttributeError
| KeyError
| NameError                (* UnboundLocalError is a subclass *)
| RequestError (msg : list N)   (* httpx.RequestError and its subclasses *)
| OtherException (msg : list N).

(** [except ValueError] also catches its subclasses. *)
Definition is_ValueError (e : exn) : bool :=
  match e with
  | ValueError | JSONDecodeError | UnicodeDecodeError => true
  | _ => false
  end.

Inductive result (A : Type) : Type :=
| Ok (a : A)
| Raise (e : exn).
Arguments Ok {A} a.
Arguments Raise {A} e.

Definition bind {A B} (m : result A) (k : A -> result B) : result B :=
  match m with
  | Ok a => k a
  | Raise e => Raise e
  end.

Notation "x <- m ;; k" := (bind m (fun x => k))
  (at level 61, m at next level, right associativity).
Notation "' p <- m ;; k" := (bind m (fun x => let p := x in k))
  (at level 61, p pattern, m at next level, right associativity).

(** A loop body applied to every element of a list, stopping at the first
    exception. *)
Fixpoint mapM {A B} (f : A -> result B) (l : list A) : result (list B) :=
  match l with
  | [] => Ok []
  | x :: xs => y <- f x ;; ys <- mapM f xs ;; Ok (y :: ys)
  end.

(** ** Text and bytes *)

(** A Python [str]: its code points.  A Python [bytes]: its octets. *)
Definition pystr := list N.
Definition bytes := list N.

Fixpoint pystr_eqb (a b : pystr) : bool :=
  match a, b with
  | [], [] => true
  | x :: a', y :: b' => N.eqb x y && pystr_eqb a' b'
  | _, _ => false
  end.

(** String literals: [u "abc"] is the [str] with those ASCII characters;
    [dq] writes a double quote for every apostrophe, for JSON texts. *)
Definition u (s : string) : pystr :=
  map N_of_ascii (list_ascii_of_string s).

Definition dq (s : string) : pystr :=
  map (fun c => if N.eqb c 39 then 34%N else c) (u s).

(** [line.startswith(prefix)] *)
Fixpoint startswith (prefix s : pystr) : bool :=
  match prefix, s with
  | [], _ => true
  | p :: prefix', c :: s' => N.eqb p c && startswith prefix' s'
  | _ :: _, [] => false
  end.

(** [needle in haystack] on two [str]. *)
Fixpoint str_contains (needle haystack : pystr) : bool :=
  startswith needle haystack ||
  match haystack with
  | [] => false
  | _ :: rest => str_contains needle rest
  end.

(** [s[n:]] *)
Definition slice_from (n : nat) (s : pystr) : pystr := skipn n s.

(** The characters [str.strip()] removes: those for which [str.isspace]
    holds. *)
Definition isspace (c : N) : bool :=
  ((9 <=? c) && (c <=? 13) || (28 <=? c) && (c <=? 32)
   || (c =? 133) || (c =? 160) || (c =? 5760)
   || (8192 <=? c) && (c <=? 8202)
   || (c =? 8232) || (c =? 8233) || (c =? 8239) || (c =? 8287)
   || (c =? 12288))%N.

Fixpoint lstrip (s : pystr) : pystr :=
  match s with
  | [] => []
  | c :: rest => if isspace c then lstrip rest else s
  end.

Definition rstrip (s : pystr) : pystr := rev (lstrip (rev s)).

Definition strip (s : pystr) : pystr := rstrip (lstrip s).

(** [buffer.split("\n", 1)] when the buffer holds a newline: the text before
    the first newline and the text after it; [None] when
    ["\n" in buffer] is false. *)
Fixpoint split_newline (buffer : pystr) : option (pystr * pystr) :=
  match buffer with
  | [] => None
  | c :: rest =>
      if N.eqb c 10 then Some ([], rest)
      else match split_newline rest with
           | Some (line, tail) => Some (c :: line, tail)
           | None => None
           end
  end.

(** *** UTF-8 *)

Definition is_cont (b : N) : bool := ((128 <=? b) && (b <=? 191))%N.

(** [chunk.decode("utf-8")]: the strict decoder (shortest form only, no
    surrogates, nothing above U+10FFFF). *)
Fixpoint utf8_decode (b : bytes) : result pystr :=
  match b with
  | [] => Ok []
  | b0 :: r0 =>
      if (b0 <? 128)%N then
        s <- utf8_decode r0 ;; Ok (b0 :: s)
      else if ((194 <=? b0) && (b0 <=? 223))%N then
        match r0 with
        | b1 :: r1 =>
            if is_cont b1 then
              s <- utf8_decode r1 ;;
              Ok (((b0 - 192) * 64 + (b1 - 128))%N :: s)
            else Raise UnicodeDecodeError
        | _ => Raise UnicodeDecodeError
        end
      else if ((224 <=? b0) && (b0 <=? 239))%N then
        match r0 with
        | b1 :: b2 :: r2 =>
            if is_cont b1 && is_cont b2
               && (negb (b0 =? 224) || (160 <=? b1))%N
               && (negb (b0 =? 237) || (b1 <=? 159))%N then
              s <- utf8_decode r2 ;;
              Ok (((b0 - 224) * 4096 + (b1 - 128) * 64 + (b2 - 128))%N :: s)
            else Raise UnicodeDecodeError
        | _ => Raise UnicodeDecodeError
        end
      else if ((240 <=? b0) && (b0 <=? 244))%N then
        match r0 with
        | b1 :: b2 :: b3 :: r3 =>
            if is_cont b1 && is_cont b2 && is_cont b3
               && (negb (b0 =? 240) || (144 <=? b1))%N
               && (negb (b0 =? 244) || (b1 <=? 143))%N then
              s <- utf8_decode r3 ;;
              Ok (((b0 - 240) * 262144 + (b1 - 128) * 4096
                   + (b2 - 128) * 64 + (b3 - 128))%N :: s)
            else Raise UnicodeDecodeError
        | _ => Raise UnicodeDecodeError
        end
      else Raise UnicodeDecodeError
  end.

Definition utf8_encode_char (c : N) : bytes :=
  (if c <? 128 then [c]
   else if c <? 2048 then [192 + c / 64; 128 + c mod 64]
   else if c <? 65536 then
     [224 + c / 4096; 128 + (c / 64) mod 64; 128 + c mod 64]
   else
     [240 + c / 262144; 128 + (c / 4096) mod 64;
      128 + (c / 64) mod 64; 128 + c mod 64])%N.

(** [s.encode("utf-8")].  Python raises on a lone surrogate; the texts the
    proxy encodes are either decoded input or the ASCII output of
    [json.dumps], which hold none. *)
Definition utf8_encode (s : pystr) : bytes := flat_map utf8_encode_char s.

(** [str(n)] for a non-negative integer: its decimal digits. *)
Fixpoint digits (d : Decimal.uint) : pystr :=
  match d with
  | Decimal.Nil => []
  | Decimal.D0 r => 48%N :: digits r
  | Decimal.D1 r => 49%N :: digits r
  | Decimal.D2 r => 50%N :: digits r
  | Decimal.D3 r => 51%N :: digits r
  | Decimal.D4 r => 52%N :: digits r
  | Decimal.D5 r => 53%N :: digits r
  | Decimal.D6 r => 54%N :: digits r
  | Decimal.D7 r => 55%N :: digits r
  | Decimal.D8 r => 56%N :: digits r
  | Decimal.D9 r => 57%N :: digits r
  end.

Definition str_of_N (n : N) : pystr := digits (N.to_uint n).

Definition str_of_Z (z : Z) : pystr :=
  match z with
  | Zneg p => 45%N :: str_of_N (Npos p)
  | _ => str_of_N (Z.to_N z)
  end.

(** ** JSON documents as Python objects *)

(** What [json.loads] returns: [None], [bool], [int], [float], [str],
    [list] and [dict] with [str] keys in insertion order.  A float is kept
    as its [repr], which identifies it. *)
#[warnings="-register-all"]
Inductive json : Type :=
| JNull
| JBool (b : bool)
| JInt (z : Z)
| JFloat (repr : pystr)
| JStr (s : pystr)
| JList (l : list json)
| JDict (d : list (pystr * json)).

(** *** Dictionaries with [str] keys

    Keys are unique in a Python dict; the operations below agree with
    Python on such lists and are total on the others. *)
Section Dict.
Variable V : Type.
Definition dict := list (pystr * V).

Fixpoint dict_lookup (k : pystr) (d : dict) : option V :=
  match d with
  | [] => None
  | (k', v) :: rest => if pystr_eqb k' k then Some v else dict_lookup k rest
  end.

(** [k in d] *)
Definition dict_has (k : pystr) (d : dict) : bool :=
  match dict_lookup k d with Some _ => true | None => false end.

(** [d.pop(k, None)], for its effect on [d]. *)
Definition dict_pop (k : pystr) (d : dict) : dict :=
  filter (fun kv => negb (pystr_eqb (fst kv) k)) d.

(** [d[k] = v]: an existing key keeps its place, a new one goes last. *)
Fixpoint dict_set (k : pystr) (v : V) (d : dict) : dict :=
  match d with
  | [] => [(k, v)]
  | (k', v') :: rest =>
      if pystr_eqb k' k then (k', v) :: rest
      else (k', v') :: dict_set k v rest
  end.
End Dict.

(** *** The operations of the Python object model the proxy uses *)

Definition isinstance_dict (v : json) : bool :=
  match v with JDict _ => true | _ => false end.
Definition isinstance_list (v : json) : bool :=
  match v with JList _ => true | _ => false end.
Definition isinstance_str (v : json) : bool :=
  match v with JStr _ => true | _ => false end.
Definition isinstance_bool (v : json) : bool :=
  match v with JBool _ => true | _ => false end.

(** [v == "literal"] *)
Definition eq_str (v : json) (s : pystr) : bool :=
  match v with JStr s' => pystr_eqb s' s | _ => false end.

(** Truth value of an object, as [if v:] tests it. *)
Definition truthy (v : json) : bool :=
  match v with
  | JNull => false
  | JBool b => b
  | JInt z => negb (z =? 0)%Z
  | JFloat r => negb (pystr_eqb r (u "0.0") || pystr_eqb r (u "-0.0"))
  | JStr s => match s with [] => false | _ => true end
  | JList l => match l with [] => false | _ => true end
  | JDict d => match d with [] => false | _ => true end
  end.

(** [hash(v)] succeeds: lists and dicts are unhashable. *)
Definition hashable (v : json) : bool :=
  match v with JList _ | JDict _ => false | _ => true end.

(** [isinstance(v, dict) and "k" in v] *)
Definition has_key (v : json) (k : pystr) : bool :=
  match v with JDict d => dict_has k d | _ => false end.

(** ["k" in v] *)
Definition py_in (k : pystr) (v : json) : result bool :=
  match v with
  | JDict d => Ok (dict_has k d)
  | JList l => Ok (existsb (fun x => eq_str x k) l)
  | JStr s => Ok (str_contains k s)
  | _ => Raise TypeError
  end.

(** [v["k"]] *)
Definition py_getitem (v : json) (k : pystr) : result json :=
  match v with
  | JDict d => match dict_lookup k d with
               | Some x => Ok x
               | None => Raise KeyError
               end
  | _ => Raise TypeError
  end.

(** [v.get("k", default)] *)
Definition py_get (v : json) (k : pystr) (default : json) : result json :=
  match v with
  | JDict d => match dict_lookup k d with
               | Some x => Ok x
               | None => Ok default
               end
  | _ => Raise AttributeError
  end.

(** [v["k"] = x] *)
Definition py_setitem (v : json) (k : pystr) (x : json) : result json :=
  match v with
  | JDict d => Ok (JDict (dict_set k x d))
  | _ => Raise TypeError
  end.

(** [v.pop("k", None)], for its effect on [v]. *)
Definition py_pop (v : json) (k : pystr) : result json :=
  match v with
  | JDict d => Ok (JDict (dict_pop k d))
  | JList _ => Raise TypeError
  | _ => Raise AttributeError
  end.

(** [len(v)] *)
Definition py_len (v : json) : result nat :=
  match v with
  | JStr s => Ok (List.length s)
  | JList l => Ok (List.length l)
  | JDict d => Ok (List.length d)
  | _ => Raise TypeError
  end.

(** [v[:500]] *)
Definition py_slice500 (v : json) : result json :=
  match v with
  | JStr s => Ok (JStr (firstn 500 s))
  | JList l => Ok (JList (firstn 500 l))
  | JDict _ => Raise KeyError
  | _ => Raise TypeError
  end.

(** The elements [for x in v] visits. *)
Definition py_iter (v : json) : result (list json) :=
  match v with
  | JList l => Ok l
  | JDict d => Ok (map (fun kv => JStr (fst kv)) d)
  | JStr s => Ok (map (fun c => JStr [c]) s)
  | _ => Raise TypeError
  end.

(** The source mutates nested objects in place.  Here a loop returns the
    updated child and [put_back] stores it under the key it was read from;
    the object is a dict holding that key wherever this is used. *)
Definition put_back (v : json) (k : pystr) (x : json) : json :=
  match v with
  | JDict d => JDict (dict_set k x d)
  | _ => v
  end.

(** ** The library the proxy calls *)

Class PyLib : Type := {
  (** [json.loads] on a [str]; [None] stands for [JSONDecodeError]. *)
  json_loads : pystr -> option json;
  (** [json.dumps] with its default arguments. *)
  json_dumps : json -> pystr;
  (** [int] on a [str]; [None] stands for [ValueError]. *)
  py_int : pystr -> option Z
}.

Section Proxy.
Context {lib : PyLib}.

(** [json.loads(v)] on an object: only text is accepted. *)
Definition loads (v : json) : result json :=
  match v with
  | JStr s => match json_loads s with
              | Some x => Ok x
              | None => Raise JSONDecodeError
              end
  | _ => Raise TypeError
  end.

(** [int(s)] *)
Definition int (s : pystr) : result Z :=
  match py_int s with
  | Some z => Ok z
  | None => Raise ValueError
  end.

(** ** ToolCallFrame argument coercion

    The block below appears three times in the source (request messages,
    streamed deltas, non-streamed choices) with the same text:
<<
    if "start_line" in args_dict and isinstance(args_dict["start_line"], str):
        args_dict["start_line"] = int(args_dict["start_line"])
        modified = True
>>
    and the same for ["end_line"]. *)
Definition convert_field (k : pystr) (st : json * bool) : result (json * bool) :=
  let (args_dict, modified) := st in
  present <- py_in k args_dict ;;
  if present then
    v <- py_getitem args_dict k ;;
    match v with
    | JStr s =>
        n <- int s ;;
        args_dict' <- py_setitem args_dict k (JInt n) ;;
        Ok (args_dict', true)
    | _ => Ok st
    end
  else Ok st.

Definition coerce_lines (args_dict : json) : result (json * bool) :=
  st <- convert_field (u "start_line") (args_dict, false) ;;
  convert_field (u "end_line") st.

(** [tool_call["function"]["arguments"] = json.dumps(args_dict)] *)
Definition set_arguments (tool_call args_dict : json) : result json :=
  fn <- py_getitem tool_call (u "function") ;;
  fn' <- py_setitem fn (u "arguments") (JStr (json_dumps args_dict)) ;;
  py_setitem tool_call (u "function") fn'.

(** [tool_call.get("function", {}).get(key, default) if "function" in
    tool_call else default], for a [tool_call] known to be a dict. *)
Definition function_field (tool_call : json) (key : pystr) (default : json)
  : result json :=
  present <- py_in (u "function") tool_call ;;
  if present then
    fn <- py_get tool_call (u "function") (JDict []) ;;
    py_get fn key default
  else Ok default.

(** [tc_name == "read_file" and tc_args and "function" in tool_call] *)
Definition is_read_file_call (tool_call tc_name tc_args : json) : result bool :=
  if eq_str tc_name (u "read_file") && truthy tc_args
  then py_in (u "function") tool_call
  else Ok false.

(** [try: ... except (json.JSONDecodeError, ValueError): log]: the handler
    leaves the state as it was before the block. *)
Definition except_ValueError {A} (fallback : A) (m : result A) : result A :=
  match m with
  | Ok a => Ok a
  | Raise e => if is_ValueError e then Ok fallback else Raise e
  end.

(** ** Payload rewriter, request side ([proxy_request], lines 211-426) *)

(** The body of [for tc_idx, tool_call in enumerate(tool_calls)] in the
    request pass (lines 290-373).  The two "Before transformation" log lines
    call [args_dict.get], and the "Verification" line parses the new
    arguments string and calls [.get] on the result; both can raise and are
    kept.  The value returned is [tool_call] after the iteration. *)
Definition request_tool_call (tool_call : json) : result json :=
  if isinstance_dict tool_call then
    tc_name <- function_field tool_call (u "name") (JStr (u "unknown")) ;;
    tc_args <- function_field tool_call (u "arguments") (JStr []) ;;
    transform <- is_read_file_call tool_call tc_name tc_args ;;
    if transform then
      except_ValueError tool_call
        (args_dict <- loads tc_args ;;
         _ <- py_get args_dict (u "start_line") JNull ;;
         _ <- py_get args_dict (u "end_line") JNull ;;
         st <- coerce_lines args_dict ;;
         let (args_dict', modified) := st in
         if modified then
           tool_call' <- set_arguments tool_call args_dict' ;;
           except_ValueError tool_call'
             (verification <- loads (JStr (json_dumps args_dict')) ;;
              _ <- py_get verification (u "start_line") JNull ;;
              Ok tool_call')
         else Ok tool_call)
    else Ok tool_call
  else Ok tool_call.

(** "Log tool results" (lines 376-394): [len] and the slice can raise. *)
Definition log_tool_result (msg : json) : result unit :=
  if isinstance_dict msg then
    role <- py_get msg (u "role") JNull ;;
    if eq_str role (u "tool") then
      tool_content <- py_get msg (u "content") (JStr []) ;;
      if truthy tool_content then
        n <- py_len tool_content ;;
        _ <- (if (500 <? n)%nat then py_slice500 tool_content
              else Ok tool_content) ;;
        Ok tt
      else Ok tt
    else Ok tt
  else Ok tt.

(** One iteration of [for msg_idx, msg in enumerate(body_json["messages"])]
    (lines 282-394).  The tool calls are mutated in place in the source;
    here the updated list is put back under the same key. *)
Definition request_message (msg : json) : result json :=
  msg' <- (if has_key msg (u "tool_calls") then
             tool_calls <- py_getitem msg (u "tool_calls") ;;
             match tool_calls with
             | JList ((_ :: _) as l) =>
                 l' <- mapM request_tool_call l ;;
                 Ok (put_back msg (u "tool_calls") (JList l'))
             | _ => Ok msg
             end
           else Ok msg) ;;
  _ <- log_tool_result msg' ;;
  Ok msg'.

(** "First pass: collect all tool_use_ids" (lines 237-243).  The set only
    feeds a warning; what matters to the pass is that [set.add] raises on an
    unhashable id. *)
Definition collect_tool_call_id (tool_call : json) : result unit :=
  if has_key tool_call (u "id") then
    id <- py_getitem tool_call (u "id") ;;
    if hashable id then Ok tt else Raise TypeError
  else Ok tt.

Definition collect_tool_use_ids (msg : json) : result unit :=
  if has_key msg (u "tool_calls") then
    tool_calls <- py_getitem msg (u "tool_calls") ;;
    match tool_calls with
    | JList l => _ <- mapM collect_tool_call_id l ;; Ok tt
    | _ => Ok tt
    end
  else Ok tt.

(** "Second pass" (lines 246-265): [tool_use_id not in tool_use_ids] hashes
    the id. *)
Definition check_content_item (item : json) : result unit :=
  if isinstance_dict item then
    ty <- py_get item (u "type") JNull ;;
    if eq_str ty (u "tool_result") then
      tool_use_id <- py_get item (u "tool_use_id") JNull ;;
      if truthy tool_use_id && negb (hashable tool_use_id)
      then Raise TypeError else Ok tt
    else Ok tt
  else Ok tt.

Definition check_tool_results (msg : json) : result unit :=
  if has_key msg (u "content") then
    content <- py_getitem msg (u "content") ;;
    match content with
    | JList items => _ <- mapM check_content_item items ;; Ok tt
    | _ => Ok tt
    end
  else Ok tt.

(** The value of [body_json["messages"]] when
    ["messages" in body_json and isinstance(body_json["messages"], list)]. *)
Definition messages_list (body_json : json) : result (option (list json)) :=
  present <- py_in (u "messages") body_json ;;
  if present then
    messages <- py_getitem body_json (u "messages") ;;
    match messages with
    | JList l => Ok (Some l)
    | _ => Ok None
    end
  else Ok None.

Definition validate_tool_sequence (body_json : json) : result unit :=
  ms <- messages_list body_json ;;
  match ms with
  | Some messages =>
      _ <- mapM collect_tool_use_ids messages ;;
      _ <- mapM check_tool_results messages ;;
      Ok tt
  | None => Ok tt
  end.

(** "Log tool calls if present in the request" (lines 268-278). *)
Definition log_tool (tool : json) : result unit :=
  if has_key tool (u "function") then
    fn <- py_getitem tool (u "function") ;;
    _ <- py_get fn (u "name") (JStr (u "unknown")) ;;
    Ok tt
  else Ok tt.

Definition log_tools (body_json : json) : result unit :=
  present <- py_in (u "tools") body_json ;;
  if present then
    tools <- py_get body_json (u "tools") (JList []) ;;
    items <- py_iter tools ;;
    _ <- mapM log_tool items ;;
    Ok tt
  else Ok tt.

Definition unsupported_params : list pystr :=
  [u "prompt_cache_key"; u "logprobs"; u "top_logprobs"].

(** [for param in unsupported_params: body_json.pop(param, None)] *)
Fixpoint pop_params (params : list pystr) (body_json : json) : result json :=
  match params with
  | [] => Ok body_json
  | param :: rest => b <- py_pop body_json param ;; pop_params rest b
  end.

(** Lines 225-228. *)
Definition clean_parallel_tool_calls (body_json : json) : result json :=
  present <- py_in (u "parallel_tool_calls") body_json ;;
  if present then
    v <- py_getitem body_json (u "parallel_tool_calls") ;;
    if negb (isinstance_bool v)
    then py_pop body_json (u "parallel_tool_calls")
    else Ok body_json
  else Ok body_json.

(** Lines 281-394 on the whole body. *)
Definition transform_messages (body_json : json) : result json :=
  ms <- messages_list body_json ;;
  match ms with
  | Some messages =>
      messages' <- mapM request_message messages ;;
      Ok (put_back body_json (u "messages") (JList messages'))
  | None => Ok body_json
  end.

(** The chat-completions pass between [json.loads] and [json.dumps]. *)
Definition rewrite_chat_json (body_json : json) : result json :=
  b1 <- pop_params unsupported_params body_json ;;
  b2 <- clean_parallel_tool_calls b1 ;;
  _ <- validate_tool_sequence b2 ;;
  _ <- log_tools b2 ;;
  transform_messages b2.

Definition headers := dict pystr.

(** [json.loads(body.decode("utf-8"))] *)
Definition loads_bytes (body : bytes) : result json :=
  text <- utf8_decode body ;;
  loads (JStr text).

(** [json.dumps(body_json).encode("utf-8")] *)
Definition dumps_bytes (v : json) : bytes := utf8_encode (json_dumps v).

Definition content_length (body : bytes) : pystr :=
  str_of_N (N.of_nat (List.length body)).

(** The [try] block of lines 213-403. *)
Definition rewrite_chat_request (hdrs : headers) (body : bytes)
  : result (headers * bytes) :=
  body_json <- loads_bytes body ;;
  body_json' <- rewrite_chat_json body_json ;;
  let body' := dumps_bytes body_json' in
  Ok (dict_set (u "content-length") (content_length body') hdrs, body').

(** The [try] block of lines 409-424. *)
Definition rewrite_embeddings_request (hdrs : headers) (body : bytes)
  : result (headers * bytes) :=
  body_json <- loads_bytes body ;;
  fmt <- py_get body_json (u "encoding_format") JNull ;;
  body_json' <- (if eq_str fmt (u "base64")
                 then py_setitem body_json (u "encoding_format")
                                 (JStr (u "float"))
                 else Ok body_json) ;;
  let body' := dumps_bytes body_json' in
  Ok (if dict_has (u "content-length") hdrs
      then dict_set (u "content-length") (content_length body') hdrs
      else hdrs,
      body').

(** [try: ... except Exception as e: log]: the request goes on with the
    headers and body it had. *)
Definition or_original {A} (original : A) (m : result A) : A :=
  match m with
  | Ok a => a
  | Raise _ => original
  end.

Definition is_chat_route (path : pystr) (body : bytes) : bool :=
  str_contains (u "chat/completions") path
  && match body with [] => false | _ => true end.

Definition is_embeddings_route (path : pystr) (body : bytes) : bool :=
  pystr_eqb path (u "embeddings")
  && match body with [] => false | _ => true end.

(** Lines 202-426: the headers and body sent upstream, and whether the
    name [json] is bound afterwards.  [import json] occurs only inside the
    two [try] blocks, which makes [json] a local name of [proxy_request]: it
    is bound once one of the blocks has been entered, and a later
    [json.loads] raises [NameError] otherwise. *)
Definition prepare_request (path : pystr) (request_headers : headers)
           (body : bytes) : headers * bytes * bool :=
  let hdrs := dict_pop (u "host") request_headers in
  let '(hdrs1, body1, bound1) :=
    if is_chat_route path body
    then (or_original (hdrs, body) (rewrite_chat_request hdrs body), true)
    else (hdrs, body, false) in
  if is_embeddings_route path body1
  then (or_original (hdrs1, body1) (rewrite_embeddings_request hdrs1 body1),
        true)
  else (hdrs1, body1, bound1).

(** ** Retry engine ([retry_with_backoff], lines 47-173) *)

Record response : Type := {
  status_code : Z;
  (** [response.headers], as a mapping with lower-case names. *)
  resp_headers : headers;
  (** [await response.aread()], the first time it is awaited *)
  aread : result bytes;
  (** The chunks [response.aiter_bytes()] yields. *)
  aiter_bytes : list bytes
}.

Record config : Type := {
  MAX_RETRIES : Z;
  BASE_RETRY_DELAY : Q;
  RATE_LIMIT_WAIT : Z
}.

(** What the engine observes outside itself, by attempt number: the result
    of [await func()], the value of [int(time.time())] and the draw of
    [random.uniform(0, 1)]. *)
Record world : Type := {
  func : nat -> result response;
  time_time : nat -> Z;
  uniform : nat -> Q
}.

Inductive event : Type :=
| Call (attempt : nat)
| Sleep (seconds : Q).

Inductive outcome : Type :=
| Returned (r : response)
| Raised (e : exn).

(** Lines 88-110, after [reset_time = int(reset_requests_header)]. *)
Definition header_wait_time (reset_time current_time : Z) : Z :=
  let wait_time := Z.max 1 (reset_time - current_time) in
  let wait_time :=
    if (reset_time >? current_time * 1000)%Z then
      let reset_time := (reset_time / 1000)%Z in
      Z.max 1 (reset_time - current_time)
    else if (reset_time <? 3600)%Z then
      Z.max 1 reset_time
    else
      Z.max 1 (reset_time - current_time) in
  Z.min wait_time 3600.

(** What converting an integer of [2**1024] or more to a float raises. *)
Definition OverflowError : exn :=
  OtherException (u "int too large to convert to float").

Section Engine.
Variable cfg : config.
Variable w : world.
Variable max_retries : Z.
Variable base_delay : Q.

(** [base_delay * (2**attempt) + random.uniform(0, 1)].  [base_delay] is a
    float ([BASE_RETRY_DELAY] is made with [float], line 24), so the product
    converts the integer [2**attempt] to a float first, which raises
    [OverflowError] from [2**1024] on.  Below that the value is taken over
    the rationals, where the source rounds to a double. *)
Definition backoff_delay (attempt : nat) : result Q :=
  if (attempt <? 1024)%nat
  then Ok (base_delay * inject_Z (2 ^ Z.of_nat attempt) + uniform w attempt)
  else Raise OverflowError.

(** [attempt < max_retries] *)
Definition may_retry (attempt : nat) : bool :=
  (Z.of_nat attempt <? max_retries)%Z.

(** The inner [try] of the 429 branch (lines 64-137).  [Some d] stands for
    [await asyncio.sleep(d); continue], [None] for reaching
    [return response]. *)
Definition on_429 (attempt : nat) (r : response) : option Q :=
  or_original None
    (error_content <- aread r ;;
     error_text <- utf8_decode error_content ;;
     if str_contains (u "Too many failed attempts") error_text then
       Ok (if may_retry attempt
           then Some (inject_Z (RATE_LIMIT_WAIT cfg))
           else None)
     else
       (* lines 124-131; an [OverflowError] of the delay is raised inside
          the [try] and ends at the [except Exception] of line 133 *)
       let fallback :=
         if may_retry attempt
         then delay <- backoff_delay attempt ;; Ok (Some delay)
         else Ok None in
       match dict_lookup (u "x-ratelimit-reset-requests") (resp_headers r) with
       | Some ((_ :: _) as reset_requests_header) =>
           match py_int reset_requests_header with
           | Some reset_time =>
               let wait_time :=
                 header_wait_time reset_time (time_time w attempt) in
               if may_retry attempt then Ok (Some (inject_Z wait_time))
               else fallback
           | None => fallback
           end
       | _ => fallback
       end).

(** [for attempt in range(max_retries + 1)], with [remaining] iterations
    left; past the loop the function raises.  An [OverflowError] of the
    delay leaves the function in both places: at line 142 it is raised
    inside the outer [try] and raised again by the [except Exception] of
    lines 168-170; at line 159 it is raised inside the handler of
    [httpx.RequestError], which no clause of the same [try] catches. *)
Fixpoint retry_loop (remaining attempt : nat) : list event * outcome :=
  match remaining with
  | O => ([], Raised (OtherException (u "Unexpected end of retry_with_backoff")))
  | S remaining' =>
      let continue (d : Q) :=
        let (evs, res) := retry_loop remaining' (S attempt) in
        (Call attempt :: Sleep d :: evs, res) in
      let finish (res : outcome) := ([Call attempt], res) in
      let backoff :=
        match backoff_delay attempt with
        | Ok delay => continue delay
        | Raise e => finish (Raised e)
        end in
      match func w attempt with
      | Ok r =>
          if (status_code r =? 429)%Z then
            match on_429 attempt r with
            | Some d => continue d
            | None => finish (Returned r)
            end
          else if (status_code r >=? 500)%Z then
            if may_retry attempt then backoff
            else finish (Returned r)
          else finish (Returned r)
      | Raise (RequestError msg) =>
          if may_retry attempt then backoff
          else finish (Raised (RequestError msg))
      | Raise e => finish (Raised e)
      end
  end.
End Engine.

(** [retry_with_backoff(func, max_retries=None, base_delay=None)] *)
Definition retry_with_backoff (cfg : config) (w : world)
           (max_retries : option Z) (base_delay : option Q)
  : list event * outcome :=
  let max_retries :=
    match max_retries with Some n => n | None => MAX_RETRIES cfg end in
  let base_delay :=
    match base_delay with Some d => d | None => BASE_RETRY_DELAY cfg end in
  retry_loop cfg w max_retries base_delay (Z.to_nat (max_retries + 1)) 0.
(** ** Relays ([proxy_request], lines 444-818) *)

(** [json.loads(x)] inside the relays, where the name [json] may be
    unbound. *)
Definition relay_loads (json_bound : bool) (v : json) : result json :=
  if json_bound then loads v else Raise NameError.

(** *** Stream relay ([stream_generator], lines 450-628) *)

(** One iteration of [for tool_call in tool_calls] (lines 489-617): the
    tool call after the iteration and whether the [if modified:] block
    ran. *)
Definition stream_tool_call (tool_call : json) : result (json * bool) :=
  if isinstance_dict tool_call then
    tc_name <- function_field tool_call (u "name") (JStr []) ;;
    tc_args <- function_field tool_call (u "arguments") (JStr []) ;;
    transform <- is_read_file_call tool_call tc_name tc_args ;;
    if transform then
      except_ValueError (tool_call, false)
        (args_dict <- loads tc_args ;;
         st <- coerce_lines args_dict ;;
         let (args_dict', modified) := st in
         if modified then
           tool_call' <- set_arguments tool_call args_dict' ;;
           Ok (tool_call', true)
         else Ok (tool_call, false))
    else Ok (tool_call, false)
  else Ok (tool_call, false).

(** The loops thread the variable [line]: it is reassigned in the middle of
    the traversal, from [json.dumps(data)] at that moment, and keeps its
    value when a later iteration raises.  [rebuild] gives [data] from the
    current state of the list being traversed: what was already visited
    ([done], latest first), then the rest. *)
Fixpoint stream_tool_calls (rebuild : list json -> json)
         (done todo : list json) (line : pystr) : pystr * result (list json) :=
  match todo with
  | [] => (line, Ok (rev done))
  | tool_call :: rest =>
      match stream_tool_call tool_call with
      | Raise e => (line, Raise e)
      | Ok (tool_call', modified) =>
          let line' :=
            if modified
            then u "data: " ++ json_dumps (rebuild (rev done ++ tool_call' :: rest))
            else line in
          stream_tool_calls rebuild (tool_call' :: done) rest line'
      end
  end.

(** One iteration of [for choice in data["choices"]] (lines 476-617). *)
Definition stream_choice (rebuild : json -> json) (choice : json)
           (line : pystr) : pystr * result json :=
  if has_key choice (u "delta") then
    match py_getitem choice (u "delta") with
    | Raise e => (line, Raise e)
    | Ok delta =>
        if has_key delta (u "tool_calls") then
          match py_getitem delta (u "tool_calls") with
          | Raise e => (line, Raise e)
          | Ok (JList tool_calls) =>
              let with_calls (l : list json) :=
                put_back choice (u "delta")
                         (put_back delta (u "tool_calls") (JList l)) in
              let (line', r) :=
                stream_tool_calls (fun l => rebuild (with_calls l))
                                  [] tool_calls line in
              (line', l <- r ;; Ok (with_calls l))
          | Ok _ => (line, Ok choice)
          end
        else (line, Ok choice)
    end
  else (line, Ok choice).

Fixpoint stream_choices (rebuild : list json -> json)
         (done todo : list json) (line : pystr) : pystr * result (list json) :=
  match todo with
  | [] => (line, Ok (rev done))
  | choice :: rest =>
      match stream_choice (fun c => rebuild (rev done ++ c :: rest))
                          choice line with
      | (line', Raise e) => (line', Raise e)
      | (line', Ok choice') =>
          stream_choices rebuild (choice' :: done) rest line'
      end
  end.

(** The [try] block of lines 468-621 for a data line; every exception is
    caught and logged, and [line] is what the block left in it. *)
Definition rewrite_data_line (json_bound : bool) (line : pystr) : pystr :=
  let data_str := slice_from 6 line in
  match relay_loads json_bound (JStr data_str) with
  | Raise _ => line
  | Ok data =>
      match py_in (u "choices") data with
      | Ok true =>
          match py_getitem data (u "choices") with
          | Ok (JList choices) =>
              fst (stream_choices
                     (fun l => put_back data (u "choices") (JList l))
                     [] choices line)
          | _ => line
          end
      | _ => line
      end
  end.

(** Lines 464-624 for one complete line: the bytes yielded. *)
Definition relay_line (json_bound : bool) (line : pystr) : bytes :=
  let line := strip line in
  let line :=
    if startswith (u "data: ") line && negb (pystr_eqb line (u "data: [DONE]"))
    then rewrite_data_line json_bound line
    else line in
  utf8_encode (line ++ [10%N]).

(** [while "\n" in buffer: line, buffer = buffer.split("\n", 1); ...]:
    the bytes yielded and the buffer left.  Every iteration removes at least
    the newline, so [fuel] at the length of the buffer is enough. *)
Fixpoint drain_lines (json_bound : bool) (fuel : nat) (buffer : pystr)
  : list bytes * pystr :=
  match fuel with
  | O => ([], buffer)
  | S fuel' =>
      match split_newline buffer with
      | None => ([], buffer)
      | Some (line, buffer') =>
          let (out, final) := drain_lines json_bound fuel' buffer' in
          (relay_line json_bound line :: out, final)
      end
  end.

(** [async for chunk in response.aiter_bytes(): ...] and the final flush. *)
Fixpoint stream_chunks (json_bound : bool) (buffer : pystr)
         (chunks : list bytes) : list bytes :=
  match chunks with
  | [] => match buffer with
          | [] => []
          | _ => [utf8_encode buffer]
          end
  | chunk :: rest =>
      match utf8_decode chunk with
      | Raise _ => chunk :: stream_chunks json_bound buffer rest
      | Ok text =>
          let buffer := buffer ++ text in
          let (out, buffer') :=
            drain_lines json_bound (List.length buffer) buffer in
          out ++ stream_chunks json_bound buffer' rest
      end
  end.

Definition stream_generator (json_bound : bool) (chunks : list bytes)
  : list bytes :=
  stream_chunks json_bound [] chunks.

(** *** Non-streaming relay (lines 637-752) *)

(** One iteration of [for tc_idx, tool_call in enumerate(tool_calls)]
    (lines 662-748). *)
Definition response_tool_call (tool_call : json) : result json :=
  if isinstance_dict tool_call then
    tc_name <- function_field tool_call (u "name") (JStr (u "unknown")) ;;
    tc_args <- function_field tool_call (u "arguments") (JStr []) ;;
    transform <- is_read_file_call tool_call tc_name tc_args ;;
    if transform then
      except_ValueError tool_call
        (args_dict <- loads tc_args ;;
         st <- coerce_lines args_dict ;;
         let (args_dict', modified) := st in
         if modified then set_arguments tool_call args_dict'
         else Ok tool_call)
    else Ok tool_call
  else Ok tool_call.

(** One iteration of [for choice_idx, choice in enumerate(...)]. *)
Definition response_choice (choice : json) : result json :=
  if has_key choice (u "message") then
    message <- py_getitem choice (u "message") ;;
    if has_key message (u "tool_calls") then
      tool_calls <- py_getitem message (u "tool_calls") ;;
      match tool_calls with
      | JList ((_ :: _) as l) =>
          l' <- mapM response_tool_call l ;;
          Ok (put_back choice (u "message")
                       (put_back message (u "tool_calls") (JList l')))
      | _ => Ok choice
      end
    else Ok choice
  else Ok choice.

Definition relay_json (response_json : json) : result json :=
  present <- py_in (u "choices") response_json ;;
  if present then
    choices <- py_getitem response_json (u "choices") ;;
    match choices with
    | JList l =>
        l' <- mapM response_choice l ;;
        Ok (put_back response_json (u "choices") (JList l'))
    | _ => Ok response_json
    end
  else Ok response_json.

(** Lines 641-752: the content returned to the client for the content
    read. *)
Definition non_streaming_content (json_bound : bool) (status : Z)
           (path : pystr) (content : bytes) : bytes :=
  if (status =? 200)%Z && str_contains (u "chat/completions") path then
    or_original content
      (text <- (if json_bound then utf8_decode content else Raise NameError) ;;
       response_json <- loads (JStr text) ;;
       response_json' <- relay_json response_json ;;
       Ok (dumps_bytes response_json'))
  else content.

(** ** The handler ([proxy_request], lines 428-831) *)

Inductive client_body : Type :=
| Buffered (content : bytes)
| Streamed (chunks : list bytes).

Record client_response : Type := {
  client_status : Z;
  client_headers : headers;
  body_sent : client_body
}.

(** The text of an exception, where the model records one. *)
Definition exn_text (e : exn) : pystr :=
  match e with
  | RequestError msg | OtherException msg => msg
  | _ => []
  end.

(** The two [except] clauses of lines 820-831. *)
Definition error_response (e : exn) : client_response :=
  match e with
  | RequestError msg =>
      {| client_status := 502; client_headers := [];
         body_sent := Buffered (utf8_encode (u "Proxy request failed: " ++ msg)) |}
  | _ =>
      {| client_status := 500; client_headers := [];
         body_sent :=
           Buffered (utf8_encode (u "Internal proxy error: " ++ exn_text e)) |}
  end.

(** [is_streaming] (line 446) *)
Definition is_streaming (r : response) : bool :=
  let content_type :=
    match dict_lookup (u "content-type") (resp_headers r) with
    | Some v => v
    | None => []
    end in
  str_contains (u "text/event-stream") content_type
  || str_contains (u "stream") content_type.

(** What httpx raises when the content of a response is read after its
    stream was consumed without the content being kept. *)
Definition StreamConsumed : exn :=
  OtherException
    (u "Attempted to read or stream some content, but the content has already been streamed. For requests, this could be due to passing a generator as request content, and then receiving a redirect response or a secondary request as part of an authentication flow.For responses, this could be due to attempting to stream the response content more than once.").

(** [await response.aread()] at line 638.  The engine has read a 429
    before (line 66): httpx keeps the content of a read that succeeded and
    gives it again; a read that failed has consumed the stream, and reading
    again raises [StreamConsumed]. *)
Definition aread_in_handler (r : response) : result bytes :=
  if (status_code r =? 429)%Z then
    match aread r with
    | Ok content => Ok content
    | Raise _ => Raise StreamConsumed
    end
  else aread r.

(** Lines 444-818 on the response the engine returned. *)
Definition relay_response (json_bound : bool) (path : pystr) (r : response)
  : client_response :=
  if is_streaming r then
    {| client_status := status_code r; client_headers := resp_headers r;
       body_sent := Streamed (stream_generator json_bound (aiter_bytes r)) |}
  else
    match aread_in_handler r with
    | Raise e => error_response e
    | Ok content =>
        {| client_status := status_code r; client_headers := resp_headers r;
           body_sent :=
             Buffered (non_streaming_content json_bound (status_code r)
                                             path content) |}
    end.

(** The upstream as the handler meets it: for the headers and body sent,
    what each successive [client.send] does. *)
Definition upstream := headers -> bytes -> nat -> result response.

Definition proxy_request (cfg : config) (up : upstream)
           (clock : nat -> Z) (draws : nat -> Q)
           (path : pystr) (request_headers : headers) (body : bytes)
  : list event * client_response :=
  let '(hdrs, body', json_bound) := prepare_request path request_headers body in
  let w := {| func := up hdrs body'; time_time := clock; uniform := draws |} in
  match retry_with_backoff cfg w None None with
  | (evs, Raised e) => (evs, error_response e)
  | (evs, Returned r) => (evs, relay_response json_bound path r)
  end.
End Proxy.

(** ** An executable reading of the library

    [cpython] follows CPython's [json] module and [int] on the inputs below;
    it is what the concrete runs use.  Three things are outside it: a
    number with a fraction or an exponent is kept under the text it was
    written with (CPython rounds it to a double and prints its [repr]),
    [int] reads ASCII digits only, and no limit on nesting depth or digit
    count applies. *)

Definition is_digit (c : N) : bool := ((48 <=? c) && (c <=? 57))%N.

(** Digits of [int]: single underscores are allowed between digits. *)
Fixpoint int_digits (acc : Z) (after_digit : bool) (s : pystr) : option Z :=
  match s with
  | [] => if after_digit then Some acc else None
  | c :: rest =>
      if is_digit c then
        int_digits (acc * 10 + Z.of_N (c - 48)) true rest
      else if (c =? 95)%N && after_digit then
        match rest with
        | d :: _ => if is_digit d then int_digits acc false rest else None
        | [] => None
        end
      else None
  end.

Definition cpython_int (s : pystr) : option Z :=
  match strip s with
  | 43%N :: r => int_digits 0 false r
  | 45%N :: r => option_map Z.opp (int_digits 0 false r)
  | r => int_digits 0 false r
  end.

(** *** [json.dumps]: [ensure_ascii=True], separators [", "] and [": "] *)

Definition hex_digit (n : N) : N :=
  (if n <? 10 then 48 + n else 87 + n)%N.

Definition escape_u (c : N) : pystr :=
  [92; 117; hex_digit ((c / 4096) mod 16); hex_digit ((c / 256) mod 16);
   hex_digit ((c / 16) mod 16); hex_digit (c mod 16)]%N.

Definition escape_char (c : N) : pystr :=
  (if c =? 34 then [92; 34]
   else if c =? 92 then [92; 92]
   else if c =? 10 then [92; 110]
   else if c =? 13 then [92; 114]
   else if c =? 9 then [92; 116]
   else if c =? 8 then [92; 98]
   else if c =? 12 then [92; 102]
   else if (32 <=? c) && (c <=? 126) then [c]
   else if c <? 65536 then escape_u c
   else escape_u (55296 + (c - 65536) / 1024)
        ++ escape_u (56320 + (c - 65536) mod 1024))%N.

Definition dumps_str (s : pystr) : pystr :=
  34%N :: flat_map escape_char s ++ [34%N].

Fixpoint join (sep : pystr) (parts : list pystr) : pystr :=
  match parts with
  | [] => []
  | [x] => x
  | x :: rest => x ++ sep ++ join sep rest
  end.

Definition dumps_float (r : pystr) : pystr :=
  if pystr_eqb r (u "inf") then u "Infinity"
  else if pystr_eqb r (u "-inf") then u "-Infinity"
  else if pystr_eqb r (u "nan") then u "NaN"
  else r.

Fixpoint cpython_dumps (v : json) : pystr :=
  match v with
  | JNull => u "null"
  | JBool true => u "true"
  | JBool false => u "false"
  | JInt z => str_of_Z z
  | JFloat r => dumps_float r
  | JStr s => dumps_str s
  | JList l => u "[" ++ join (u ", ") (map cpython_dumps l) ++ u "]"
  | JDict d =>
      u "{"
      ++ join (u ", ")
              (map (fun kv => match kv with
                              | (k, x) => dumps_str k ++ u ": " ++ cpython_dumps x
                              end) d)
      ++ u "}"
  end.

(** *** [json.loads] *)

Definition is_ws (c : N) : bool :=
  ((c =? 32) || (c =? 9) || (c =? 10) || (c =? 13))%N.

Fixpoint skip_ws (s : pystr) : pystr :=
  match s with
  | c :: r => if is_ws c then skip_ws r else s
  | [] => []
  end.

Definition hex_value (c : N) : option N :=
  (if is_digit c then Some (c - 48)
   else if (97 <=? c) && (c <=? 102) then Some (c - 87)
   else if (65 <=? c) && (c <=? 70) then Some (c - 55)
   else None)%N.

Definition hex4 (s : pystr) : option (N * pystr) :=
  match s with
  | a :: b :: c :: d :: r =>
      match hex_value a, hex_value b, hex_value c, hex_value d with
      | Some a, Some b, Some c, Some d =>
          Some ((((a * 16 + b) * 16 + c) * 16 + d)%N, r)
      | _, _, _, _ => None
      end
  | _ => None
  end.

Definition simple_escape (c : N) : option N :=
  (if c =? 34 then Some 34 else if c =? 92 then Some 92
   else if c =? 47 then Some 47 else if c =? 98 then Some 8
   else if c =? 102 then Some 12 else if c =? 110 then Some 10
   else if c =? 114 then Some 13 else if c =? 116 then Some 9
   else None)%N.

(** The text of a string literal after its opening quote, and what follows
    the closing quote.  A high surrogate escape followed by a low one gives
    one code point. *)
Fixpoint scan_string (fuel : nat) (s : pystr) : option (pystr * pystr) :=
  match fuel with
  | O => None
  | S fuel' =>
      let cons_to (c : N) (r : pystr) :=
        match scan_string fuel' r with
        | Some (t, r') => Some (c :: t, r')
        | None => None
        end in
      match s with
      | [] => None
      | 34%N :: r => Some ([], r)
      | 92%N :: 117%N :: r =>
          match hex4 r with
          | Some (c, r1) =>
              if ((55296 <=? c) && (c <=? 56319))%N then
                match r1 with
                | 92%N :: 117%N :: r2 =>
                    match hex4 r2 with
                    | Some (c2, r3) =>
                        if ((56320 <=? c2) && (c2 <=? 57343))%N
                        then cons_to (65536 + (c - 55296) * 1024
                                      + (c2 - 56320))%N r3
                        else cons_to c r1
                    | None => None
                    end
                | _ => cons_to c r1
                end
              else cons_to c r1
          | None => None
          end
      | 92%N :: e :: r =>
          match simple_escape e with
          | Some c => cons_to c r
          | None => None
          end
      | c :: r => if (c <? 32)%N then None else cons_to c r
      end
  end.

Fixpoint take_digits (s : pystr) : pystr * pystr :=
  match s with
  | c :: r => if is_digit c
              then let (d, r') := take_digits r in (c :: d, r')
              else ([], s)
  | [] => ([], [])
  end.

Definition digits_value (d : pystr) : Z :=
  fold_left (fun acc c => (acc * 10 + Z.of_N (c - 48))%Z) d 0%Z.

(** A number: an optional minus, then 0 or a non-zero digit and more
    digits, then an optional fraction (a dot and digits) and an optional
    exponent (e or E, an optional sign, digits). *)
Definition scan_number (s : pystr) : option (json * pystr) :=
  let (sign, r) :=
    match s with
    | 45%N :: r => ([45%N], r)
    | _ => ([], s)
    end in
  let integer :=
    match r with
    | 48%N :: r1 => Some ([48%N], r1)
    | c :: _ => if is_digit c then Some (take_digits r) else None
    | [] => None
    end in
  match integer with
  | None => None
  | Some (int_part, r1) =>
      let (frac, r2) :=
        match r1 with
        | 46%N :: d :: _ =>
            if is_digit d
            then let (ds, r') := take_digits (tl r1) in (46%N :: ds, r')
            else ([], r1)
        | _ => ([], r1)
        end in
      let (expo, r3) :=
        match r2 with
        | e :: d :: _ =>
            if ((e =? 101) || (e =? 69))%N then
              if is_digit d
              then let (ds, r') := take_digits (tl r2) in (e :: ds, r')
              else if ((d =? 43) || (d =? 45))%N then
                match tl (tl r2) with
                | d' :: _ =>
                    if is_digit d'
                    then let (ds, r') := take_digits (tl (tl r2)) in
                         (e :: d :: ds, r')
                    else ([], r2)
                | [] => ([], r2)
                end
              else ([], r2)
            else ([], r2)
        | _ => ([], r2)
        end in
      match frac, expo with
      | [], [] =>
          let n := digits_value int_part in
          Some (JInt (match sign with [] => n | _ => Z.opp n end), r3)
      | _, _ => Some (JFloat (sign ++ int_part ++ frac ++ expo), r3)
      end
  end.

Definition strip_prefix (prefix s : pystr) : option pystr :=
  if startswith prefix s then Some (skipn (List.length prefix) s) else None.

Definition scan_atom (s : pystr) : option (json * pystr) :=
  match strip_prefix (u "null") s with
  | Some r => Some (JNull, r)
  | None =>
  match strip_prefix (u "true") s with
  | Some r => Some (JBool true, r)
  | None =>
  match strip_prefix (u "false") s with
  | Some r => Some (JBool false, r)
  | None =>
  match scan_number s with
  | Some x => Some x
  | None =>
  match strip_prefix (u "NaN") s with
  | Some r => Some (JFloat (u "nan"), r)
  | None =>
  match strip_prefix (u "Infinity") s with
  | Some r => Some (JFloat (u "inf"), r)
  | None =>
  match strip_prefix (u "-Infinity") s with
  | Some r => Some (JFloat (u "-inf"), r)
  | None => None
  end end end end end end end.

Fixpoint parse_value (fuel : nat) (s : pystr) {struct fuel}
  : option (json * pystr) :=
  match fuel with
  | O => None
  | S fuel' =>
      match s with
      | 34%N :: r =>
          match scan_string (S (List.length r)) r with
          | Some (t, r') => Some (JStr t, r')
          | None => None
          end
      | 123%N :: r =>
          match skip_ws r with
          | 125%N :: r' => Some (JDict [], r')
          | r' => parse_members fuel' r' []
          end
      | 91%N :: r =>
          match skip_ws r with
          | 93%N :: r' => Some (JList [], r')
          | r' => parse_elements fuel' r' []
          end
      | _ => scan_atom s
      end
  end

with parse_elements (fuel : nat) (s : pystr) (acc : list json) {struct fuel}
  : option (json * pystr) :=
  match fuel with
  | O => None
  | S fuel' =>
      match parse_value fuel' s with
      | Some (v, r) =>
          match skip_ws r with
          | 93%N :: r' => Some (JList (rev (v :: acc)), r')
          | 44%N :: r' => parse_elements fuel' (skip_ws r') (v :: acc)
          | _ => None
          end
      | None => None
      end
  end

with parse_members (fuel : nat) (s : pystr) (acc : list (pystr * json))
                   {struct fuel} : option (json * pystr) :=
  match fuel with
  | O => None
  | S fuel' =>
      match s with
      | 34%N :: r =>
          match scan_string (S (List.length r)) r with
          | Some (k, r1) =>
              match skip_ws r1 with
              | 58%N :: r2 =>
                  match parse_value fuel' (skip_ws r2) with
                  | Some (v, r3) =>
                      let acc' := dict_set k v acc in
                      match skip_ws r3 with
                      | 125%N :: r4 => Some (JDict acc', r4)
                      | 44%N :: r4 => parse_members fuel' (skip_ws r4) acc'
                      | _ => None
                      end
                  | None => None
                  end
              | _ => None
              end
          | None => None
          end
      | _ => None
      end
  end.

Definition cpython_loads (s : pystr) : option json :=
  match s with
  | 65279%N :: _ => None
  | _ =>
      match parse_value (S (List.length s)) (skip_ws s) with
      | Some (v, r) => match skip_ws r with
                       | [] => Some v
                       | _ => None
                       end
      | None => None
      end
  end.

#[export] Instance cpython : PyLib := {
  json_loads := cpython_loads;
  json_dumps := cpython_dumps;
  py_int := cpython_int
}.


(** ** Path and target mapping ([proxy_request], lines 186-199) *)

(** [s.endswith(suffix)] *)
Definition endswith (suffix s : pystr) : bool :=
  startswith (rev suffix) (rev s).

(** Lines 188-191: the extra [api/] prefix is dropped when the base URL
    already ends with [/api/v1]. *)
Definition target_path (OPENAI_BASE_URL path : pystr) : pystr :=
  if startswith (u "api/") path && endswith (u "/api/v1") OPENAI_BASE_URL
  then slice_from 4 path
  else path.

(** Lines 194-199: [query_params] is [str(request.url.query)]. *)
Definition target_url (OPENAI_BASE_URL path query_params : pystr) : pystr :=
  let target_url := OPENAI_BASE_URL ++ u "/" ++ target_path OPENAI_BASE_URL path in
  match query_params with
  | [] => target_url
  | _ => target_url ++ u "?" ++ query_params
  end.

(** [OPENAI_BASE_URL] when the environment does not set it (line 19). *)
Definition default_base_url : pystr := u "https://api.venice.ai/api/v1".
(** [MAX_RETRIES], [BASE_RETRY_DELAY] and [RATE_LIMIT_WAIT] when the
    environment sets none of them (lines 24-28). *)
Definition default_config : config :=
  {| MAX_RETRIES := 5; BASE_RETRY_DELAY := 1; RATE_LIMIT_WAIT := 30 |}.

(** ** Reading a trace *)

(** How many times [func] was awaited. *)
Fixpoint calls (evs : list event) : nat :=
  match evs with
  | [] => O
  | Call _ :: rest => S (calls rest)
  | Sleep _ :: rest => calls rest
  end.

(** The durations slept, in order. *)
Fixpoint sleeps (evs : list event) : list Q :=
  match evs with
  | [] => []
  | Sleep d :: rest => d :: sleeps rest
  | Call _ :: rest => sleeps rest
  end.

(** A 429 whose body holds the lockout phrase (lines 62-68). *)
Definition is_lockout (r : response) : bool :=
  (status_code r =? 429)%Z
  && match aread r with
     | Ok error_content =>
         match utf8_decode error_content with
         | Ok error_text => str_contains (u "Too many failed attempts") error_text
         | Raise _ => false
         end
     | Raise _ => false
     end.

(** ** Reading a rewritten document *)

(** [k] is absent from [d] or bound to something that is not a [str]. *)
Definition not_str_at (k : pystr) (d : dict json) : Prop :=
  forall s, dict_lookup k d <> Some (JStr s).

(** [d'] has the keys of [d] in the same order and the same value under
    every key other than [start_line] and [end_line]. *)
Definition same_but_lines (d d' : dict json) : Prop :=
  map fst d' = map fst d
  /\ forall k, k <> u "start_line" -> k <> u "end_line" ->
               dict_lookup k d' = dict_lookup k d.

(** The tool call [t], whose [function] object is [f], with a new arguments
    text. *)
Definition with_arguments (t f : dict json) (text : pystr) : json :=
  JDict (dict_set (u "function")
                  (JDict (dict_set (u "arguments") (JStr text) f)) t).

(** [f.get(k, default)] on the entries of a dict. *)
Definition field_or (k : pystr) (default : json) (f : dict json) : json :=
  match dict_lookup k f with
  | Some x => x
  | None => default
  end.

(** The arguments text of a tool call. *)
Definition arguments_text (tool_call : json) : option pystr :=
  match tool_call with
  | JDict t =>
      match dict_lookup (u "function") t with
      | Some (JDict f) =>
          match dict_lookup (u "arguments") f with
          | Some (JStr s) => Some s
          | _ => None
          end
      | _ => None
      end
  | _ => None
  end.

(** A tool call as the OpenAI dialect writes it. *)
Definition tool_call_of (name args : pystr) : json :=
  JDict [(u "id", JStr (u "call_1")); (u "type", JStr (u "function"));
         (u "function",
          JDict [(u "name", JStr name); (u "arguments", JStr args)])].

Section Reading.
Context {lib : PyLib}.

(** [tool_call'] is [tool_call] with the coercion applied: [tool_call] is
    an object whose [function] object is named [read_file] and carries a
    non-empty arguments text, that text parses to an object [d] in which the
    coercion converts at least one line field, and [tool_call'] carries the
    serialization of the converted object instead. *)
Definition coerced_from (tool_call tool_call' : json) : Prop :=
  exists (t f : dict json) (s : pystr) (d d' : dict json),
    tool_call = JDict t
    /\ dict_lookup (u "function") t = Some (JDict f)
    /\ dict_lookup (u "name") f = Some (JStr (u "read_file"))
    /\ dict_lookup (u "arguments") f = Some (JStr s)
    /\ s <> []
    /\ json_loads s = Some (JDict d)
    /\ coerce_lines (JDict d) = Ok (JDict d', true)
    /\ tool_call' = with_arguments t f (json_dumps (JDict d')).

(** In the request pass the new arguments text is parsed back for a log
    line; the pass goes on when that gives an object or fails as a
    [ValueError]. *)
Definition verifiable (text : pystr) : Prop :=
  json_loads text = None \/ exists d, json_loads text = Some (JDict d).
End Reading.

(** ** Sample inputs *)

Definition lockout_response : response :=
  {| status_code := 429; resp_headers := [];
     aread := Ok (u "Too many failed attempts. Try again in 30 seconds.");
     aiter_bytes := [] |}.

Definition always_locked_out : world :=
  {| func := fun _ => Ok lockout_response;
     time_time := fun _ => 1700000000%Z;
     uniform := fun _ => 0 |}.


Definition rate_limited_response : response :=
  {| status_code := 429;
     resp_headers := [(u "x-ratelimit-reset-requests", u "30")];
     aread := Ok (dq "{'error': 'Rate limit exceeded'}");
     aiter_bytes := [] |}.

Definition one_rate_limit : world :=
  {| func := fun _ => Ok rate_limited_response;
     time_time := fun _ => 1700000000%Z;
     uniform := fun _ => 0 |}.

Definition unreadable_429 : response :=
  {| status_code := 429; resp_headers := [];
     aread := Raise (RequestError (u "Server disconnected"));
     aiter_bytes := [] |}.

Definition bad_header_429 : response :=
  {| status_code := 429;
     resp_headers := [(u "x-ratelimit-reset-requests", u "soon")];
     aread := Ok (dq "{'error': 'Rate limit exceeded'}");
     aiter_bytes := [] |}.

Definition bad_reset_header : world :=
  {| func := fun _ => Ok bad_header_429;
     time_time := fun _ => 1700000000%Z;
     uniform := fun _ => 1 # 2 |}.

Definition body_lost : world :=
  {| func := fun _ => Ok unreadable_429;
     time_time := fun _ => 1700000000%Z;
     uniform := fun _ => 0 |}.


(** The argument documents of the coercion example. *)
Definition string_lines_text : pystr := dq "{'start_line':'5','end_line':'10'}".

Definition string_lines : dict json :=
  [(u "start_line", JStr (u "5")); (u "end_line", JStr (u "10"))].

Definition integer_lines : dict json :=
  [(u "start_line", JInt 5); (u "end_line", JInt 10)].

Definition integer_lines_text : pystr := dq "{'start_line': 5, 'end_line': 10}".

(** [parallel_tool_calls] is bound in [d] to something that is not a
    [bool]. *)
Definition malformed_parallel_flag (d : dict json) : bool :=
  match dict_lookup (u "parallel_tool_calls") d with
  | Some v => negb (isinstance_bool v)
  | None => false
  end.

(** The keys the chat-completions pass removes from the body [d]. *)
Definition is_removed (d : dict json) (k : pystr) : bool :=
  existsb (pystr_eqb k) unsupported_params
  || (pystr_eqb k (u "parallel_tool_calls") && malformed_parallel_flag d).

(** The body after the three unsupported parameters were popped, and after
    the flag was looked at. *)
Definition popped (d : dict json) : dict json :=
  dict_pop (u "top_logprobs")
    (dict_pop (u "logprobs") (dict_pop (u "prompt_cache_key") d)).

Definition cleaned (d : dict json) : dict json :=
  if malformed_parallel_flag (popped d)
  then dict_pop (u "parallel_tool_calls") (popped d)
  else popped d.

(** A body that is not JSON, and a JSON body the pass fails on. *)
Definition not_json_body : bytes := u "model=m&logprobs=true".

Definition odd_tools_body : bytes := dq "{'logprobs':true,'tools':5}".

(** A chat-completions body with the unsupported parameters and a boolean
    flag, parsed, and what the pass makes of it. *)
Definition flagged_body : bytes :=
  dq "{'model':'m','logprobs':true,'top_logprobs':3,'prompt_cache_key':'k','parallel_tool_calls':false}".

Definition flagged_json : dict json :=
  [(u "model", JStr (u "m")); (u "logprobs", JBool true);
   (u "top_logprobs", JInt 3); (u "prompt_cache_key", JStr (u "k"));
   (u "parallel_tool_calls", JBool false)].

Definition flagged_clean : dict json :=
  [(u "model", JStr (u "m")); (u "parallel_tool_calls", JBool false)].

(** ** Where the tool calls are *)

(** The entries of [v] and its list of tool calls, when [v] is an object
    with a list under [tool_calls]. *)
Definition tool_calls_in (v : json) : option (dict json * list json) :=
  match v with
  | JDict m =>
      match dict_lookup (u "tool_calls") m with
      | Some (JList l) => Some (m, l)
      | _ => None
      end
  | _ => None
  end.

(** The same one level down: [choice[key]] is the object holding the tool
    calls ([key] is [message] in a response, [delta] in a streamed event). *)
Definition holder_calls (key : pystr) (choice : json)
  : option (dict json * dict json * list json) :=
  match choice with
  | JDict c =>
      match dict_lookup key c with
      | Some holder =>
          match tool_calls_in holder with
          | Some (m, l) => Some (c, m, l)
          | None => None
          end
      | None => None
      end
  | _ => None
  end.

Definition with_tool_calls (m : dict json) (l : list json) : json :=
  JDict (dict_set (u "tool_calls") (JList l) m).

Definition with_holder (key : pystr) (c m : dict json) (l : list json) : json :=
  JDict (dict_set key (with_tool_calls m l) c).

Section Relations.
Context {lib : PyLib}.

(** [tool_call'] is [tool_call], or differs from it in the arguments text
    only, which then is the serialization of an object with the keys of the
    original arguments, in their order, and the same value under every key
    but [start_line] and [end_line]. *)
Definition same_call_but_lines (tool_call tool_call' : json) : Prop :=
  tool_call' = tool_call
  \/ exists (t f : dict json) (s : pystr) (d d' : dict json),
       tool_call = JDict t
       /\ dict_lookup (u "function") t = Some (JDict f)
       /\ dict_lookup (u "arguments") f = Some (JStr s)
       /\ json_loads s = Some (JDict d)
       /\ same_but_lines d d'
       /\ tool_call' = with_arguments t f (json_dumps (JDict d')).

Definition same_choice_but_lines (key : pystr) (choice choice' : json) : Prop :=
  choice' = choice
  \/ exists c m l l',
       holder_calls key choice = Some (c, m, l)
       /\ Forall2 same_call_but_lines l l'
       /\ choice' = with_holder key c m l'.

(** [doc'] is [doc] up to the line fields of tool-call arguments. *)
Definition same_document_but_lines (key : pystr) (doc doc' : json) : Prop :=
  doc' = doc
  \/ exists d choices choices',
       doc = JDict d
       /\ dict_lookup (u "choices") d = Some (JList choices)
       /\ Forall2 (same_choice_but_lines key) choices choices'
       /\ doc' = JDict (dict_set (u "choices") (JList choices') d).
End Relations.

Section Traversals.
Context {lib : PyLib}.

(** What the stream relay does to one choice, the variable [line] left
    aside. *)
Definition stream_choice_calls (choice : json) : result json :=
  match holder_calls (u "delta") choice with
  | Some (c, m, l) =>
      l' <- mapM (fun tool_call => r <- stream_tool_call tool_call ;; Ok (fst r)) l ;;
      Ok (with_holder (u "delta") c m l')
  | None => Ok choice
  end.
End Traversals.

(** A response whose content holds a non-ASCII character, as UTF-8. *)
Definition accented_content : bytes :=
  dq "{'content':'caf" ++ [195; 169]%N ++ dq "'}".

(** A response with a [read_file] call whose arguments hold a string-typed
    line field next to another field. *)
Definition path_and_line_content : bytes :=
  dq "{'choices':[{'message':{'tool_calls':[{'function':{'name':'read_file','arguments':'{\'path\':\'a\',\'start_line\':\'5\'}'}}]}}]}".

(** A request whose only tool call is not named [read_file] and carries
    string-typed line fields. *)
Definition edit_file_request : bytes :=
  dq "{'messages':[{'role':'assistant','tool_calls':[{'id':'call_1','type':'function','function':{'name':'edit_file','arguments':'{\'start_line\':\'5\',\'end_line\':\'10\'}'}}]}]}".

(** The sentinel line of an event stream framed with CR LF. *)
Definition crlf_done : bytes := u "data: [DONE]" ++ [13; 10]%N.

(** ** Framing *)

(** The complete lines of a text, without their newline, and what follows
    the last newline. *)
Fixpoint complete_lines (text : pystr) : list pystr * pystr :=
  match text with
  | [] => ([], [])
  | c :: rest =>
      let (ls, tail) := complete_lines rest in
      if N.eqb c 10 then ([] :: ls, tail)
      else match ls with
           | [] => ([], c :: tail)
           | l :: ls' => ((c :: l) :: ls', tail)
           end
  end.

(** The final emission for what is left in the buffer. *)
Definition flush (buffer : pystr) : list bytes :=
  match buffer with
  | [] => []
  | _ => [utf8_encode buffer]
  end.

(** A line the relay has nothing to do to: no surrounding whitespace, and
    either not a data line or the sentinel. *)
Definition plain_line (l : pystr) : Prop :=
  strip l = l
  /\ (startswith (u "data: ") l = false \/ l = u "data: [DONE]").

(** ** Reading the engine *)

Inductive decision : Type :=
| Retry (seconds : Q)
| Stop
| Fail (e : exn).

(** [D * 2**attempt + U(0, 1)] with the draw of the attempt. *)
Definition jittered (w : world) (D : Q) (attempt : nat) : Q :=
  D * inject_Z (2 ^ Z.of_nat attempt) + uniform w attempt.

Section Verdicts.
Context {lib : PyLib}.
Variable cfg : config.
Variable w : world.
Variable max_retries : Z.
Variable base_delay : Q.

(** What the engine decides after an attempt: to sleep and try again, to
    stop with what the attempt gave, or to fail on the delay it could not
    compute. *)
Definition backoff_decision (attempt : nat) : decision :=
  match backoff_delay w base_delay attempt with
  | Ok delay => Retry delay
  | Raise e => Fail e
  end.

Definition verdict (attempt : nat) (o : result response) : decision :=
  match o with
  | Ok r =>
      if (status_code r =? 429)%Z then
        match on_429 cfg w max_retries base_delay attempt r with
        | Some d => Retry d
        | None => Stop
        end
      else if (status_code r >=? 500)%Z then
        if may_retry max_retries attempt then backoff_decision attempt
        else Stop
      else Stop
  | Raise (RequestError _) =>
      if may_retry max_retries attempt then backoff_decision attempt
      else Stop
  | Raise _ => Stop
  end.
End Verdicts.

(** What [retry_with_backoff] ends with when it stops on an attempt. *)
Definition outcome_of (o : result response) : outcome :=
  match o with
  | Ok r => Returned r
  | Raise e => Raised e
  end.

(** The attempt numbers of the calls of a trace, in order. *)
Fixpoint call_attempts (evs : list event) : list nat :=
  match evs with
  | [] => []
  | Call k :: rest => k :: call_attempts rest
  | Sleep _ :: rest => call_attempts rest
  end.

(** A 429 that is not the lockout and carries no reset header, or an empty
    one (lines 83-86). *)
Definition is_plain_429 (r : response) : bool :=
  (status_code r =? 429)%Z
  && match aread r with
     | Ok error_content =>
         match utf8_decode error_content with
         | Ok error_text =>
             negb (str_contains (u "Too many failed attempts") error_text)
         | Raise _ => false
         end
     | Raise _ => false
     end
  && match dict_lookup (u "x-ratelimit-reset-requests") (resp_headers r) with
     | Some (_ :: _) => false
     | _ => true
     end.

(** ** Reading a request *)

Section RequestRelations.
Context {lib : PyLib}.

(** [msg'] is [msg] up to the line fields of tool-call arguments. *)
Definition same_message_but_lines (msg msg' : json) : Prop :=
  msg' = msg
  \/ exists m l l',
       tool_calls_in msg = Some (m, l)
       /\ Forall2 same_call_but_lines l l'
       /\ msg' = with_tool_calls m l'.

(** The embeddings body after the rewrite (lines 416-417). *)
Definition float_encoding (d : dict json) : dict json :=
  if eq_str (field_or (u "encoding_format") JNull d) (u "base64")
  then dict_set (u "encoding_format") (JStr (u "float")) d
  else d.

(** The tool calls a streamed choice carries. *)
Definition delta_calls (choice : json) : list json :=
  match holder_calls (u "delta") choice with
  | Some (_, _, l) => l
  | None => []
  end.

(** The stream relay would rewrite this tool call. *)
Definition modifies (tool_call : json) : bool :=
  match stream_tool_call tool_call with
  | Ok (_, true) => true
  | _ => false
  end.

(** Some tool call of some delta of the event is rewritten. *)
Definition rewrites_event (choices : list json) : bool :=
  existsb (fun choice => existsb modifies (delta_calls choice)) choices.

(** The coercion is applied at [tool_call]: [tool_call'] is the coerced
    tool call where there is one, and [tool_call] itself where the coercion
    has nothing to convert. *)
Definition coercion_applied_at (tool_call tool_call' : json) : Prop :=
  coerced_from tool_call tool_call'
  \/ (tool_call' = tool_call /\ forall x, ~ coerced_from tool_call x).

(** The same for every tool call of a request message, and of the message
    or delta of a choice. *)
Definition applied_in_message (msg msg' : json) : Prop :=
  match tool_calls_in msg with
  | Some (m, l) =>
      exists l', Forall2 coercion_applied_at l l' /\ msg' = with_tool_calls m l'
  | None => msg' = msg
  end.

Definition applied_in_choice (key : pystr) (choice choice' : json) : Prop :=
  match holder_calls key choice with
  | Some (c, m, l) =>
      exists l',
        Forall2 coercion_applied_at l l' /\ choice' = with_holder key c m l'
  | None => choice' = choice
  end.
End RequestRelations.

(** ** Reading a stream *)

(** [chunk.decode("utf-8")] succeeds. *)
Definition decodable (chunk : bytes) : bool :=
  match utf8_decode chunk with
  | Ok _ => true
  | Raise _ => false
  end.

(** [l] interleaves [l1] and [l2], each in its order. *)
Inductive interleaved {A : Type} : list A -> list A -> list A -> Prop :=
| interleaved_nil : interleaved [] [] []
| interleaved_left x l1 l2 l :
    interleaved l1 l2 l -> interleaved (x :: l1) l2 (x :: l)
| interleaved_right x l1 l2 l :
    interleaved l1 l2 l -> interleaved l1 (x :: l2) (x :: l).

(** ** Reading the engine's parameters and traces *)

(** [max_retries] and [base_delay] after the defaults of lines 52-55. *)
Definition retries_of (cfg : config) (max_retries : option Z) : Z :=
  match max_retries with Some n => n | None => MAX_RETRIES cfg end.

Definition delay_of (cfg : config) (base_delay : option Q) : Q :=
  match base_delay with Some d => d | None => BASE_RETRY_DELAY cfg end.

(** The trace that calls [func] on [attempt], [attempt + 1], ... and sleeps
    the given durations in between. *)
Fixpoint alternate (attempt : nat) (ds : list Q) : list event :=
  match ds with
  | [] => [Call attempt]
  | d :: ds' => Call attempt :: Sleep d :: alternate (S attempt) ds'
  end.

(** A failure the engine retries with the jittered backoff: a status of
    500 or more, or a transport error. *)
Definition transient (o : result response) : bool :=
  match o with
  | Ok r => (500 <=? status_code r)%Z
  | Raise (RequestError _) => true
  | Raise _ => false
  end.

(** A response the engine hands back at once. *)
Definition final (r : response) : bool :=
  negb (status_code r =? 429)%Z && (status_code r <? 500)%Z.

Definition end_of_loop : exn :=
  OtherException (u "Unexpected end of retry_with_backoff").

(** ** Sample upstreams *)

Definition not_found_response : response :=
  {| status_code := 404;
     resp_headers := [(u "content-type", u "application/json")];
     aread := Ok (dq "{'error': 'Not found'}");
     aiter_bytes := [] |}.

Definition ok_response : response :=
  {| status_code := 200;
     resp_headers := [(u "content-type", u "application/json")];
     aread := Ok (dq "{'object': 'list', 'data': []}");
     aiter_bytes := [] |}.

Definition bad_gateway_response : response :=
  {| status_code := 503; resp_headers := [];
     aread := Ok (u "upstream unavailable");
     aiter_bytes := [] |}.

Definition plain_429_response : response :=
  {| status_code := 429; resp_headers := [];
     aread := Ok (dq "{'error': 'Rate limit exceeded'}");
     aiter_bytes := [] |}.

Definition quiet (f : nat -> result response) : world :=
  {| func := f; time_time := fun _ => 1700000000%Z; uniform := fun _ => 0 |}.

Definition not_found_world : world := quiet (fun _ => Ok not_found_response).

Definition always_unavailable : world :=
  quiet (fun _ => Ok bad_gateway_response).

Definition always_limited : world := quiet (fun _ => Ok plain_429_response).

(** Two failures, then an answer. *)
Definition recovering : world :=
  quiet (fun k =>
           match k with
           | O => Ok bad_gateway_response
           | S O => Raise (RequestError (u "Connection reset"))
           | _ => Ok ok_response
           end).

Definition broken_client : world :=
  quiet (fun _ => Raise (OtherException (u "Event loop is closed"))).

(** ** Sample requests *)

Definition base64_embeddings_body : bytes :=
  dq "{'model':'m','input':'hi','encoding_format':'base64'}".

Definition base64_embeddings_json : dict json :=
  [(u "model", JStr (u "m")); (u "input", JStr (u "hi"));
   (u "encoding_format", JStr (u "base64"))].

(** Arguments whose second line field is not a number. *)
Definition half_numeric_lines_text : pystr :=
  dq "{'path': 'a.py', 'start_line': '5', 'end_line': 'ten'}".

Definition half_numeric_lines : dict json :=
  [(u "path", JStr (u "a.py")); (u "start_line", JStr (u "5"));
   (u "end_line", JStr (u "ten"))].

(** A chat-completions body whose assistant message carries a [read_file]
    call with string-typed line fields, and what the pass makes of it. *)
Definition read_file_message (args : pystr) : json :=
  JDict [(u "role", JStr (u "assistant"));
         (u "tool_calls", JList [tool_call_of (u "read_file") args])].

Definition read_file_request : dict json :=
  [(u "model", JStr (u "m"));
   (u "messages",
    JList [JDict [(u "role", JStr (u "user")); (u "content", JStr (u "hi"))];
           read_file_message string_lines_text])].

Definition read_file_request_sent : dict json :=
  [(u "model", JStr (u "m"));
   (u "messages",
    JList [JDict [(u "role", JStr (u "user")); (u "content", JStr (u "hi"))];
           read_file_message integer_lines_text])].

(** ** Sample streams *)

(** The same two events, cut at different places. *)
Definition events_cut_mid_line : list bytes :=
  [u "data: {'a'"; u ": 1}" ++ [10; 10]%N ++ u "data: [DO"; u "NE]" ++ [10; 10]%N].

Definition events_cut_at_lines : list bytes :=
  [u "data: {'a': 1}" ++ [10]%N; [10]%N; u "data: [DONE]" ++ [10; 10]%N].

Definition comment_and_sentinel : list bytes :=
  [u ": ping" ++ [10]%N ++ u "data: [D"; u "ONE]" ++ [10]%N].

Definition content_event_line : pystr :=
  dq "data: {'choices':[{'index':0,'delta':{'content':'hi'}}]}" ++ [13]%N.

(** ** Sample documents with a [read_file] call *)

Definition read_file_request_body : bytes :=
  dq "{'model':'m','messages':[{'role':'user','content':'hi'},{'role':'assistant','tool_calls':[{'id':'call_1','type':'function','function':{'name':'read_file','arguments':'{\'start_line\':\'5\',\'end_line\':\'10\'}'}}]}]}".

Definition read_file_choices (holder : pystr) (args : pystr) : dict json :=
  [(u "choices",
    JList [JDict [(u "index", JInt 0);
                  (holder,
                   JDict [(u "tool_calls",
                           JList [tool_call_of (u "read_file") args])])]])].

Definition read_file_response : bytes :=
  dq "{'choices':[{'index':0,'message':{'tool_calls':[{'id':'call_1','type':'function','function':{'name':'read_file','arguments':'{\'start_line\':\'5\',\'end_line\':\'10\'}'}}]}}]}".

Definition read_file_event : pystr :=
  dq "data: {'choices':[{'index':0,'delta':{'tool_calls':[{'id':'call_1','type':'function','function':{'name':'read_file','arguments':'{\'start_line\':\'5\',\'end_line\':\'10\'}'}}]}}]}"
     ++ [13]%N.

(** The items of a list found under a key. *)
Definition JList_items (v : option json) : list json :=
  match v with
  | Some (JList l) => l
  | _ => []
  end.

(** A configuration whose budget reaches past attempt 1024. *)
Definition patient_config : config :=
  {| MAX_RETRIES := 2000; BASE_RETRY_DELAY := 1; RATE_LIMIT_WAIT := 30 |}.
(** * Properties *)

Unset Implicit Arguments.

(** ** Retry engine *)

Section RetryFacts.
Context {lib : PyLib}.
Variable cfg : config.
Variable w : world.
Variable max_retries : Z.
Variable base_delay : Q.

Lemma header_wait_time_cases (v t : Z) :
  header_wait_time v t =
  Z.min 3600
    (Z.max 1 (if (v >? t * 1000)%Z then v / 1000 - t
              else if (v <? 3600)%Z then v
              else v - t))%Z.
Proof.
  unfold header_wait_time.
  destruct (v >? t * 1000)%Z; [|destruct (v <? 3600)%Z]; apply Z.min_comm.
Qed.

Lemma header_wait_time_bounds (v t : Z) :
  (1 <= header_wait_time v t <= 3600)%Z.
Proof. rewrite header_wait_time_cases. lia. Qed.

(** The verdict on a 429 that is not the lockout and carries a numeric
    reset header. *)
Lemma on_429_numeric_header
      (attempt : nat) (r : response) (body : bytes) (text h : pystr) (v : Z) :
  aread r = Ok body ->
  utf8_decode body = Ok text ->
  str_contains (u "Too many failed attempts") text = false ->
  dict_lookup (u "x-ratelimit-reset-requests") (resp_headers r) = Some h ->
  h <> [] ->
  py_int h = Some v ->
  may_retry max_retries attempt = true ->
  on_429 cfg w max_retries base_delay attempt r
  = Some (inject_Z (header_wait_time v (time_time w attempt))).
Proof.
  intros Hread Hdec Hlock Hhdr Hne Hint Hretry.
  unfold on_429. rewrite Hread. cbn [bind]. rewrite Hdec. cbn [bind].
  rewrite Hlock, Hhdr.
  destruct h as [|c h']; [congruence|].
  now rewrite Hint, Hretry.
Qed.

(** The verdict when [int] rejects the header: the [ValueError] is caught
    by the handler next to it and the attempt falls back to the jittered
    backoff. *)
Lemma on_429_bad_header
      (attempt : nat) (r : response) (body : bytes) (text h : pystr) :
  aread r = Ok body ->
  utf8_decode body = Ok text ->
  str_contains (u "Too many failed attempts") text = false ->
  dict_lookup (u "x-ratelimit-reset-requests") (resp_headers r) = Some h ->
  py_int h = None ->
  may_retry max_retries attempt = true ->
  on_429 cfg w max_retries base_delay attempt r
  = match backoff_delay w base_delay attempt with
    | Ok delay => Some delay
    | Raise _ => None
    end.
Proof.
  intros Hread Hdec Hlock Hhdr Hint Hretry.
  unfold on_429. rewrite Hread. cbn [bind]. rewrite Hdec. cbn [bind].
  rewrite Hlock, Hhdr, Hretry.
  destruct h as [|c h']; [|rewrite Hint];
    now destruct (backoff_delay w base_delay attempt).
Qed.

(** The delay below attempt 1024, and from there on. *)
Lemma backoff_delay_small (attempt : nat) :
  (attempt < 1024)%nat ->
  backoff_delay w base_delay attempt
  = Ok (base_delay * inject_Z (2 ^ Z.of_nat attempt) + uniform w attempt).
Proof.
  intro H. unfold backoff_delay.
  now replace (attempt <? 1024)%nat with true
    by (symmetry; apply Nat.ltb_lt; exact H).
Qed.

Lemma backoff_delay_large (attempt : nat) :
  (1024 <= attempt)%nat ->
  backoff_delay w base_delay attempt = Raise OverflowError.
Proof.
  intro H. unfold backoff_delay.
  now replace (attempt <? 1024)%nat with false
    by (symmetry; apply Nat.ltb_ge; exact H).
Qed.

(** The verdict when the body cannot be read or decoded. *)
Lemma on_429_body_error (attempt : nat) (r : response) :
  (exists e, aread r = Raise e)
  \/ (exists body e, aread r = Ok body /\ utf8_decode body = Raise e) ->
  on_429 cfg w max_retries base_delay attempt r = None.
Proof.
  unfold on_429. intros [[e He] | (body & e & Hb & He)].
  - now rewrite He.
  - rewrite Hb. cbn [bind]. now rewrite He.
Qed.

(** One iteration of the loop. *)
Lemma retry_loop_step (remaining attempt : nat) :
  retry_loop cfg w max_retries base_delay (S remaining) attempt =
  let continue (d : Q) :=
    (Call attempt :: Sleep d
       :: fst (retry_loop cfg w max_retries base_delay remaining (S attempt)),
     snd (retry_loop cfg w max_retries base_delay remaining (S attempt))) in
  let backoff :=
    match backoff_delay w base_delay attempt with
    | Ok delay => continue delay
    | Raise e => ([Call attempt], Raised e)
    end in
  match func w attempt with
  | Ok r =>
      if (status_code r =? 429)%Z then
        match on_429 cfg w max_retries base_delay attempt r with
        | Some d => continue d
        | None => ([Call attempt], Returned r)
        end
      else if (status_code r >=? 500)%Z then
        if may_retry max_retries attempt then backoff
        else ([Call attempt], Returned r)
      else ([Call attempt], Returned r)
  | Raise (RequestError msg) =>
      if may_retry max_retries attempt then backoff
      else ([Call attempt], Raised (RequestError msg))
  | Raise e => ([Call attempt], Raised e)
  end.
Proof.
  cbn [retry_loop].
  destruct (retry_loop cfg w max_retries base_delay remaining (S attempt)).
  reflexivity.
Qed.

(** The loop awaits [func] once per iteration at most. *)
Lemma retry_loop_calls (remaining attempt : nat) :
  (calls (fst (retry_loop cfg w max_retries base_delay remaining attempt))
   <= remaining)%nat.
Proof.
  revert attempt. induction remaining as [|n IH]; intro attempt; cbn [retry_loop].
  - cbn. lia.
  - specialize (IH (S attempt)).
    destruct (retry_loop cfg w max_retries base_delay n (S attempt)) as [evs res].
    cbn [fst] in IH.
    destruct (func w attempt) as [r|e].
    + destruct (status_code r =? 429)%Z.
      * destruct (on_429 cfg w max_retries base_delay attempt r); cbn; lia.
      * destruct (status_code r >=? 500)%Z;
          [destruct (may_retry max_retries attempt);
           [destruct (backoff_delay w base_delay attempt)|]|]; cbn; lia.
    + destruct e; try (cbn; lia).
      destruct (may_retry max_retries attempt);
        [destruct (backoff_delay w base_delay attempt)|]; cbn; lia.
Qed.

(** The verdict on a lockout response. *)
Lemma on_429_lockout (attempt : nat) (r : response) :
  is_lockout r = true ->
  status_code r = 429%Z
  /\ on_429 cfg w max_retries base_delay attempt r
     = if may_retry max_retries attempt
       then Some (inject_Z (RATE_LIMIT_WAIT cfg)) else None.
Proof.
  unfold is_lockout, on_429. intro H.
  apply andb_true_iff in H as [Hs H]. apply Z.eqb_eq in Hs. split; [easy|].
  destruct (aread r) as [body|]; [|discriminate]. cbn [bind].
  destruct (utf8_decode body) as [text|]; [|discriminate]. cbn [bind].
  rewrite H. reflexivity.
Qed.

(** Every attempt from [attempt] on meets the lockout: the loop sleeps the
    fixed wait before each retry and returns the last response. *)
Lemma retry_loop_lockout (rs : nat -> response) (remaining attempt : nat) :
  (Z.of_nat attempt + Z.of_nat remaining = max_retries)%Z ->
  (forall k, (attempt <= k <= attempt + remaining)%nat ->
             func w k = Ok (rs k) /\ is_lockout (rs k) = true) ->
  let (evs, res) :=
    retry_loop cfg w max_retries base_delay (S remaining) attempt in
  calls evs = S remaining
  /\ sleeps evs = repeat (inject_Z (RATE_LIMIT_WAIT cfg)) remaining
  /\ res = Returned (rs (attempt + remaining)%nat).
Proof.
  revert attempt.
  induction remaining as [|n IH]; intros attempt Hsum Hall.
  - destruct (Hall attempt ltac:(lia)) as [Hf Hl].
    apply (on_429_lockout attempt) in Hl as [Hs Hv].
    cbn [retry_loop]. rewrite Hf, Hs. cbn [Z.eqb Pos.eqb]. rewrite Hv.
    unfold may_retry.
    replace (Z.of_nat attempt <? max_retries)%Z with false
      by (symmetry; apply Z.ltb_ge; lia).
    rewrite Nat.add_0_r. now cbn.
  - destruct (Hall attempt ltac:(lia)) as [Hf Hl].
    apply (on_429_lockout attempt) in Hl as [Hs Hv].
    specialize (IH (S attempt) ltac:(lia)
                   ltac:(intros k Hk; apply Hall; lia)).
    rewrite retry_loop_step.
    rewrite Hf, Hs. cbn [Z.eqb Pos.eqb]. rewrite Hv.
    unfold may_retry at 1.
    replace (Z.of_nat attempt <? max_retries)%Z with true
      by (symmetry; apply Z.ltb_lt; lia).
    destruct (retry_loop cfg w max_retries base_delay (S n) (S attempt))
      as [evs res].
    destruct IH as (Hc & Hsl & Hres).
    cbn [calls sleeps repeat fst snd]. rewrite Hc, Hsl, Hres.
    repeat split. f_equal. f_equal. lia.
Qed.

End RetryFacts.

(** C4: the wait computed from a numeric [x-ratelimit-reset-requests]
    header [v] read at unix time [t] is [v/1000 - t] seconds when
    [v > t*1000], else [v] seconds when [v < 3600], else [v - t] seconds,
    never less than 1 and never more than 3600; a 429 that is not the
    lockout and carries such a header makes the engine sleep that long
    before the retry. *)
Theorem C4_header_reset_wait {lib : PyLib} :
  (forall v t : Z,
      header_wait_time v t
      = Z.min 3600
          (Z.max 1 (if (v >? t * 1000)%Z then v / 1000 - t
                    else if (v <? 3600)%Z then v
                    else v - t))%Z
      /\ (1 <= header_wait_time v t <= 3600)%Z)
  /\ forall (cfg : config) (w : world) (max_retries : Z) (base_delay : Q)
            (attempt : nat) (r : response) (body : bytes) (text h : pystr)
            (v : Z),
      aread r = Ok body ->
      utf8_decode body = Ok text ->
      str_contains (u "Too many failed attempts") text = false ->
      dict_lookup (u "x-ratelimit-reset-requests") (resp_headers r) = Some h ->
      h <> [] ->
      py_int h = Some v ->
      may_retry max_retries attempt = true ->
      on_429 cfg w max_retries base_delay attempt r
      = Some (inject_Z (header_wait_time v (time_time w attempt))).
Proof.
  split.
  - intros v t. split; [apply header_wait_time_cases|].
    apply header_wait_time_bounds.
  - intros. eapply on_429_numeric_header; eassumption.
Qed.

(** C10 (amended): an exception while the body of a 429 is read or decoded
    reaches the handler of the 429 branch and ends the engine at once: the
    response is returned after this call, with no sleep and no further
    attempt, whatever budget remains.  The [ValueError] of a reset header
    that is not a number does not get there: with budget left the engine
    sleeps the jittered backoff and goes on to the next attempt, for every
    attempt below 1024.  From attempt 1024 on the delay cannot be computed,
    and the [OverflowError] is one more exception that reaches the handler:
    the response is returned at once. *)
Theorem C10_error_in_429_returns_response
        {lib : PyLib} (cfg : config) (w : world) (max_retries : Z)
        (base_delay : Q) (remaining attempt : nat) (r : response) :
  func w attempt = Ok r ->
  status_code r = 429%Z ->
  ((exists e, aread r = Raise e)
   \/ (exists body e, aread r = Ok body /\ utf8_decode body = Raise e) ->
   retry_loop cfg w max_retries base_delay (S remaining) attempt
   = ([Call attempt], Returned r))
  /\ (forall (body : bytes) (text h : pystr),
         aread r = Ok body ->
         utf8_decode body = Ok text ->
         str_contains (u "Too many failed attempts") text = false ->
         dict_lookup (u "x-ratelimit-reset-requests") (resp_headers r)
         = Some h ->
         py_int h = None ->
         may_retry max_retries attempt = true ->
         ((attempt < 1024)%nat ->
          retry_loop cfg w max_retries base_delay (S remaining) attempt
          = (Call attempt
               :: Sleep (base_delay * inject_Z (2 ^ Z.of_nat attempt)
                         + uniform w attempt)
               :: fst (retry_loop cfg w max_retries base_delay remaining
                                  (S attempt)),
             snd (retry_loop cfg w max_retries base_delay remaining
                             (S attempt))))
         /\ ((1024 <= attempt)%nat ->
             retry_loop cfg w max_retries base_delay (S remaining) attempt
             = ([Call attempt], Returned r))).
Proof.
  intros Hf Hs. split.
  - intro Herr. rewrite retry_loop_step. cbv zeta. rewrite Hf, Hs.
    cbn [Z.eqb Pos.eqb]. now rewrite (on_429_body_error cfg w _ _ _ _ Herr).
  - intros body text h Hread Hdec Hlock Hhdr Hint Hretry.
    split; intro Hattempt;
      rewrite retry_loop_step; cbv zeta; rewrite Hf, Hs; cbn [Z.eqb Pos.eqb];
      rewrite (on_429_bad_header cfg w _ _ _ _ body text h
                 Hread Hdec Hlock Hhdr Hint Hretry).
    + now rewrite (backoff_delay_small w _ _ Hattempt).
    + now rewrite (backoff_delay_large w _ _ Hattempt).
Qed.

(** C5: with maximum retry count [N] the engine awaits [func] at most
    [N + 1] times (attempts 0 to [N]).  When every attempt answers with the
    lockout 429 it makes all [N + 1] attempts, sleeps the configured
    [RATE_LIMIT_WAIT] before each of the [N] retries whatever the attempt
    number, and returns the last 429 response itself. *)
Theorem C5_retry_budget_and_lockout
        {lib : PyLib} (cfg : config) (w : world) (N : Z) (base_delay : option Q) :
  (0 <= N)%Z ->
  (forall (D : Q) (attempt : nat) (r : response),
      is_lockout r = true -> may_retry N attempt = true ->
      on_429 cfg w N D attempt r = Some (inject_Z (RATE_LIMIT_WAIT cfg)))
  /\
  let (evs, res) := retry_with_backoff cfg w (Some N) base_delay in
  (calls evs <= Z.to_nat N + 1)%nat
  /\ forall rs : nat -> response,
       (forall k, (k <= Z.to_nat N)%nat ->
                  func w k = Ok (rs k) /\ is_lockout (rs k) = true) ->
       calls evs = (Z.to_nat N + 1)%nat
       /\ sleeps evs = repeat (inject_Z (RATE_LIMIT_WAIT cfg)) (Z.to_nat N)
       /\ res = Returned (rs (Z.to_nat N)).
Proof.
  intro HN. split.
  { intros D attempt r Hl Hr.
    destruct (on_429_lockout cfg w N D attempt r Hl) as [_ ->].
    now rewrite Hr. }
  unfold retry_with_backoff.
  set (base := match base_delay with Some d => d | None => _ end).
  replace (Z.to_nat (N + 1)) with (S (Z.to_nat N)) by lia.
  pose proof (retry_loop_calls cfg w N base (S (Z.to_nat N)) 0) as Hcalls.
  pose proof (fun rs => retry_loop_lockout cfg w N base rs (Z.to_nat N) 0
                          ltac:(lia)) as Hlock.
  destruct (retry_loop cfg w N base (S (Z.to_nat N)) 0) as [evs res].
  cbn [fst] in Hcalls. split; [lia|].
  intros rs Hall.
  destruct (Hlock rs) as (Hc & Hs & Hr).
  - intros k Hk. apply Hall. lia.
  - rewrite Hc, Hs, Hr. repeat split. lia.
Qed.

Lemma C5_witness :
  (0 <= 2)%Z
  /\ let (evs, res) :=
       retry_with_backoff (lib := cpython) default_config always_locked_out
                          (Some 2%Z) None in
     calls evs = 3%nat
     /\ sleeps evs = [inject_Z 30; inject_Z 30]
     /\ res = Returned lockout_response.
Proof.
  split; [lia|].
  pose proof (@C5_retry_budget_and_lockout cpython default_config
                always_locked_out 2%Z None ltac:(lia)) as H.
  destruct H as [_ H].
  destruct (retry_with_backoff default_config always_locked_out (Some 2%Z) None)
    as [evs res].
  destruct H as [_ H].
  apply (H (fun _ => lockout_response)).
  intros k _. split; reflexivity.
Defined.


(** With a draw in [0, 1] the backoff lies between [D * 2^attempt] and one
    second more. *)
Lemma backoff_delay_range (w : world) (D : Q) (attempt : nat) :
  (attempt < 1024)%nat ->
  0 <= uniform w attempt <= 1 ->
  exists delay,
    backoff_delay w D attempt = Ok delay
    /\ D * inject_Z (2 ^ Z.of_nat attempt) <= delay
    /\ delay <= D * inject_Z (2 ^ Z.of_nat attempt) + 1.
Proof.
  intros Hattempt [H0 H1]. eexists.
  split; [apply (backoff_delay_small w D attempt Hattempt)|]. split.
  - rewrite <- (Qplus_0_r (D * inject_Z (2 ^ Z.of_nat attempt))) at 1.
    apply Qplus_le_r. exact H0.
  - apply Qplus_le_r. exact H1.
Qed.



Lemma C4_witness :
  on_429 (lib := cpython) default_config one_rate_limit 5 1 0
         rate_limited_response
  = Some (inject_Z 30).
Proof.
  refine (proj2 (@C4_header_reset_wait cpython)
            default_config one_rate_limit 5%Z 1 0%nat
            rate_limited_response (dq "{'error': 'Rate limit exceeded'}")
            (dq "{'error': 'Rate limit exceeded'}") (u "30") 30%Z
            eq_refl eq_refl eq_refl eq_refl _ eq_refl eq_refl).
  discriminate.
Defined.

Lemma C10_witness :
  retry_loop (lib := cpython) default_config body_lost 5 1 6 0
  = ([Call 0], Returned unreadable_429).
Proof.
  refine (proj1 (@C10_error_in_429_returns_response cpython default_config
                   body_lost 5%Z 1 5%nat 0%nat unreadable_429
                   eq_refl eq_refl) _).
  left. eexists. reflexivity.
Defined.

(** Without the restriction to the body the statement fails: [int] raises
    on the header ["soon"] while the 429 is processed, and the engine
    sleeps and calls again instead of returning the response at once. *)
Lemma C10_counterexample :
  py_int (PyLib := cpython) (u "soon") = None
  /\ retry_loop (lib := cpython) default_config bad_reset_header 1 1 2 0
     = ([Call 0; Sleep (1 * inject_Z (2 ^ 0) + uniform bad_reset_header 0);
         Call 1],
        Returned bad_header_429)
  /\ retry_loop (lib := cpython) default_config bad_reset_header 1 1 2 0
     <> ([Call 0], Returned bad_header_429).
Proof.
  split; [reflexivity|]. split; [reflexivity|]. discriminate.
Qed.

(** ** Text and dictionaries *)

Lemma pystr_eqb_eq (a b : pystr) : pystr_eqb a b = true <-> a = b.
Proof.
  revert b. induction a as [|x a IH]; intros [|y b]; cbn; try easy.
  rewrite andb_true_iff, N.eqb_eq, IH. split.
  - now intros [-> ->].
  - intro H. now injection H.
Qed.

Lemma pystr_eqb_refl (a : pystr) : pystr_eqb a a = true.
Proof. now apply pystr_eqb_eq. Qed.

Lemma pystr_eqb_neq (a b : pystr) : a <> b -> pystr_eqb a b = false.
Proof.
  intro H. destruct (pystr_eqb a b) eqn:E; [|reflexivity].
  now apply pystr_eqb_eq in E.
Qed.

Section DictFacts.
Variable V : Type.
Implicit Types (d : dict V) (k : pystr) (v : V).

Lemma dict_lookup_pop_same k d : dict_lookup k (dict_pop k d) = None.
Proof.
  induction d as [|[k' v'] d IH]; [reflexivity|].
  unfold dict_pop in *. cbn [filter fst].
  destruct (pystr_eqb k' k) eqn:E; cbn [negb]; [exact IH|].
  cbn [dict_lookup]. now rewrite E.
Qed.

Lemma dict_lookup_pop_other k k' d :
  k' <> k -> dict_lookup k' (dict_pop k d) = dict_lookup k' d.
Proof.
  intro Hne. induction d as [|[k0 v0] d IH]; [reflexivity|].
  unfold dict_pop in *. cbn [filter fst dict_lookup].
  destruct (pystr_eqb k0 k) eqn:E; cbn [negb dict_lookup].
  - apply pystr_eqb_eq in E. subst k0.
    rewrite (pystr_eqb_neq k k') by congruence. exact IH.
  - now rewrite IH.
Qed.

Lemma dict_keys_pop k d :
  map fst (dict_pop k d)
  = filter (fun k' => negb (pystr_eqb k' k)) (map fst d).
Proof.
  induction d as [|[k0 v0] d IH]; [reflexivity|].
  unfold dict_pop in *. cbn [filter map fst].
  destruct (pystr_eqb k0 k); cbn [negb map fst]; now rewrite IH.
Qed.

Lemma dict_has_pop_same k d : dict_has k (dict_pop k d) = false.
Proof. unfold dict_has. now rewrite dict_lookup_pop_same. Qed.

Lemma dict_has_pop_other k k' d :
  k' <> k -> dict_has k' (dict_pop k d) = dict_has k' d.
Proof. intro H. unfold dict_has. now rewrite dict_lookup_pop_other. Qed.

Lemma dict_lookup_set_same k v d : dict_lookup k (dict_set k v d) = Some v.
Proof.
  induction d as [|[k0 v0] d IH]; cbn [dict_set dict_lookup].
  - now rewrite pystr_eqb_refl.
  - destruct (pystr_eqb k0 k) eqn:E; cbn [dict_lookup]; now rewrite E.
Qed.

Lemma dict_lookup_set_other k k' v d :
  k' <> k -> dict_lookup k' (dict_set k v d) = dict_lookup k' d.
Proof.
  intro Hne. induction d as [|[k0 v0] d IH]; cbn [dict_set dict_lookup].
  - now rewrite (pystr_eqb_neq k k') by congruence.
  - destruct (pystr_eqb k0 k) eqn:E; cbn [dict_lookup].
    + apply pystr_eqb_eq in E. subst k0.
      now rewrite (pystr_eqb_neq k k') by congruence.
    + now rewrite IH.
Qed.

(** Assigning to a key the dict holds keeps the keys and their order. *)
Lemma dict_keys_set_present k v d :
  dict_has k d = true -> map fst (dict_set k v d) = map fst d.
Proof.
  unfold dict_has.
  induction d as [|[k0 v0] d IH]; cbn [dict_set dict_lookup map fst];
    [discriminate|].
  destruct (pystr_eqb k0 k); [reflexivity|].
  intro H. cbn [map fst]. now rewrite IH.
Qed.

Lemma dict_set_same k v d : dict_lookup k d = Some v -> dict_set k v d = d.
Proof.
  induction d as [|[k0 v0] d IH]; cbn [dict_set dict_lookup]; [discriminate|].
  destruct (pystr_eqb k0 k).
  - intro H. injection H as ->. reflexivity.
  - intro H. now rewrite IH.
Qed.
End DictFacts.

Lemma mapM_Forall2 {A B} (f : A -> result B) (l : list A) (l' : list B) :
  mapM f l = Ok l' <-> Forall2 (fun x y => f x = Ok y) l l'.
Proof.
  revert l'. induction l as [|x l IH]; intro l'; cbn [mapM].
  - split; intro H.
    + injection H as <-. constructor.
    + inversion H. reflexivity.
  - split; intro H.
    + destruct (f x) as [y|] eqn:Ex; [|discriminate]. cbn [bind] in H.
      destruct (mapM f l) as [ys|] eqn:El; [|discriminate]. cbn [bind] in H.
      injection H as <-. constructor; [exact Ex|]. now apply IH.
    + inversion H as [|? y ? ys Ex Hrest]; subst.
      rewrite Ex. cbn [bind]. apply IH in Hrest. now rewrite Hrest.
Qed.

(** ** The coercion *)

Section CoercionFacts.
Context {lib : PyLib}.

(** One field: either nothing happens, or the object is a dict holding a
    [str] under the key, which [int] accepts and whose value replaces it. *)
Lemma convert_field_cases (k : pystr) (a a' : json) (m m' : bool) :
  convert_field k (a, m) = Ok (a', m') ->
  (a' = a /\ m' = m)
  \/ (m' = true
      /\ exists d s n, a = JDict d /\ dict_lookup k d = Some (JStr s)
                       /\ py_int s = Some n
                       /\ a' = JDict (dict_set k (JInt n) d)).
Proof.
  unfold convert_field. intro H.
  destruct (py_in k a) as [[|]|] eqn:Ein; cbn [bind] in H;
    [|left; now inversion H|discriminate].
  destruct (py_getitem a k) as [v|] eqn:Eget; cbn [bind] in H; [|discriminate].
  destruct v; try (left; now inversion H).
  unfold int in H. destruct (py_int s) as [n|] eqn:En; cbn [bind] in H;
    [|discriminate].
  destruct a; try discriminate. cbn [py_setitem bind] in H.
  injection H as <- <-. right. split; [reflexivity|].
  unfold py_getitem in Eget.
  destruct (dict_lookup k d) as [x|] eqn:El; [|discriminate].
  injection Eget as ->. now exists d, s, n.
Qed.

Lemma convert_field_not_str (k : pystr) (d : dict json) (m : bool) :
  not_str_at k d -> convert_field k (JDict d, m) = Ok (JDict d, m).
Proof.
  intro H. unfold convert_field, py_in, py_getitem, dict_has. cbn [bind].
  destruct (dict_lookup k d) as [v|] eqn:E; cbn [bind]; [|reflexivity].
  destruct v; try reflexivity. now destruct (H s).
Qed.

(** A document with no string-typed line field goes through unchanged and
    unmarked. *)
Lemma coerce_lines_not_str (d : dict json) :
  not_str_at (u "start_line") d -> not_str_at (u "end_line") d ->
  coerce_lines (JDict d) = Ok (JDict d, false).
Proof.
  intros Hs He. unfold coerce_lines.
  rewrite (convert_field_not_str _ _ _ Hs). cbn [bind].
  now apply convert_field_not_str.
Qed.

Lemma same_but_lines_refl (d : dict json) : same_but_lines d d.
Proof. now split. Qed.

Lemma same_but_lines_set (k : pystr) (x : json) (d0 d : dict json) :
  k = u "start_line" \/ k = u "end_line" ->
  dict_has k d = true ->
  same_but_lines d0 d -> same_but_lines d0 (dict_set k x d).
Proof.
  intros Hk Hhas [Hkeys Hvals]. split.
  - now rewrite dict_keys_set_present.
  - intros k' H1 H2. rewrite dict_lookup_set_other; [now apply Hvals|].
    destruct Hk; congruence.
Qed.

(** What [coerce_lines] returns: unmarked, the object itself; marked, a
    dict that differs from the input under the line fields only. *)
Lemma coerce_lines_cases (a a' : json) (m : bool) :
  coerce_lines a = Ok (a', m) ->
  (m = false /\ a' = a)
  \/ (m = true /\ exists d d', a = JDict d /\ a' = JDict d'
                               /\ same_but_lines d d').
Proof.
  unfold coerce_lines. intro H.
  destruct (convert_field (u "start_line") (a, false)) as [[a1 m1]|] eqn:E1;
    cbn [bind] in H; [|discriminate].
  apply convert_field_cases in E1. apply convert_field_cases in H.
  destruct E1 as [[-> ->] | (-> & d & s & n & -> & Hl & _ & ->)];
    destruct H as [[-> ->] | (-> & d' & s' & n' & Hd & Hl' & _ & ->)].
  - now left.
  - right. split; [reflexivity|]. exists d', (dict_set (u "end_line") (JInt n') d').
    repeat split; try assumption.
    + apply dict_keys_set_present. unfold dict_has. now rewrite Hl'.
    + intros k _ Hk. now apply dict_lookup_set_other.
  - right. split; [reflexivity|].
    exists d, (dict_set (u "start_line") (JInt n) d). repeat split.
    + apply dict_keys_set_present. unfold dict_has. now rewrite Hl.
    + intros k Hk _. now apply dict_lookup_set_other.
  - right. split; [reflexivity|]. injection Hd as <-.
    exists d, (dict_set (u "end_line") (JInt n')
                        (dict_set (u "start_line") (JInt n) d)).
    repeat split.
    + rewrite dict_keys_set_present by (unfold dict_has; now rewrite Hl').
      apply dict_keys_set_present. unfold dict_has. now rewrite Hl.
    + intros k H1 H2.
      rewrite dict_lookup_set_other by assumption.
      now apply dict_lookup_set_other.
Qed.

(** *** A tool call whose [function] member is an object *)

Lemma function_field_object (t f : dict json) (key : pystr) (default : json) :
  dict_lookup (u "function") t = Some (JDict f) ->
  function_field (JDict t) key default = Ok (field_or key default f).
Proof.
  intro H. unfold function_field, py_in, py_get, dict_has, field_or.
  rewrite H. cbn [bind].
  now destruct (dict_lookup key f).
Qed.

Lemma is_read_file_call_object (t : dict json) (fn tc_name tc_args : json) :
  dict_lookup (u "function") t = Some fn ->
  is_read_file_call (JDict t) tc_name tc_args
  = Ok (eq_str tc_name (u "read_file") && truthy tc_args).
Proof.
  intro H. unfold is_read_file_call, py_in, dict_has. rewrite H.
  now destruct (eq_str tc_name (u "read_file") && truthy tc_args).
Qed.

Lemma set_arguments_object (t f : dict json) (args_dict : json) :
  dict_lookup (u "function") t = Some (JDict f) ->
  set_arguments (JDict t) args_dict
  = Ok (with_arguments t f (json_dumps args_dict)).
Proof.
  intro H. unfold set_arguments, py_getitem. rewrite H. reflexivity.
Qed.

Lemma function_field_cases (t : dict json) (key : pystr) (default x : json) :
  function_field (JDict t) key default = Ok x ->
  (dict_has (u "function") t = false /\ x = default)
  \/ (exists f, dict_lookup (u "function") t = Some (JDict f)
                /\ x = field_or key default f).
Proof.
  unfold function_field, py_in, py_get, dict_has. cbn [bind].
  destruct (dict_lookup (u "function") t) as [fn|] eqn:E; cbn [bind].
  - destruct fn; try discriminate.
    intro H. right. exists d. split; [reflexivity|].
    unfold field_or. destruct (dict_lookup key d); now inversion H.
  - intro H. left. now inversion H.
Qed.

Lemma is_read_file_call_true (tool_call tc_name tc_args : json) :
  is_read_file_call tool_call tc_name tc_args = Ok true ->
  tc_name = JStr (u "read_file") /\ truthy tc_args = true.
Proof.
  unfold is_read_file_call.
  destruct (eq_str tc_name (u "read_file")) eqn:En; [|discriminate].
  destruct (truthy tc_args); [|discriminate]. intros _. split; [|reflexivity].
  destruct tc_name; try discriminate. cbn [eq_str] in En.
  apply pystr_eqb_eq in En. now subst.
Qed.

Lemma except_ValueError_Ok {A} (fallback r : A) (m : result A) :
  except_ValueError fallback m = Ok r ->
  m = Ok r \/ (r = fallback /\ exists e, m = Raise e).
Proof.
  unfold except_ValueError. destruct m as [a|e].
  - intro H. now left.
  - destruct (is_ValueError e); [|discriminate].
    intro H. injection H as <-. right. split; [reflexivity|]. now exists e.
Qed.

Lemma loads_Ok (v x : json) :
  loads v = Ok x -> exists s, v = JStr s /\ json_loads s = Some x.
Proof.
  unfold loads. destruct v; try discriminate.
  destruct (json_loads s) eqn:E; [|discriminate].
  intro H. injection H as <-. now exists s.
Qed.

(** The guard of a call site let the tool call through: what the tool call
    looks like.  [default_name] is the name the site assumes when there is
    none. *)
Lemma guard_passed (tool_call default_name tc_name tc_args : json) :
  eq_str default_name (u "read_file") = false ->
  isinstance_dict tool_call = true ->
  function_field tool_call (u "name") default_name = Ok tc_name ->
  function_field tool_call (u "arguments") (JStr []) = Ok tc_args ->
  is_read_file_call tool_call tc_name tc_args = Ok true ->
  exists t f, tool_call = JDict t
              /\ dict_lookup (u "function") t = Some (JDict f)
              /\ dict_lookup (u "name") f = Some (JStr (u "read_file"))
              /\ dict_lookup (u "arguments") f = Some tc_args
              /\ truthy tc_args = true.
Proof.
  intros Hdn Hd Hn Ha Hg. destruct tool_call; try discriminate.
  apply is_read_file_call_true in Hg as [-> Htruthy].
  apply function_field_cases in Hn, Ha.
  destruct Hn as [[_ Hn] | (f & Hf & Hn)].
  { rewrite <- Hn in Hdn. cbn [eq_str] in Hdn.
    now rewrite pystr_eqb_refl in Hdn. }
  destruct Ha as [[Hno _] | (f' & Hf' & Ha)].
  { unfold dict_has in Hno. now rewrite Hf in Hno. }
  rewrite Hf in Hf'. injection Hf' as <-.
  exists d, f. repeat split; try assumption.
  - unfold field_or in Hn. destruct (dict_lookup (u "name") f); [now subst|].
    rewrite <- Hn in Hdn. cbn [eq_str] in Hdn.
    now rewrite pystr_eqb_refl in Hdn.
  - unfold field_or in Ha. destruct (dict_lookup (u "arguments") f);
      [now subst|].
    subst tc_args. discriminate.
Qed.

(** The body shared by the three sites, once the guard has passed. *)
Lemma coercion_applied (t f : dict json) (tc_args : json) (tool_call' : json) :
  dict_lookup (u "function") t = Some (JDict f) ->
  dict_lookup (u "name") f = Some (JStr (u "read_file")) ->
  dict_lookup (u "arguments") f = Some tc_args ->
  truthy tc_args = true ->
  forall args_dict args_dict',
    loads tc_args = Ok args_dict ->
    coerce_lines args_dict = Ok (args_dict', true) ->
    set_arguments (JDict t) args_dict' = Ok tool_call' ->
    coerced_from (JDict t) tool_call'.
Proof.
  intros Hf Hn Ha Htr args_dict args_dict' Hl Hc Hs.
  apply loads_Ok in Hl as (s & -> & Hl).
  destruct (coerce_lines_cases _ _ _ Hc) as [[? _] | (_ & d & d' & -> & -> & _)];
    [discriminate|].
  rewrite (set_arguments_object t f _ Hf) in Hs. injection Hs as <-.
  exists t, f, s, d, d'. repeat split; try assumption.
  intros ->. discriminate.
Qed.

(** What each site does to one tool call: nothing, or the coercion. *)
Lemma response_tool_call_cases (tool_call tool_call' : json) :
  response_tool_call tool_call = Ok tool_call' ->
  tool_call' = tool_call \/ coerced_from tool_call tool_call'.
Proof.
  unfold response_tool_call.
  destruct (isinstance_dict tool_call) eqn:Hd; [|intro H; left; now inversion H].
  destruct (function_field tool_call (u "name") _) as [tc_name|] eqn:Hn;
    [|discriminate].
  destruct (function_field tool_call (u "arguments") _) as [tc_args|] eqn:Ha;
    [|discriminate].
  cbn [bind].
  destruct (is_read_file_call tool_call tc_name tc_args) as [[|]|] eqn:Hg;
    cbn [bind]; [|intro H; left; now inversion H|discriminate].
  destruct (guard_passed _ (JStr (u "unknown")) _ _ eq_refl Hd Hn Ha Hg)
    as (t & f & -> & Hf & Hname & Hargs & Htr).
  intro H. apply except_ValueError_Ok in H as [H | [-> _]]; [|now left].
  destruct (loads tc_args) as [args_dict|] eqn:Hl; [|discriminate].
  cbn [bind] in H.
  destruct (coerce_lines args_dict) as [[args_dict' m]|] eqn:Hc; [|discriminate].
  cbn [bind] in H. destruct m; [|left; now inversion H].
  right. eapply coercion_applied; eassumption.
Qed.

Lemma stream_tool_call_cases (tool_call tool_call' : json) (modified : bool) :
  stream_tool_call tool_call = Ok (tool_call', modified) ->
  (modified = false /\ tool_call' = tool_call)
  \/ (modified = true /\ coerced_from tool_call tool_call').
Proof.
  unfold stream_tool_call.
  destruct (isinstance_dict tool_call) eqn:Hd; [|intro H; left; now inversion H].
  destruct (function_field tool_call (u "name") _) as [tc_name|] eqn:Hn;
    [|discriminate].
  destruct (function_field tool_call (u "arguments") _) as [tc_args|] eqn:Ha;
    [|discriminate].
  cbn [bind].
  destruct (is_read_file_call tool_call tc_name tc_args) as [[|]|] eqn:Hg;
    cbn [bind]; [|intro H; left; now inversion H|discriminate].
  destruct (guard_passed _ (JStr []) _ _ eq_refl Hd Hn Ha Hg)
    as (t & f & -> & Hf & Hname & Hargs & Htr).
  intro H. apply except_ValueError_Ok in H as [H | [H _]];
    [|left; now inversion H].
  destruct (loads tc_args) as [args_dict|] eqn:Hl; [|discriminate].
  cbn [bind] in H.
  destruct (coerce_lines args_dict) as [[args_dict' m]|] eqn:Hc; [|discriminate].
  cbn [bind] in H. destruct m; [|left; now inversion H].
  destruct (set_arguments (JDict t) args_dict') as [tc'|] eqn:Hs; [|discriminate].
  cbn [bind] in H. injection H as <- <-.
  right. split; [reflexivity|]. eapply coercion_applied; eassumption.
Qed.

Lemma request_tool_call_cases (tool_call tool_call' : json) :
  request_tool_call tool_call = Ok tool_call' ->
  tool_call' = tool_call \/ coerced_from tool_call tool_call'.
Proof.
  unfold request_tool_call.
  destruct (isinstance_dict tool_call) eqn:Hd; [|intro H; left; now inversion H].
  destruct (function_field tool_call (u "name") _) as [tc_name|] eqn:Hn;
    [|discriminate].
  destruct (function_field tool_call (u "arguments") _) as [tc_args|] eqn:Ha;
    [|discriminate].
  cbn [bind].
  destruct (is_read_file_call tool_call tc_name tc_args) as [[|]|] eqn:Hg;
    cbn [bind]; [|intro H; left; now inversion H|discriminate].
  destruct (guard_passed _ (JStr (u "unknown")) _ _ eq_refl Hd Hn Ha Hg)
    as (t & f & -> & Hf & Hname & Hargs & Htr).
  intro H. apply except_ValueError_Ok in H as [H | [-> _]]; [|now left].
  destruct (loads tc_args) as [args_dict|] eqn:Hl; [|discriminate].
  cbn [bind] in H.
  destruct (py_get args_dict (u "start_line") JNull); [|discriminate].
  destruct (py_get args_dict (u "end_line") JNull); [|discriminate].
  cbn [bind] in H.
  destruct (coerce_lines args_dict) as [[args_dict' m]|] eqn:Hc; [|discriminate].
  cbn [bind] in H. destruct m; [|left; now inversion H].
  destruct (set_arguments (JDict t) args_dict') as [tc'|] eqn:Hs; [|discriminate].
  cbn [bind] in H.
  assert (tool_call' = tc') as ->.
  { apply except_ValueError_Ok in H as [H | [-> _]]; [|reflexivity].
    destruct (loads (JStr (json_dumps args_dict'))) as [verification|];
      [|discriminate].
    cbn [bind] in H.
    destruct (py_get verification (u "start_line") JNull); [|discriminate].
    now inversion H. }
  right. eapply coercion_applied; eassumption.
Qed.

(** The guard evaluated on a [read_file] call with arguments text. *)
Lemma read_file_guard (t f : dict json) (default_name : json) (s : pystr) :
  dict_lookup (u "function") t = Some (JDict f) ->
  dict_lookup (u "name") f = Some (JStr (u "read_file")) ->
  dict_lookup (u "arguments") f = Some (JStr s) ->
  s <> [] ->
  function_field (JDict t) (u "name") default_name = Ok (JStr (u "read_file"))
  /\ function_field (JDict t) (u "arguments") (JStr []) = Ok (JStr s)
  /\ is_read_file_call (JDict t) (JStr (u "read_file")) (JStr s) = Ok true.
Proof.
  intros Hf Hn Ha Hs.
  rewrite !(function_field_object t f _ _ Hf).
  rewrite (is_read_file_call_object t _ _ _ Hf).
  unfold field_or. rewrite Hn, Ha. repeat split.
  cbn [eq_str truthy]. rewrite pystr_eqb_refl. now destruct s.
Qed.

(** The coercion is applied where [coerced_from] says it can be. *)
Lemma response_tool_call_applies (tool_call tool_call' : json) :
  coerced_from tool_call tool_call' ->
  response_tool_call tool_call = Ok tool_call'.
Proof.
  intros (t & f & s & d & d' & -> & Hf & Hn & Ha & Hs & Hl & Hc & ->).
  destruct (read_file_guard t f (JStr (u "unknown")) s Hf Hn Ha Hs)
    as (E1 & E2 & E3).
  unfold response_tool_call. cbn [isinstance_dict].
  rewrite E1, E2. cbn [bind]. rewrite E3. cbn [bind].
  unfold loads. rewrite Hl. cbn [bind]. rewrite Hc. cbn [bind].
  rewrite (set_arguments_object t f _ Hf). reflexivity.
Qed.

Lemma stream_tool_call_applies (tool_call tool_call' : json) :
  coerced_from tool_call tool_call' ->
  stream_tool_call tool_call = Ok (tool_call', true).
Proof.
  intros (t & f & s & d & d' & -> & Hf & Hn & Ha & Hs & Hl & Hc & ->).
  destruct (read_file_guard t f (JStr []) s Hf Hn Ha Hs) as (E1 & E2 & E3).
  unfold stream_tool_call. cbn [isinstance_dict].
  rewrite E1, E2. cbn [bind]. rewrite E3. cbn [bind].
  unfold loads. rewrite Hl. cbn [bind]. rewrite Hc. cbn [bind].
  rewrite (set_arguments_object t f _ Hf). reflexivity.
Qed.

Lemma arguments_text_with_arguments (t f : dict json) (text : pystr) :
  arguments_text (with_arguments t f text) = Some text.
Proof.
  unfold arguments_text, with_arguments.
  now rewrite !dict_lookup_set_same.
Qed.

Lemma request_tool_call_applies (tool_call tool_call' : json) :
  coerced_from tool_call tool_call' ->
  (forall text, arguments_text tool_call' = Some text -> verifiable text) ->
  request_tool_call tool_call = Ok tool_call'.
Proof.
  intros (t & f & s & d & d' & -> & Hf & Hn & Ha & Hs & Hl & Hc & ->) Hv.
  specialize (Hv _ (arguments_text_with_arguments t f _)).
  destruct (read_file_guard t f (JStr (u "unknown")) s Hf Hn Ha Hs)
    as (E1 & E2 & E3).
  unfold request_tool_call. cbn [isinstance_dict].
  rewrite E1, E2. cbn [bind]. rewrite E3. cbn [bind].
  unfold loads at 1. rewrite Hl. cbn [bind py_get].
  destruct (dict_lookup (u "start_line") d), (dict_lookup (u "end_line") d);
    cbn [bind]; rewrite Hc; cbn [bind];
    rewrite (set_arguments_object t f _ Hf); cbn [bind];
    unfold loads;
    (destruct Hv as [-> | [d'' ->]]; cbn [bind except_ValueError];
     [reflexivity|]; cbn [py_get]; now destruct (dict_lookup _ d'')).
Qed.

(** A tool call whose arguments hold no string-typed line field comes out
    of every site as it went in. *)
Lemma untouched_when_not_str (t f : dict json) (s : pystr) (d : dict json) :
  dict_lookup (u "function") t = Some (JDict f) ->
  dict_lookup (u "arguments") f = Some (JStr s) ->
  json_loads s = Some (JDict d) ->
  not_str_at (u "start_line") d -> not_str_at (u "end_line") d ->
  request_tool_call (JDict t) = Ok (JDict t)
  /\ response_tool_call (JDict t) = Ok (JDict t)
  /\ stream_tool_call (JDict t) = Ok (JDict t, false).
Proof.
  intros Hf Ha Hl H1 H2.
  pose proof (coerce_lines_not_str d H1 H2) as Hc.
  assert (Eargs : function_field (JDict t) (u "arguments") (JStr [])
                  = Ok (JStr s)).
  { rewrite (function_field_object t f _ _ Hf). unfold field_or.
    now rewrite Ha. }
  unfold request_tool_call, response_tool_call, stream_tool_call.
  cbn [isinstance_dict]. rewrite Eargs.
  rewrite !(function_field_object t f (u "name") _ Hf).
  cbn [bind]. rewrite !(is_read_file_call_object t _ _ _ Hf). cbn [bind].
  repeat split;
    match goal with
    | |- context [eq_str ?n ?r && truthy ?a] =>
        destruct (eq_str n r && truthy a); [|reflexivity]
    end;
    unfold loads; rewrite Hl; cbn [bind py_get];
    repeat match goal with
           | |- context [dict_lookup ?k d] => destruct (dict_lookup k d)
           end;
    cbn [bind]; rewrite Hc; reflexivity.
Qed.
End CoercionFacts.

(** C6: the coercion maps the document with ["5"] and ["10"] under
    [start_line] and [end_line] to the one with the integers 5 and 10, at
    each of the three sites; a tool call whose arguments hold no
    string-typed line field is returned as it is by every site, whatever
    [json.dumps] is, so its arguments text is not serialized again. *)
Theorem C6_coercion_of_line_fields :
  (json_loads (PyLib := cpython) string_lines_text = Some (JDict string_lines)
   /\ coerce_lines (lib := cpython) (JDict string_lines)
      = Ok (JDict integer_lines, true)
   /\ json_dumps (PyLib := cpython) (JDict integer_lines) = integer_lines_text
   /\ json_loads (PyLib := cpython) integer_lines_text
      = Some (JDict integer_lines)
   /\ let before := tool_call_of (u "read_file") string_lines_text in
      let after := tool_call_of (u "read_file") integer_lines_text in
      request_tool_call (lib := cpython) before = Ok after
      /\ response_tool_call (lib := cpython) before = Ok after
      /\ stream_tool_call (lib := cpython) before = Ok (after, true))
  /\ forall (lib : PyLib) (t f : dict json) (s : pystr) (d : dict json),
       dict_lookup (u "function") t = Some (JDict f) ->
       dict_lookup (u "arguments") f = Some (JStr s) ->
       json_loads s = Some (JDict d) ->
       not_str_at (u "start_line") d -> not_str_at (u "end_line") d ->
       coerce_lines (JDict d) = Ok (JDict d, false)
       /\ request_tool_call (JDict t) = Ok (JDict t)
       /\ response_tool_call (JDict t) = Ok (JDict t)
       /\ stream_tool_call (JDict t) = Ok (JDict t, false).
Proof.
  split.
  - repeat split; vm_compute; reflexivity.
  - intros lib t f s d Hf Ha Hl H1 H2. split.
    + now apply coerce_lines_not_str.
    + now apply (untouched_when_not_str t f s d).
Qed.

Lemma C6_witness :
  let t := [(u "id", JStr (u "call_1")); (u "type", JStr (u "function"));
            (u "function",
             JDict [(u "name", JStr (u "read_file"));
                    (u "arguments", JStr integer_lines_text)])] in
  not_str_at (u "start_line") integer_lines
  /\ not_str_at (u "end_line") integer_lines
  /\ request_tool_call (lib := cpython) (JDict t) = Ok (JDict t)
  /\ response_tool_call (lib := cpython) (JDict t) = Ok (JDict t)
  /\ stream_tool_call (lib := cpython) (JDict t) = Ok (JDict t, false).
Proof.
  intro t.
  assert (H1 : not_str_at (u "start_line") integer_lines)
    by (intros s H; vm_compute in H; discriminate).
  assert (H2 : not_str_at (u "end_line") integer_lines)
    by (intros s H; vm_compute in H; discriminate).
  split; [exact H1|]. split; [exact H2|].
  exact (proj2 (proj2 C6_coercion_of_line_fields cpython t
                  [(u "name", JStr (u "read_file"));
                   (u "arguments", JStr integer_lines_text)]
                  integer_lines_text integer_lines
                  eq_refl eq_refl eq_refl H1 H2)).
Defined.

(** ** Request rewriting *)

Section RequestFacts.
Context {lib : PyLib}.

Lemma chat_not_embeddings (path : pystr) :
  str_contains (u "chat/completions") path = true ->
  pystr_eqb path (u "embeddings") = false.
Proof.
  intro H. destruct (pystr_eqb path (u "embeddings")) eqn:E; [|reflexivity].
  apply pystr_eqb_eq in E. subst path. vm_compute in H. discriminate.
Qed.

Lemma prepare_request_chat (path : pystr) (request_headers : headers)
      (body : bytes) :
  is_chat_route path body = true ->
  let hdrs := dict_pop (u "host") request_headers in
  prepare_request path request_headers body
  = (or_original (hdrs, body) (rewrite_chat_request hdrs body), true).
Proof.
  intros H hdrs. unfold prepare_request. fold hdrs. rewrite H.
  destruct (or_original (hdrs, body) (rewrite_chat_request hdrs body))
    as [hdrs1 body1].
  unfold is_chat_route in H. apply andb_true_iff in H as [H _].
  unfold is_embeddings_route. now rewrite (chat_not_embeddings path H).
Qed.

Lemma prepare_request_embeddings (path : pystr) (request_headers : headers)
      (body : bytes) :
  is_embeddings_route path body = true ->
  let hdrs := dict_pop (u "host") request_headers in
  prepare_request path request_headers body
  = (or_original (hdrs, body) (rewrite_embeddings_request hdrs body), true).
Proof.
  intros H hdrs. unfold prepare_request. fold hdrs.
  assert (is_chat_route path body = false) as ->.
  { unfold is_embeddings_route in H. apply andb_true_iff in H as [H _].
    apply pystr_eqb_eq in H. subst path. reflexivity. }
  now rewrite H.
Qed.

(** C8: on a rewritten route, a body that does not parse makes the rewrite
    fail, and a failed rewrite leaves the headers and the body bytes as
    they came; the handler then issues the request with them and answers
    with whatever the engine and the relay give for the upstream's
    responses. *)
Theorem C8_rewrite_failure_forwards_original
        (path : pystr) (request_headers : headers) (body : bytes) :
  let hdrs := dict_pop (u "host") request_headers in
  (forall e, loads_bytes body = Raise e ->
             rewrite_chat_request hdrs body = Raise e
             /\ rewrite_embeddings_request hdrs body = Raise e)
  /\ ((is_chat_route path body = true
       /\ exists e, rewrite_chat_request hdrs body = Raise e)
      \/ (is_embeddings_route path body = true
          /\ exists e, rewrite_embeddings_request hdrs body = Raise e) ->
      prepare_request path request_headers body = (hdrs, body, true)
      /\ forall (cfg : config) (up : upstream) (clock : nat -> Z)
                (draws : nat -> Q),
           proxy_request cfg up clock draws path request_headers body
           = let w := {| func := up hdrs body; time_time := clock;
                         uniform := draws |} in
             match retry_with_backoff cfg w None None with
             | (evs, Raised e) => (evs, error_response e)
             | (evs, Returned r) => (evs, relay_response true path r)
             end).
Proof.
  intro hdrs. split.
  - intros e He. unfold rewrite_chat_request, rewrite_embeddings_request.
    now rewrite He.
  - intro H.
    assert (Hp : prepare_request path request_headers body = (hdrs, body, true)).
    { destruct H as [[Hr [e He]] | [Hr [e He]]].
      - rewrite (prepare_request_chat _ _ _ Hr). fold hdrs. now rewrite He.
      - rewrite (prepare_request_embeddings _ _ _ Hr). fold hdrs.
        now rewrite He. }
    split; [exact Hp|].
    intros cfg up clock draws. unfold proxy_request. now rewrite Hp.
Qed.
End RequestFacts.

Lemma C8_witness :
  is_chat_route (u "chat/completions") not_json_body = true
  /\ loads_bytes (lib := cpython) not_json_body = Raise JSONDecodeError
  /\ prepare_request (lib := cpython) (u "chat/completions")
                     [(u "host", u "proxy.local");
                      (u "content-type", u "application/json")]
                     not_json_body
     = ([(u "content-type", u "application/json")], not_json_body, true).
Proof.
  assert (Hl : loads_bytes (lib := cpython) not_json_body = Raise JSONDecodeError)
    by reflexivity.
  pose proof (@C8_rewrite_failure_forwards_original cpython
                (u "chat/completions")
                [(u "host", u "proxy.local");
                 (u "content-type", u "application/json")]
                not_json_body) as [Hparse Hfwd].
  split; [reflexivity|]. split; [exact Hl|].
  apply Hfwd. left. split; [reflexivity|].
  exists JSONDecodeError. apply (Hparse _ Hl).
Defined.

Section CleanupFacts.
Context {lib : PyLib}.

Lemma dict_lookup_pop {V} (k k' : pystr) (d : dict V) :
  dict_lookup k (dict_pop k' d)
  = if pystr_eqb k k' then None else dict_lookup k d.
Proof.
  destruct (pystr_eqb k k') eqn:E.
  - apply pystr_eqb_eq in E. subst. apply dict_lookup_pop_same.
  - apply dict_lookup_pop_other. intros ->. now rewrite pystr_eqb_refl in E.
Qed.

Lemma filter_twice {A} (f g : A -> bool) (l : list A) :
  filter f (filter g l) = filter (fun x => g x && f x) l.
Proof.
  induction l as [|x l IH]; [reflexivity|]. cbn [filter].
  destruct (g x); cbn [filter andb]; now rewrite IH.
Qed.

Lemma pop_params_unsupported (body_json b : json) :
  pop_params unsupported_params body_json = Ok b ->
  exists d, body_json = JDict d
            /\ b = JDict (popped d).
Proof.
  destruct body_json; try discriminate.
  cbn [pop_params unsupported_params py_pop bind].
  intro H. injection H as <-. now exists d.
Qed.

Lemma clean_parallel_tool_calls_dict (d : dict json) :
  clean_parallel_tool_calls (JDict d)
  = Ok (JDict (if malformed_parallel_flag d
               then dict_pop (u "parallel_tool_calls") d else d)).
Proof.
  unfold clean_parallel_tool_calls, malformed_parallel_flag, py_in, py_getitem,
    dict_has.
  destruct (dict_lookup (u "parallel_tool_calls") d) as [v|]; cbn [bind];
    [|reflexivity].
  now destruct (negb (isinstance_bool v)).
Qed.

Lemma malformed_parallel_flag_pops (d : dict json) :
  malformed_parallel_flag (popped d) = malformed_parallel_flag d.
Proof.
  unfold malformed_parallel_flag, popped. now rewrite !dict_lookup_pop.
Qed.

Lemma lookup_cleaned (d : dict json) (k : pystr) :
  dict_lookup k (cleaned d)
  = if is_removed d k then None else dict_lookup k d.
Proof.
  unfold cleaned, is_removed. rewrite malformed_parallel_flag_pops.
  cbn [existsb unsupported_params].
  destruct (malformed_parallel_flag d); unfold popped;
    rewrite !dict_lookup_pop;
    destruct (pystr_eqb k (u "prompt_cache_key")) eqn:E1;
    destruct (pystr_eqb k (u "logprobs")) eqn:E2;
    destruct (pystr_eqb k (u "top_logprobs")) eqn:E3;
    destruct (pystr_eqb k (u "parallel_tool_calls")) eqn:E4;
    reflexivity.
Qed.

Lemma keys_cleaned (d : dict json) :
  map fst (cleaned d) = filter (fun k => negb (is_removed d k)) (map fst d).
Proof.
  unfold cleaned. rewrite malformed_parallel_flag_pops.
  destruct (malformed_parallel_flag d) eqn:Em; unfold popped;
    rewrite !dict_keys_pop, !filter_twice; apply filter_ext; intro k;
    unfold is_removed; rewrite Em; cbn [existsb unsupported_params];
    destruct (pystr_eqb k (u "prompt_cache_key")),
             (pystr_eqb k (u "logprobs")),
             (pystr_eqb k (u "top_logprobs")),
             (pystr_eqb k (u "parallel_tool_calls")); reflexivity.
Qed.

(** The message pass changes nothing but the value under [messages]. *)
Lemma transform_messages_dict (d : dict json) (b : json) :
  transform_messages (JDict d) = Ok b ->
  exists d', b = JDict d'
             /\ map fst d' = map fst d
             /\ forall k, k <> u "messages" ->
                          dict_lookup k d' = dict_lookup k d.
Proof.
  unfold transform_messages, messages_list, py_in, py_getitem, dict_has.
  destruct (dict_lookup (u "messages") d) as [v|] eqn:E; cbn [bind].
  2:{ intro H. injection H as <-. now exists d. }
  destruct v; cbn [bind]; try (intro H; injection H as <-; now exists d).
  destruct (mapM request_message l) as [l'|]; [|discriminate]. cbn [bind put_back].
  intro H. injection H as <-. eexists. split; [reflexivity|]. split.
  - apply dict_keys_set_present. unfold dict_has. now rewrite E.
  - intros k Hk. now apply dict_lookup_set_other.
Qed.

(** A completed chat-completions pass: its result, key by key. *)
Lemma rewrite_chat_json_keys (body_json b : json) :
  rewrite_chat_json body_json = Ok b ->
  exists d d',
    body_json = JDict d /\ b = JDict d'
    /\ map fst d' = filter (fun k => negb (is_removed d k)) (map fst d)
    /\ (forall k, is_removed d k = true -> dict_has k d' = false)
    /\ (forall k, is_removed d k = false -> k <> u "messages" ->
                  dict_lookup k d' = dict_lookup k d).
Proof.
  unfold rewrite_chat_json. intro H.
  destruct (pop_params unsupported_params body_json) as [b1|] eqn:E1;
    [|discriminate].
  apply pop_params_unsupported in E1 as (d & -> & ->). cbn [bind] in H.
  rewrite clean_parallel_tool_calls_dict in H. cbn [bind] in H.
  destruct (validate_tool_sequence _); [|discriminate]. cbn [bind] in H.
  destruct (log_tools _); [|discriminate]. cbn [bind] in H.
  apply transform_messages_dict in H as (d' & -> & Hkeys & Hvals).
  pose proof (lookup_cleaned d) as Hlook. unfold cleaned in Hlook.
  exists d, d'. repeat split.
  - rewrite Hkeys. apply keys_cleaned.
  - intros k Hk. unfold dict_has. rewrite Hvals.
    + now rewrite Hlook, Hk.
    + intros ->. vm_compute in Hk.
      destruct (malformed_parallel_flag d); discriminate.
  - intros k Hk Hm. rewrite (Hvals k Hm). now rewrite Hlook, Hk.
Qed.
End CleanupFacts.

(** C9 (amended): when the body of a chat-completions request parses and
    the pass over it completes, the body sent upstream is the serialization
    of an object without [prompt_cache_key], [logprobs] and [top_logprobs];
    [parallel_tool_calls] is kept with its value when that is a boolean and
    removed otherwise; the remaining keys keep their order, and their values
    too, [messages] apart, whose tool calls may have been coerced. *)
Theorem C9_cleanup_when_pass_completes
        {lib : PyLib} (path : pystr) (request_headers : headers) (body : bytes)
        (body_json b : json) :
  is_chat_route path body = true ->
  loads_bytes body = Ok body_json ->
  rewrite_chat_json body_json = Ok b ->
  exists d d' : dict json,
    body_json = JDict d /\ b = JDict d'
    /\ snd (fst (prepare_request path request_headers body))
       = dumps_bytes (JDict d')
    /\ (forall k, In k unsupported_params -> dict_has k d' = false)
    /\ (forall flag, dict_lookup (u "parallel_tool_calls") d = Some (JBool flag)
                     -> dict_lookup (u "parallel_tool_calls") d'
                        = Some (JBool flag))
    /\ (forall v, dict_lookup (u "parallel_tool_calls") d = Some v ->
                  isinstance_bool v = false ->
                  dict_has (u "parallel_tool_calls") d' = false)
    /\ map fst d' = filter (fun k => negb (is_removed d k)) (map fst d)
    /\ (forall k, is_removed d k = false -> k <> u "messages" ->
                  dict_lookup k d' = dict_lookup k d).
Proof.
  intros Hroute Hload Hpass.
  destruct (rewrite_chat_json_keys _ _ Hpass)
    as (d & d' & -> & -> & Hkeys & Hgone & Hkept).
  exists d, d'. repeat split; try assumption.
  - rewrite (prepare_request_chat _ _ _ Hroute).
    unfold rewrite_chat_request. rewrite Hload. cbn [bind].
    rewrite Hpass. reflexivity.
  - intros k Hin. apply Hgone. unfold is_removed.
    apply orb_true_iff. left. apply existsb_exists. exists k.
    split; [exact Hin|apply pystr_eqb_refl].
  - intros flag Hflag. rewrite <- Hflag. apply Hkept.
    + unfold is_removed, malformed_parallel_flag. now rewrite Hflag.
    + intro H. vm_compute in H. discriminate.
  - intros v Hv Hnb. apply Hgone.
    unfold is_removed, malformed_parallel_flag. rewrite Hv, Hnb.
    rewrite pystr_eqb_refl. apply orb_true_r.
Qed.

Lemma C9_witness :
  is_chat_route (u "chat/completions") flagged_body = true
  /\ loads_bytes (lib := cpython) flagged_body = Ok (JDict flagged_json)
  /\ rewrite_chat_json (lib := cpython) (JDict flagged_json)
     = Ok (JDict flagged_clean)
  /\ snd (fst (prepare_request (lib := cpython) (u "chat/completions") []
                               flagged_body))
     = dq "{'model': 'm', 'parallel_tool_calls': false}".
Proof.
  assert (H1 : is_chat_route (u "chat/completions") flagged_body = true)
    by (vm_compute; reflexivity).
  assert (H2 : loads_bytes (lib := cpython) flagged_body
               = Ok (JDict flagged_json)) by (vm_compute; reflexivity).
  assert (H3 : rewrite_chat_json (lib := cpython) (JDict flagged_json)
               = Ok (JDict flagged_clean)) by (vm_compute; reflexivity).
  split; [exact H1|]. split; [exact H2|]. split; [exact H3|].
  destruct (@C9_cleanup_when_pass_completes cpython (u "chat/completions") []
              flagged_body _ _ H1 H2 H3)
    as (d & d' & _ & Hb & Hsent & _).
  injection Hb as <-. rewrite Hsent. vm_compute. reflexivity.
Defined.

(** Without the proviso the statement fails, on a body that parses but on
    which the pass raises: here [enumerate(5)] in the tool log.  The body
    goes upstream as it came, [logprobs] included. *)
Lemma C9_counterexample :
  is_chat_route (u "chat/completions") odd_tools_body = true
  /\ loads_bytes (lib := cpython) odd_tools_body
     = Ok (JDict [(u "logprobs", JBool true); (u "tools", JInt 5)])
  /\ prepare_request (lib := cpython) (u "chat/completions") [] odd_tools_body
     = ([], odd_tools_body, true)
  /\ dict_has (u "logprobs") [(u "logprobs", JBool true); (u "tools", JInt 5)]
     = true.
Proof. repeat split; vm_compute; reflexivity. Qed.

(** ** The traversals *)

Section TraversalFacts.
Context {lib : PyLib}.

Lemma with_tool_calls_same (m : dict json) (l : list json) :
  dict_lookup (u "tool_calls") m = Some (JList l) ->
  with_tool_calls m l = JDict m.
Proof. intro H. unfold with_tool_calls. now rewrite dict_set_same. Qed.

(** Request pass: the tool calls of a message all go through
    [request_tool_call]. *)
Lemma request_message_calls (msg : json) :
  request_message msg =
  msg' <- match tool_calls_in msg with
          | Some (m, l) =>
              l' <- mapM request_tool_call l ;; Ok (with_tool_calls m l')
          | None => Ok msg
          end ;;
  _ <- log_tool_result msg' ;;
  Ok msg'.
Proof.
  unfold request_message, tool_calls_in, has_key, dict_has, py_getitem.
  destruct msg; try reflexivity.
  destruct (dict_lookup (u "tool_calls") d) as [v|] eqn:E; [|reflexivity].
  cbn [bind]. destruct v; try reflexivity.
  destruct l as [|tc l]; [|reflexivity].
  cbn [mapM bind]. now rewrite (with_tool_calls_same d [] E).
Qed.

Lemma transform_messages_calls (d : dict json) (messages : list json) :
  dict_lookup (u "messages") d = Some (JList messages) ->
  transform_messages (JDict d) =
  messages' <- mapM request_message messages ;;
  Ok (JDict (dict_set (u "messages") (JList messages') d)).
Proof.
  intro H. unfold transform_messages, messages_list, py_in, py_getitem, dict_has.
  rewrite H. reflexivity.
Qed.

(** Non-streaming relay: the tool calls of the message of a choice all go
    through [response_tool_call]. *)
Lemma response_choice_calls (choice : json) :
  response_choice choice =
  match holder_calls (u "message") choice with
  | Some (c, m, l) =>
      l' <- mapM response_tool_call l ;; Ok (with_holder (u "message") c m l')
  | None => Ok choice
  end.
Proof.
  unfold response_choice, holder_calls, tool_calls_in, has_key, dict_has,
    py_getitem.
  destruct choice as [| | | | | |c]; try reflexivity.
  destruct (dict_lookup (u "message") c) as [holder|] eqn:Ec; [|reflexivity].
  cbn [bind]. destruct holder as [| | | | | |m]; try reflexivity.
  destruct (dict_lookup (u "tool_calls") m) as [v|] eqn:Em; [|reflexivity].
  cbn [bind]. destruct v; try reflexivity.
  destruct l as [|tc l]; [|reflexivity].
  cbn [mapM bind]. unfold with_holder.
  rewrite (with_tool_calls_same m [] Em). now rewrite dict_set_same.
Qed.

Lemma relay_json_calls (d : dict json) (choices : list json) :
  dict_lookup (u "choices") d = Some (JList choices) ->
  relay_json (JDict d) =
  choices' <- mapM response_choice choices ;;
  Ok (JDict (dict_set (u "choices") (JList choices') d)).
Proof.
  intro H. unfold relay_json, py_in, py_getitem, dict_has. rewrite H.
  reflexivity.
Qed.

(** Stream relay: what the loops return, the variable [line] left aside. *)
Lemma stream_tool_calls_result (rebuild : list json -> json)
      (done todo : list json) (line : pystr) :
  snd (stream_tool_calls rebuild done todo line) =
  l' <- mapM (fun tool_call => r <- stream_tool_call tool_call ;; Ok (fst r))
             todo ;;
  Ok (rev done ++ l').
Proof.
  revert done line. induction todo as [|tc rest IH]; intros done line;
    cbn [stream_tool_calls mapM bind snd].
  - now rewrite app_nil_r.
  - destruct (stream_tool_call tc) as [[tc' m]|e]; [|reflexivity].
    rewrite IH. cbn [bind fst].
    destruct (mapM _ rest) as [l'|]; [|reflexivity].
    cbn [bind rev]. now rewrite <- app_assoc.
Qed.

Lemma stream_choice_result (rebuild : json -> json) (choice : json)
      (line : pystr) :
  snd (stream_choice rebuild choice line) = stream_choice_calls choice.
Proof.
  unfold stream_choice, stream_choice_calls, holder_calls, tool_calls_in,
    has_key, dict_has, py_getitem.
  destruct choice as [| | | | | |c]; try reflexivity.
  destruct (dict_lookup (u "delta") c) as [holder|] eqn:Ec; [|reflexivity].
  destruct holder as [| | | | | |m]; try reflexivity.
  destruct (dict_lookup (u "tool_calls") m) as [v|] eqn:Em; [|reflexivity].
  destruct v; try reflexivity.
  pose proof (stream_tool_calls_result
                (fun l0 => rebuild (put_back (JDict c) (u "delta")
                                      (put_back (JDict m) (u "tool_calls")
                                                (JList l0)))) [] l line) as H.
  destruct (stream_tool_calls _ [] l line) as [line' r]. cbn [snd] in *.
  rewrite H. now destruct (mapM _ l).
Qed.

Lemma stream_choices_result (rebuild : list json -> json)
      (done todo : list json) (line : pystr) :
  snd (stream_choices rebuild done todo line) =
  l' <- mapM stream_choice_calls todo ;; Ok (rev done ++ l').
Proof.
  revert done line. induction todo as [|choice rest IH]; intros done line;
    cbn [stream_choices mapM bind snd].
  - now rewrite app_nil_r.
  - pose proof (stream_choice_result
                  (fun c => rebuild (rev done ++ c :: rest)) choice line) as H.
    destruct (stream_choice _ choice line) as [line' [choice'|e]];
      cbn [snd] in H; rewrite <- H; [|reflexivity].
    rewrite IH. cbn [bind].
    destruct (mapM _ rest) as [l'|]; [|reflexivity].
    cbn [bind rev]. now rewrite <- app_assoc.
Qed.
End TraversalFacts.

(** ** What the relays keep *)

Section RelayFacts.
Context {lib : PyLib}.

Lemma coerced_keeps_other_fields (tool_call tool_call' : json) :
  tool_call' = tool_call \/ coerced_from tool_call tool_call' ->
  same_call_but_lines tool_call tool_call'.
Proof.
  intros [-> | (t & f & s & d & d' & -> & Hf & _ & Ha & _ & Hl & Hc & ->)];
    [now left|].
  right. exists t, f, s, d, d'. repeat split; try assumption.
  - destruct (coerce_lines_cases _ _ _ Hc)
      as [[? _] | (_ & d0 & d0' & E & E' & [Hk _])]; [discriminate|].
    injection E as <-. injection E' as <-. exact Hk.
  - destruct (coerce_lines_cases _ _ _ Hc)
      as [[? _] | (_ & d0 & d0' & E & E' & [_ Hv])]; [discriminate|].
    injection E as <-. injection E' as <-. exact Hv.
Qed.

Lemma Forall2_same {A} (R : A -> A -> Prop) (l : list A) :
  (forall x, R x x) -> Forall2 R l l.
Proof. intro H. induction l; constructor; auto. Qed.

(** *** Non-streaming relay *)

Lemma response_choice_keeps (choice choice' : json) :
  response_choice choice = Ok choice' ->
  same_choice_but_lines (u "message") choice choice'.
Proof.
  rewrite response_choice_calls.
  destruct (holder_calls (u "message") choice) as [[[c m] l]|] eqn:E.
  - destruct (mapM response_tool_call l) as [l'|] eqn:El; [|discriminate].
    cbn [bind]. intro H. injection H as <-.
    right. exists c, m, l, l'. split; [exact E|]. split; [|reflexivity].
    apply mapM_Forall2 in El.
    eapply Forall2_impl; [|exact El].
    intros tc tc' Htc. apply coerced_keeps_other_fields.
    now apply response_tool_call_cases.
  - intro H. injection H as <-. now left.
Qed.

Lemma relay_json_keeps (doc doc' : json) :
  relay_json doc = Ok doc' ->
  same_document_but_lines (u "message") doc doc'.
Proof.
  unfold relay_json. intro H.
  destruct (py_in (u "choices") doc) as [[|]|] eqn:Ein; cbn [bind] in H;
    [|injection H as <-; now left|discriminate].
  destruct (py_getitem doc (u "choices")) as [choices|] eqn:Eget;
    cbn [bind] in H; [|discriminate].
  destruct choices; try (injection H as <-; now left).
  destruct (mapM response_choice l) as [l'|] eqn:El; [|discriminate].
  cbn [bind] in H. injection H as <-.
  destruct doc; try discriminate.
  unfold py_getitem in Eget.
  destruct (dict_lookup (u "choices") d) as [x|] eqn:Ed; [|discriminate].
  injection Eget as ->.
  right. exists d, l, l'. split; [reflexivity|]. split; [exact Ed|].
  split; [|reflexivity].
  apply mapM_Forall2 in El.
  eapply Forall2_impl; [|exact El].
  intros c c'. apply response_choice_keeps.
Qed.

Lemma non_streaming_content_keeps (json_bound : bool) (status : Z)
      (path : pystr) (content : bytes) :
  non_streaming_content json_bound status path content = content
  \/ exists doc doc',
       loads_bytes content = Ok doc
       /\ same_document_but_lines (u "message") doc doc'
       /\ non_streaming_content json_bound status path content
          = dumps_bytes doc'.
Proof.
  unfold non_streaming_content.
  destruct ((status =? 200)%Z && str_contains (u "chat/completions") path);
    [|now left].
  destruct json_bound; [|now left].
  destruct (utf8_decode content) as [text|] eqn:Et; [|now left]. cbn [bind].
  destruct (loads (JStr text)) as [doc|] eqn:El; [|now left]. cbn [bind].
  destruct (relay_json doc) as [doc'|] eqn:Er; [|now left]. cbn [bind or_original].
  right. exists doc, doc'. split; [|split; [|reflexivity]].
  - unfold loads_bytes. rewrite Et. exact El.
  - now apply relay_json_keeps.
Qed.

(** *** Stream relay: the variable [line]

    At every point of the traversal [line] is what it was, with nothing
    modified so far, or the serialization of [data] in its current state. *)

Lemma stream_tool_calls_line (rebuild : list json -> json)
      (done todo : list json) (line line' : pystr) (r : result (list json)) :
  stream_tool_calls rebuild done todo line = (line', r) ->
  exists l',
    Forall2 same_call_but_lines todo l'
    /\ ((line' = line /\ l' = todo)
        \/ line' = u "data: " ++ json_dumps (rebuild (rev done ++ l')))
    /\ (forall x, r = Ok x -> x = rev done ++ l').
Proof.
  revert done line. induction todo as [|tc rest IH]; intros done line;
    cbn [stream_tool_calls].
  - intro H. injection H as <- <-. exists []. split; [constructor|].
    split; [now left|]. intros x Hx. injection Hx as <-.
    now rewrite app_nil_r.
  - destruct (stream_tool_call tc) as [[tc' m]|e] eqn:E.
    2:{ intro H. injection H as <- <-. exists (tc :: rest).
        split; [apply Forall2_same; intro; now left|].
        split; [now left|discriminate]. }
    intro H. apply IH in H as (l' & Hl' & Hline & Hres).
    pose proof (stream_tool_call_cases _ _ _ E) as Hcases.
    exists (tc' :: l'). split; [|split].
    + constructor; [|exact Hl'].
      apply coerced_keeps_other_fields.
      destruct Hcases as [[_ ->] | [_ Hc]]; [now left|now right].
    + cbn [rev] in Hline. rewrite <- app_assoc in Hline. cbn [app] in Hline.
      destruct Hline as [[-> ->] | Hline]; [|now right].
      destruct Hcases as [[-> ->] | [-> _]]; [now left|now right].
    + intros x Hx. rewrite (Hres x Hx). cbn [rev].
      now rewrite <- app_assoc.
Qed.

Lemma stream_choice_line (rebuild : json -> json) (choice : json)
      (line line' : pystr) (r : result json) :
  stream_choice rebuild choice line = (line', r) ->
  exists choice',
    same_choice_but_lines (u "delta") choice choice'
    /\ ((line' = line /\ choice' = choice)
        \/ line' = u "data: " ++ json_dumps (rebuild choice'))
    /\ (forall x, r = Ok x -> x = choice').
Proof.
  assert (Hsame : (line, Ok choice) = (line', r) ->
            exists choice',
              same_choice_but_lines (u "delta") choice choice'
              /\ ((line' = line /\ choice' = choice)
                  \/ line' = u "data: " ++ json_dumps (rebuild choice'))
              /\ (forall x, r = Ok x -> x = choice')).
  { intro H. injection H as <- <-. exists choice.
    split; [now left|]. split; [now left|].
    intros x Hx. now injection Hx. }
  unfold stream_choice, has_key, dict_has, py_getitem.
  destruct choice as [| | | | | |c]; try exact Hsame.
  destruct (dict_lookup (u "delta") c) as [holder|] eqn:Ec; [|exact Hsame].
  destruct holder as [| | | | | |m]; try exact Hsame.
  destruct (dict_lookup (u "tool_calls") m) as [v|] eqn:Em; [|exact Hsame].
  destruct v; try exact Hsame. clear Hsame.
  destruct (stream_tool_calls _ [] l line) as [line1 r1] eqn:E.
  apply stream_tool_calls_line in E as (l' & Hl' & Hline & Hres).
  intro H. injection H as <- <-.
  exists (with_holder (u "delta") c m l'). split; [|split].
  - right. exists c, m, l, l'. split; [|split; [exact Hl'|reflexivity]].
    unfold holder_calls, tool_calls_in. now rewrite Ec, Em.
  - destruct Hline as [[-> ->] | ->]; [left|now right].
    split; [reflexivity|]. unfold with_holder.
    rewrite (with_tool_calls_same m l Em). now rewrite dict_set_same.
  - intros x Hx. destruct r1 as [l1|]; [|discriminate].
    cbn [bind] in Hx. injection Hx as <-.
    now rewrite (Hres l1 eq_refl).
Qed.

Lemma stream_choices_line (rebuild : list json -> json)
      (done todo : list json) (line line' : pystr) (r : result (list json)) :
  stream_choices rebuild done todo line = (line', r) ->
  exists l',
    Forall2 (same_choice_but_lines (u "delta")) todo l'
    /\ ((line' = line /\ l' = todo)
        \/ line' = u "data: " ++ json_dumps (rebuild (rev done ++ l')))
    /\ (forall x, r = Ok x -> x = rev done ++ l').
Proof.
  revert done line. induction todo as [|choice rest IH]; intros done line;
    cbn [stream_choices].
  - intro H. injection H as <- <-. exists []. split; [constructor|].
    split; [now left|]. intros x Hx. injection Hx as <-.
    now rewrite app_nil_r.
  - destruct (stream_choice _ choice line) as [line1 r1] eqn:E.
    apply stream_choice_line in E as (c' & Hc' & Hline & Hres).
    destruct r1 as [choice'|e].
    + rewrite (Hres choice' eq_refl). intro H.
      apply IH in H as (l' & Hl' & Hline' & Hres').
      exists (c' :: l'). split; [now constructor|]. split.
      * cbn [rev] in Hline'. rewrite <- app_assoc in Hline'.
        cbn [app] in Hline'.
        destruct Hline' as [[-> ->] | Hline']; [|now right].
        destruct Hline as [[-> ->] | ->]; [now left|now right].
      * intros x Hx. rewrite (Hres' x Hx). cbn [rev].
        now rewrite <- app_assoc.
    + intro H. injection H as <- <-. exists (c' :: rest). split.
      * constructor; [exact Hc'|]. apply Forall2_same. intro. now left.
      * split; [|discriminate].
        destruct Hline as [[-> ->] | ->]; [now left|now right].
Qed.

(** A data line comes out as it went in, or as the serialization of the
    event with line fields converted. *)
Lemma rewrite_data_line_keeps (json_bound : bool) (line : pystr) :
  rewrite_data_line json_bound line = line
  \/ exists data data',
       json_loads (slice_from 6 line) = Some data
       /\ same_document_but_lines (u "delta") data data'
       /\ rewrite_data_line json_bound line = u "data: " ++ json_dumps data'.
Proof.
  unfold rewrite_data_line, relay_loads.
  destruct json_bound; [|now left].
  destruct (loads (JStr (slice_from 6 line))) as [data|] eqn:El; [|now left].
  apply loads_Ok in El as (s & Es & El). injection Es as <-.
  destruct (py_in (u "choices") data) as [[|]|]; try now left.
  destruct (py_getitem data (u "choices")) as [choices|] eqn:Eg; [|now left].
  destruct choices as [| | | | |choices|]; try now left.
  destruct data as [| | | | | |d]; try discriminate.
  unfold py_getitem in Eg.
  destruct (dict_lookup (u "choices") d) as [x|] eqn:Ed; [|discriminate].
  injection Eg as ->.
  destruct (stream_choices _ [] choices line) as [line' r] eqn:E.
  apply stream_choices_line in E as (l' & Hl' & Hline & _).
  cbn [fst]. destruct Hline as [[-> _] | ->]; [now left|].
  right. exists (JDict d), (JDict (dict_set (u "choices") (JList l') d)).
  split; [exact El|]. split; [|reflexivity].
  right. exists d, choices, l'. now repeat split.
Qed.
End RelayFacts.

Section RelayTheorems.
Context {lib : PyLib}.

Lemma relay_line_keeps (json_bound : bool) (line : pystr) :
  relay_line json_bound line = utf8_encode (strip line ++ [10%N])
  \/ exists data data',
       json_loads (slice_from 6 (strip line)) = Some data
       /\ same_document_but_lines (u "delta") data data'
       /\ relay_line json_bound line
          = utf8_encode (u "data: " ++ json_dumps data' ++ [10%N]).
Proof.
  unfold relay_line.
  destruct (startswith (u "data: ") (strip line)
            && negb (pystr_eqb (strip line) (u "data: [DONE]"))); [|now left].
  destruct (rewrite_data_line_keeps json_bound (strip line))
    as [-> | (data & data' & Hl & Hrel & ->)]; [now left|].
  right. exists data, data'. split; [exact Hl|]. split; [exact Hrel|].
  now rewrite <- app_assoc.
Qed.

(** C2 (amended): what a relay returns is the input as read, or the
    serialization by [json.dumps] of a document that equals the parsed
    input except in the arguments text of tool calls; a changed arguments
    text is the serialization of the parsed arguments with the same keys in
    the same order and the same value under every key but [start_line] and
    [end_line].  This holds for the content of the non-streaming relay and
    for every line of the stream relay, whose untouched lines are emitted
    stripped. *)
Theorem C2_relays_keep_values :
  (forall (json_bound : bool) (path : pystr) (content : bytes),
      non_streaming_content json_bound 200 path content = content
      \/ exists doc doc',
           loads_bytes content = Ok doc
           /\ same_document_but_lines (u "message") doc doc'
           /\ non_streaming_content json_bound 200 path content
              = dumps_bytes doc')
  /\ (forall (json_bound : bool) (line : pystr),
         relay_line json_bound line = utf8_encode (strip line ++ [10%N])
         \/ exists data data',
              json_loads (slice_from 6 (strip line)) = Some data
              /\ same_document_but_lines (u "delta") data data'
              /\ relay_line json_bound line
                 = utf8_encode (u "data: " ++ json_dumps data' ++ [10%N])).
Proof.
  split.
  - intros. apply non_streaming_content_keeps.
  - intros. apply relay_line_keeps.
Qed.
End RelayTheorems.

(** Identical bytes are not kept.  A content field written in UTF-8 comes
    back escaped, and an arguments text comes back with the spacing of
    [json.dumps]: the values are the same, the bytes are not. *)
Lemma C2_counterexample :
  non_streaming_content (lib := cpython) true 200 (u "chat/completions")
                        accented_content
  = dq "{'content': 'caf\u00e9'}"
  /\ dq "{'content': 'caf\u00e9'}" <> accented_content
  /\ loads_bytes (lib := cpython) accented_content
     = Ok (JDict [(u "content", JStr [99; 97; 102; 233]%N)])
  /\ non_streaming_content (lib := cpython) true 200 (u "chat/completions")
                           path_and_line_content
     = dq "{'choices': [{'message': {'tool_calls': [{'function': {'name': 'read_file', 'arguments': '{\'path\': \'a\', \'start_line\': 5}'}}]}}]}".
Proof.
  split; [vm_compute; reflexivity|].
  split; [intro H; vm_compute in H; discriminate|].
  split; vm_compute; reflexivity.
Qed.

(** ** Where the coercion is applied *)

Section CoverageFacts.
Context {lib : PyLib}.

Lemma eq_str_field_or (default_name : json) (f : dict json) :
  eq_str default_name (u "read_file") = false ->
  dict_lookup (u "name") f <> Some (JStr (u "read_file")) ->
  eq_str (field_or (u "name") default_name f) (u "read_file") = false.
Proof.
  intros Hd Hn. unfold field_or.
  destruct (dict_lookup (u "name") f) as [v|]; [|exact Hd].
  destruct v; try reflexivity. cbn [eq_str].
  destruct (pystr_eqb s (u "read_file")) eqn:E; [|reflexivity].
  apply pystr_eqb_eq in E. now subst.
Qed.

(** A tool call under another name comes out of every site as it went
    in. *)
Lemma untouched_when_not_read_file (t f : dict json) :
  dict_lookup (u "function") t = Some (JDict f) ->
  dict_lookup (u "name") f <> Some (JStr (u "read_file")) ->
  request_tool_call (JDict t) = Ok (JDict t)
  /\ response_tool_call (JDict t) = Ok (JDict t)
  /\ stream_tool_call (JDict t) = Ok (JDict t, false).
Proof.
  intros Hf Hn.
  unfold request_tool_call, response_tool_call, stream_tool_call.
  cbn [isinstance_dict].
  rewrite !(function_field_object t f _ _ Hf). cbn [bind].
  rewrite !(is_read_file_call_object t _ _ _ Hf).
  rewrite (eq_str_field_or (JStr (u "unknown")) f eq_refl Hn).
  rewrite (eq_str_field_or (JStr []) f eq_refl Hn).
  now repeat split.
Qed.

(** Where the name [json] is unbound the relays leave everything as it
    is. *)
Lemma relays_idle_without_json :
  (forall (status : Z) (path : pystr) (content : bytes),
      non_streaming_content false status path content = content)
  /\ (forall line : pystr, rewrite_data_line false line = line).
Proof.
  split; [|reflexivity].
  intros status path content. unfold non_streaming_content.
  now destruct ((status =? 200)%Z && str_contains _ path).
Qed.

Lemma non_streaming_content_relays (path : pystr) (content : bytes)
      (doc doc' : json) :
  str_contains (u "chat/completions") path = true ->
  loads_bytes content = Ok doc ->
  relay_json doc = Ok doc' ->
  non_streaming_content true 200 path content = dumps_bytes doc'.
Proof.
  intros Hp Hl Hr. unfold non_streaming_content. rewrite Hp.
  cbn [Z.eqb Pos.eqb andb]. unfold loads_bytes in Hl.
  destruct (utf8_decode content) as [text|]; [|discriminate].
  cbn [bind] in *. rewrite Hl. cbn [bind]. now rewrite Hr.
Qed.

Lemma rewrite_data_line_traverses (line : pystr) (d : dict json)
      (choices : list json) :
  json_loads (slice_from 6 line) = Some (JDict d) ->
  dict_lookup (u "choices") d = Some (JList choices) ->
  rewrite_data_line true line
  = fst (stream_choices
           (fun l => JDict (dict_set (u "choices") (JList l) d))
           [] choices line).
Proof.
  intros Hl Hc. unfold rewrite_data_line, relay_loads, loads. rewrite Hl.
  unfold py_in, py_getitem, dict_has. now rewrite Hc.
Qed.

(** *** The coercion is applied *)

Lemma coerced_from_unique (tool_call a b : json) :
  coerced_from tool_call a -> coerced_from tool_call b -> a = b.
Proof.
  intros (t & f & s & d & d' & Et & Hf & _ & Ha & _ & Hl & Hc & Ea)
         (t0 & f0 & s0 & d0 & d0' & Et0 & Hf0 & _ & Ha0 & _ & Hl0 & Hc0 & Eb).
  subst tool_call a b. injection Et0 as Et0. subst t0.
  rewrite Hf in Hf0. injection Hf0 as Hf0. subst f0.
  rewrite Ha in Ha0. injection Ha0 as Ha0. subst s0.
  rewrite Hl in Hl0. injection Hl0 as Hl0. subst d0.
  rewrite Hc in Hc0. injection Hc0 as Hc0. now subst d0'.
Qed.

(** [modifies] decides whether the coercion has something to convert. *)
Lemma modifies_iff (tool_call : json) :
  modifies tool_call = true <-> exists x, coerced_from tool_call x.
Proof.
  unfold modifies. split.
  - destruct (stream_tool_call tool_call) as [[x m]|] eqn:E; [|discriminate].
    destruct m; [|discriminate]. intros _.
    destruct (stream_tool_call_cases _ _ _ E) as [[? _] | [_ H]];
      [discriminate|now exists x].
  - intros [x H]. now rewrite (stream_tool_call_applies _ _ H).
Qed.

Lemma coercion_applied_at_intro (tool_call tool_call' : json) :
  tool_call' = tool_call \/ coerced_from tool_call tool_call' ->
  (forall x, coerced_from tool_call x -> x = tool_call') ->
  coercion_applied_at tool_call tool_call'.
Proof.
  intros Hcases Hany. destruct (modifies tool_call) eqn:E.
  - apply modifies_iff in E as [x Hx]. left. now rewrite <- (Hany x Hx).
  - destruct Hcases as [-> | H]; [|now left].
    right. split; [reflexivity|]. intros x Hx.
    assert (modifies tool_call = true) by (apply modifies_iff; now exists x).
    congruence.
Qed.

Lemma response_tool_call_applied (tool_call tool_call' : json) :
  response_tool_call tool_call = Ok tool_call' ->
  coercion_applied_at tool_call tool_call'.
Proof.
  intro H. apply coercion_applied_at_intro.
  - now apply response_tool_call_cases.
  - intros x Hx. apply response_tool_call_applies in Hx. congruence.
Qed.

Lemma stream_tool_call_applied (tool_call tool_call' : json) (m : bool) :
  stream_tool_call tool_call = Ok (tool_call', m) ->
  coercion_applied_at tool_call tool_call' /\ m = modifies tool_call.
Proof.
  intro H. split.
  - apply coercion_applied_at_intro.
    + destruct (stream_tool_call_cases _ _ _ H) as [[_ ->] | [_ Hc]];
        [now left|now right].
    + intros x Hx. apply stream_tool_call_applies in Hx. congruence.
  - unfold modifies. rewrite H. now destruct m.
Qed.

(** In the request pass the coerced tool call is what the site returns,
    unless the verification of the new text raises. *)
Lemma request_tool_call_coercible (tool_call x : json) :
  coerced_from tool_call x ->
  request_tool_call tool_call = Ok x
  \/ exists e, request_tool_call tool_call = Raise e.
Proof.
  intros (t & f & s & d & d' & -> & Hf & Hn & Ha & Hs & Hl & Hc & ->).
  destruct (request_tool_call (JDict t)) as [a|e0] eqn:E;
    [left|right; now exists e0].
  destruct (read_file_guard t f (JStr (u "unknown")) s Hf Hn Ha Hs)
    as (E1 & E2 & E3).
  unfold request_tool_call in E. cbn [isinstance_dict] in E.
  rewrite E1, E2 in E. cbn [bind] in E. rewrite E3 in E. cbn [bind] in E.
  unfold loads at 1 in E. rewrite Hl in E. cbn [bind py_get] in E.
  destruct (dict_lookup (u "start_line") d), (dict_lookup (u "end_line") d);
    cbn [bind] in E; rewrite Hc in E; cbn [bind] in E;
    rewrite (set_arguments_object t f _ Hf) in E; cbn [bind] in E;
    destruct (loads (JStr (json_dumps (JDict d')))) as [v|e1];
    cbn [bind except_ValueError] in E.
  all: try (destruct (py_get v (u "start_line") JNull) as [y|e1];
            cbn [bind except_ValueError] in E).
  all: try (symmetry; exact E).
  all: destruct (is_ValueError e1) eqn:Ev; cbn [except_ValueError] in E;
    rewrite ?Ev in E; [symmetry; exact E|discriminate].
Qed.

Lemma request_tool_call_applied (tool_call tool_call' : json) :
  request_tool_call tool_call = Ok tool_call' ->
  coercion_applied_at tool_call tool_call'.
Proof.
  intro H. apply coercion_applied_at_intro.
  - now apply request_tool_call_cases.
  - intros x Hx.
    destruct (request_tool_call_coercible _ _ Hx) as [E | [e E]]; congruence.
Qed.

Lemma request_message_applied (msg msg' : json) :
  request_message msg = Ok msg' -> applied_in_message msg msg'.
Proof.
  rewrite request_message_calls. unfold applied_in_message.
  destruct (tool_calls_in msg) as [[m l]|].
  - destruct (mapM request_tool_call l) as [l'|] eqn:El; cbn [bind];
      [|discriminate].
    destruct (log_tool_result _); cbn [bind]; [|discriminate].
    intro H. injection H as <-.
    exists l'. split; [|reflexivity].
    apply mapM_Forall2 in El.
    eapply Forall2_impl; [|exact El].
    intros tc tc' Htc. now apply request_tool_call_applied.
  - cbn [bind]. destruct (log_tool_result msg); cbn [bind]; [|discriminate].
    intro H. now injection H as <-.
Qed.

Lemma response_choice_applied (choice choice' : json) :
  response_choice choice = Ok choice' ->
  applied_in_choice (u "message") choice choice'.
Proof.
  rewrite response_choice_calls. unfold applied_in_choice.
  destruct (holder_calls (u "message") choice) as [[[c m] l]|].
  - destruct (mapM response_tool_call l) as [l'|] eqn:El; [|discriminate].
    cbn [bind]. intro H. injection H as <-.
    exists l'. split; [|reflexivity].
    apply mapM_Forall2 in El.
    eapply Forall2_impl; [|exact El].
    intros tc tc' Htc. now apply response_tool_call_applied.
  - intro H. now injection H as <-.
Qed.

Lemma stream_calls_applied (l l' : list json) :
  mapM (fun tool_call => r <- stream_tool_call tool_call ;; Ok (fst r)) l
  = Ok l' ->
  Forall2 coercion_applied_at l l'
  /\ (existsb modifies l = false -> l' = l).
Proof.
  revert l'. induction l as [|tc l IH]; intro l'; cbn [mapM existsb].
  - intro H. injection H as <-. split; [constructor|reflexivity].
  - destruct (stream_tool_call tc) as [[tc' m]|] eqn:E; [|discriminate].
    cbn [bind fst].
    destruct (mapM _ l) as [rest'|]; [|discriminate]. cbn [bind].
    intro H. injection H as <-.
    destruct (IH rest' eq_refl) as [Hall Hsame].
    destruct (stream_tool_call_applied _ _ _ E) as [Happ Hm].
    split; [now constructor|].
    intro Hnone. apply orb_false_iff in Hnone as [Htc Hrest].
    rewrite (Hsame Hrest). f_equal.
    rewrite Htc in Hm. subst m.
    now destruct (stream_tool_call_cases _ _ _ E) as [[_ ->] | [? _]].
Qed.

Lemma holder_calls_same (key : pystr) (choice : json) (c m : dict json)
      (l : list json) :
  holder_calls key choice = Some (c, m, l) ->
  with_holder key c m l = choice.
Proof.
  unfold holder_calls, tool_calls_in, with_holder.
  destruct choice as [| | | | | |c0]; try discriminate.
  destruct (dict_lookup key c0) as [holder|] eqn:Ec; [|discriminate].
  destruct holder as [| | | | | |m0]; try discriminate.
  destruct (dict_lookup (u "tool_calls") m0) as [v|] eqn:Em; [|discriminate].
  destruct v; try discriminate.
  intro H. injection H as <- <- <-.
  rewrite (with_tool_calls_same _ _ Em).
  rewrite dict_set_same; [reflexivity|exact Ec].
Qed.

Lemma stream_choice_calls_applied (choice choice' : json) :
  stream_choice_calls choice = Ok choice' ->
  applied_in_choice (u "delta") choice choice'
  /\ (existsb modifies (delta_calls choice) = false -> choice' = choice).
Proof.
  unfold stream_choice_calls, applied_in_choice, delta_calls.
  destruct (holder_calls (u "delta") choice) as [[[c m] l]|] eqn:E.
  - destruct (mapM _ l) as [l'|] eqn:El; [|discriminate].
    cbn [bind]. intro H. injection H as <-.
    destruct (stream_calls_applied l l' El) as [Hall Hsame].
    split; [now exists l'|].
    intro Hnone. rewrite (Hsame Hnone). now apply holder_calls_same.
  - intro H. injection H as <-. now split.
Qed.

Lemma stream_choices_applied (choices choices' : list json) :
  mapM stream_choice_calls choices = Ok choices' ->
  Forall2 (applied_in_choice (u "delta")) choices choices'
  /\ (rewrites_event choices = false -> choices' = choices).
Proof.
  unfold rewrites_event. revert choices'.
  induction choices as [|choice rest IH]; intro choices'; cbn [mapM existsb].
  - intro H. injection H as <-. split; [constructor|reflexivity].
  - destruct (stream_choice_calls choice) as [choice'|] eqn:E; [|discriminate].
    cbn [bind].
    destruct (mapM stream_choice_calls rest) as [rest'|]; [|discriminate].
    cbn [bind]. intro H. injection H as <-.
    destruct (IH rest' eq_refl) as [Hall Hsame].
    destruct (stream_choice_calls_applied _ _ E) as [Happ Hone].
    split; [now constructor|].
    intro Hnone. apply orb_false_iff in Hnone as [Hc Hrest].
    now rewrite (Hsame Hrest), (Hone Hc).
Qed.

(** The variable [line] after a traversal that ran to its end: the
    serialization of the document as the traversal left it when a tool call
    was rewritten, and the line as it came otherwise. *)
Lemma stream_tool_calls_complete (rebuild : list json -> json)
      (done todo : list json) (line : pystr) (l' : list json) :
  snd (stream_tool_calls rebuild done todo line) = Ok l' ->
  fst (stream_tool_calls rebuild done todo line)
  = if existsb modifies todo
    then u "data: " ++ json_dumps (rebuild l')
    else line.
Proof.
  revert done line. induction todo as [|tc rest IH]; intros done line H;
    [reflexivity|].
  pose proof H as Hres. rewrite stream_tool_calls_result in Hres.
  cbn [stream_tool_calls existsb mapM] in *.
  destruct (stream_tool_call tc) as [[tc' m]|e] eqn:E; [|discriminate].
  destruct (stream_tool_call_applied _ _ _ E) as [_ Hm].
  rewrite (IH _ _ H), <- Hm.
  destruct (existsb modifies rest) eqn:Er; [now rewrite orb_true_r|].
  rewrite orb_false_r. destruct m; [|reflexivity].
  cbn [bind fst] in Hres.
  destruct (mapM _ rest) as [rest'|] eqn:Em; [|discriminate].
  cbn [bind] in Hres. injection Hres as <-.
  destruct (stream_calls_applied rest rest' Em) as [_ Hsame].
  now rewrite (Hsame Er).
Qed.

Lemma stream_choice_complete (rebuild : json -> json) (choice : json)
      (line : pystr) (choice' : json) :
  snd (stream_choice rebuild choice line) = Ok choice' ->
  fst (stream_choice rebuild choice line)
  = if existsb modifies (delta_calls choice)
    then u "data: " ++ json_dumps (rebuild choice')
    else line.
Proof.
  unfold stream_choice, delta_calls, holder_calls, tool_calls_in, has_key,
    dict_has, py_getitem.
  destruct choice as [| | | | | |c]; try reflexivity.
  destruct (dict_lookup (u "delta") c) as [holder|]; [|reflexivity].
  destruct holder as [| | | | | |m]; try reflexivity.
  destruct (dict_lookup (u "tool_calls") m) as [v|]; [|reflexivity].
  destruct v as [| | | | |l|]; try reflexivity.
  pose proof (stream_tool_calls_complete
                (fun l0 => rebuild (put_back (JDict c) (u "delta")
                                      (put_back (JDict m) (u "tool_calls")
                                                (JList l0)))) [] l line)
    as Hc.
  destruct (stream_tool_calls _ [] l line) as [line' r].
  cbn [fst snd] in *. destruct r as [l'|]; [|discriminate].
  cbn [bind]. intro H. injection H as <-. exact (Hc l' eq_refl).
Qed.

Lemma stream_choices_complete (rebuild : list json -> json)
      (done todo : list json) (line : pystr) (l' : list json) :
  snd (stream_choices rebuild done todo line) = Ok l' ->
  fst (stream_choices rebuild done todo line)
  = if rewrites_event todo
    then u "data: " ++ json_dumps (rebuild l')
    else line.
Proof.
  unfold rewrites_event.
  revert done line. induction todo as [|choice rest IH]; intros done line H;
    [reflexivity|].
  pose proof H as Hres. rewrite stream_choices_result in Hres.
  cbn [stream_choices existsb mapM] in *.
  pose proof (stream_choice_complete
                (fun c => rebuild (rev done ++ c :: rest)) choice line) as Hc.
  pose proof (stream_choice_result
                (fun c => rebuild (rev done ++ c :: rest)) choice line) as Hr.
  destruct (stream_choice _ choice line) as [line1 [choice'|e]];
    cbn [fst snd] in *; [|discriminate].
  rewrite (IH _ _ H), (Hc choice' eq_refl).
  destruct (existsb (fun c => existsb modifies (delta_calls c)) rest) eqn:Er;
    [now rewrite orb_true_r|].
  rewrite orb_false_r.
  destruct (existsb modifies (delta_calls choice)); [|reflexivity].
  rewrite <- Hr in Hres. cbn [bind] in Hres.
  destruct (mapM stream_choice_calls rest) as [rest'|] eqn:Em; [|discriminate].
  cbn [bind] in Hres. injection Hres as <-.
  destruct (stream_choices_applied rest rest' Em) as [_ Hsame].
  now rewrite (Hsame Er).
Qed.

(** The request pass, on a body whose [messages] is a list. *)
Lemma rewrite_chat_json_applied (d : dict json) (messages : list json)
      (b : json) :
  dict_lookup (u "messages") d = Some (JList messages) ->
  rewrite_chat_json (JDict d) = Ok b ->
  exists d' messages',
    b = JDict d'
    /\ dict_lookup (u "messages") d' = Some (JList messages')
    /\ Forall2 applied_in_message messages messages'.
Proof.
  intros Hm H. unfold rewrite_chat_json in H.
  cbn [pop_params unsupported_params py_pop bind] in H.
  rewrite clean_parallel_tool_calls_dict in H. cbn [bind] in H.
  destruct (validate_tool_sequence _); [|discriminate]. cbn [bind] in H.
  destruct (log_tools _); [|discriminate]. cbn [bind] in H.
  change (transform_messages (JDict (cleaned d)) = Ok b) in H.
  pose proof (lookup_cleaned d (u "messages")) as Hlook.
  replace (is_removed d (u "messages")) with false in Hlook
    by (unfold is_removed; cbn; now destruct (malformed_parallel_flag d)).
  rewrite Hm in Hlook.
  rewrite (transform_messages_calls (cleaned d) messages Hlook) in H.
  destruct (mapM request_message messages) as [messages'|] eqn:Emap;
    [|discriminate].
  cbn [bind] in H. injection H as <-.
  exists (dict_set (u "messages") (JList messages') (cleaned d)), messages'.
  split; [reflexivity|]. split; [apply dict_lookup_set_same|].
  apply mapM_Forall2 in Emap.
  eapply Forall2_impl; [|exact Emap].
  intros msg msg' Hmsg. now apply request_message_applied.
Qed.

(** C1 (amended): for a chat-completions request with a body, the coercion
    is applied to every tool call named [read_file]: a tool call that is an
    object with a [function] object named [read_file] and an arguments text
    that parses to an object in which the coercion converts a line field is
    replaced by the tool call carrying the converted arguments, and every
    other tool call is left as it is.  This holds for every tool call of
    every message of the body sent upstream when the pass over the body
    completes, for every tool call of the message of every choice in the
    content returned for a non-streamed response with status 200 when the
    relay's pass completes, and for every tool call of the delta of every
    choice of a streamed data line when the traversal completes, the line
    emitted being the serialization of the event with the converted
    arguments when a tool call was converted and the line as it came
    otherwise. *)
Theorem C1_coercion_at_read_file_calls
        (path : pystr) (request_headers : headers) (body : bytes) :
  is_chat_route path body = true ->
  let sent := fst (prepare_request path request_headers body) in
  let json_bound := snd (prepare_request path request_headers body) in
  (* request messages *)
  (forall (d : dict json) (messages : list json) (b : json),
      loads_bytes body = Ok (JDict d) ->
      dict_lookup (u "messages") d = Some (JList messages) ->
      rewrite_chat_json (JDict d) = Ok b ->
      exists d' messages',
        b = JDict d'
        /\ dict_lookup (u "messages") d' = Some (JList messages')
        /\ Forall2 applied_in_message messages messages'
        /\ snd sent = dumps_bytes (JDict d'))
  (* non-streamed choices *)
  /\ (forall (content : bytes) (d : dict json) (choices : list json)
             (doc' : json),
         loads_bytes content = Ok (JDict d) ->
         dict_lookup (u "choices") d = Some (JList choices) ->
         relay_json (JDict d) = Ok doc' ->
         exists choices',
           Forall2 (applied_in_choice (u "message")) choices choices'
           /\ doc' = JDict (dict_set (u "choices") (JList choices') d)
           /\ non_streaming_content json_bound 200 path content
              = dumps_bytes doc')
  (* streamed deltas *)
  /\ (forall (raw : pystr) (d : dict json) (choices choices' : list json),
         startswith (u "data: ") (strip raw) = true ->
         strip raw <> u "data: [DONE]" ->
         json_loads (slice_from 6 (strip raw)) = Some (JDict d) ->
         dict_lookup (u "choices") d = Some (JList choices) ->
         snd (stream_choices
                (fun l => JDict (dict_set (u "choices") (JList l) d))
                [] choices (strip raw))
         = Ok choices' ->
         Forall2 (applied_in_choice (u "delta")) choices choices'
         /\ relay_line json_bound raw
            = utf8_encode
                ((if rewrites_event choices
                  then u "data: "
                         ++ json_dumps
                              (JDict (dict_set (u "choices")
                                               (JList choices') d))
                  else strip raw)
                   ++ [10%N]))
  (* what being applied means *)
  /\ (forall tool_call x tool_call' : json,
         coerced_from tool_call x ->
         coercion_applied_at tool_call tool_call' ->
         tool_call' = x)
  /\ (forall (t f : dict json) (tool_call' : json),
         dict_lookup (u "function") t = Some (JDict f) ->
         dict_lookup (u "name") f <> Some (JStr (u "read_file")) ->
         coercion_applied_at (JDict t) tool_call' ->
         tool_call' = JDict t)
  /\ (forall choices : list json,
         rewrites_event choices = true
         <-> exists choice tool_call x,
               In choice choices
               /\ In tool_call (delta_calls choice)
               /\ coerced_from tool_call x).
Proof.
  intros Hroute sent json_bound.
  assert (Hbound : json_bound = true).
  { unfold json_bound. now rewrite (prepare_request_chat _ _ _ Hroute). }
  assert (Hpath : str_contains (u "chat/completions") path = true).
  { unfold is_chat_route in Hroute. now apply andb_true_iff in Hroute. }
  split.
  { intros d messages b Hl Hm Hpass.
    destruct (rewrite_chat_json_applied d messages b Hm Hpass)
      as (d' & messages' & -> & Hm' & Hall).
    exists d', messages'. split; [reflexivity|]. split; [exact Hm'|].
    split; [exact Hall|].
    unfold sent. rewrite (prepare_request_chat _ _ _ Hroute).
    unfold rewrite_chat_request. rewrite Hl. cbn [bind].
    rewrite Hpass. reflexivity. }
  split.
  { intros content d choices doc' Hl Hc Hrelay.
    rewrite Hbound.
    rewrite (non_streaming_content_relays path content _ _ Hpath Hl Hrelay).
    rewrite (relay_json_calls d choices Hc) in Hrelay.
    destruct (mapM response_choice choices) as [choices'|] eqn:Em;
      [|discriminate].
    cbn [bind] in Hrelay. injection Hrelay as <-.
    exists choices'. split; [|now split].
    apply mapM_Forall2 in Em.
    eapply Forall2_impl; [|exact Em].
    intros choice choice' Hch. now apply response_choice_applied. }
  split.
  { intros raw d choices choices' Hdata Hdone Hl Hc Hrun.
    split.
    - rewrite stream_choices_result in Hrun. cbn [rev app] in Hrun.
      destruct (mapM stream_choice_calls choices) as [l'|] eqn:Em;
        [|discriminate].
      cbn [bind] in Hrun. injection Hrun as <-.
      now apply stream_choices_applied.
    - rewrite Hbound. unfold relay_line. rewrite Hdata.
      rewrite (pystr_eqb_neq _ _ Hdone). cbn [negb andb].
      rewrite (rewrite_data_line_traverses _ d choices Hl Hc).
      now rewrite (stream_choices_complete _ [] choices _ choices' Hrun). }
  split.
  { intros tc x tc' Hx [H | [_ Hnone]].
    - exact (coerced_from_unique _ _ _ H Hx).
    - now destruct (Hnone x). }
  split.
  { intros t f tc' Hf Hn [H | [-> _]]; [|reflexivity].
    destruct H as (t0 & f0 & s & d & d' & Et & Hf0 & Hn0 & _).
    injection Et as Et. subst t0. rewrite Hf in Hf0.
    injection Hf0 as Hf0. subst f0. now destruct Hn. }
  intro choices. unfold rewrites_event. rewrite existsb_exists. split.
  - intros (choice & Hin & Hex). apply existsb_exists in Hex as (tc & Htc & Hm).
    apply modifies_iff in Hm as [x Hx]. now exists choice, tc, x.
  - intros (choice & tc & x & Hin & Htc & Hx). exists choice.
    split; [exact Hin|]. apply existsb_exists. exists tc.
    split; [exact Htc|]. apply modifies_iff. now exists x.
Qed.
End CoverageFacts.

Lemma C1_witness :
  let path := u "chat/completions" in
  let before := tool_call_of (u "read_file") string_lines_text in
  let after := tool_call_of (u "read_file") integer_lines_text in
  coerced_from (lib := cpython) before after
  /\ snd (fst (prepare_request (lib := cpython) path [] read_file_request_body))
     = dumps_bytes (lib := cpython) (JDict read_file_request_sent)
  /\ non_streaming_content (lib := cpython) true 200 path read_file_response
     = dumps_bytes (lib := cpython)
         (JDict (read_file_choices (u "message") integer_lines_text))
  /\ relay_line (lib := cpython) true read_file_event
     = utf8_encode
         (u "data: "
            ++ json_dumps (PyLib := cpython)
                 (JDict (read_file_choices (u "delta") integer_lines_text))
            ++ [10%N]).
Proof.
  intros path before after.
  assert (H : coerced_from (lib := cpython) before after).
  { exists [(u "id", JStr (u "call_1")); (u "type", JStr (u "function"));
            (u "function",
             JDict [(u "name", JStr (u "read_file"));
                    (u "arguments", JStr string_lines_text)])],
           [(u "name", JStr (u "read_file"));
            (u "arguments", JStr string_lines_text)],
           string_lines_text, string_lines, integer_lines.
    split; [reflexivity|]. split; [reflexivity|]. split; [reflexivity|].
    split; [reflexivity|]. split; [discriminate|].
    split; [vm_compute; reflexivity|]. split; vm_compute; reflexivity. }
  split; [exact H|].
  destruct (@C1_coercion_at_read_file_calls cpython path []
              read_file_request_body eq_refl)
    as (Hrequest & Hresponse & Hstream & _).
  split; [|split].
  - destruct (Hrequest read_file_request
                (JList_items (dict_lookup (u "messages") read_file_request))
                (JDict read_file_request_sent))
      as (d' & messages' & Hb & _ & _ & Hsent);
      [vm_compute; reflexivity|reflexivity|vm_compute; reflexivity|].
    injection Hb as <-. exact Hsent.
  - destruct (Hresponse read_file_response
                (read_file_choices (u "message") string_lines_text)
                (JList_items
                   (dict_lookup (u "choices")
                      (read_file_choices (u "message") string_lines_text)))
                (JDict (read_file_choices (u "message") integer_lines_text)))
      as (choices' & _ & _ & Hcontent);
      [vm_compute; reflexivity|reflexivity|vm_compute; reflexivity|].
    exact Hcontent.
  - destruct (Hstream read_file_event
                (read_file_choices (u "delta") string_lines_text)
                (JList_items
                   (dict_lookup (u "choices")
                      (read_file_choices (u "delta") string_lines_text)))
                (JList_items
                   (dict_lookup (u "choices")
                      (read_file_choices (u "delta") integer_lines_text))))
      as (_ & Hline);
      [reflexivity
      |intro E; vm_compute in E; discriminate
      |vm_compute; reflexivity
      |reflexivity
      |vm_compute; reflexivity|].
    refine (eq_trans (eq_trans _ Hline) _); vm_compute; reflexivity.
Defined.

(** The function name matters.  A tool call named [edit_file] with
    string-typed line fields, which the coercion would convert, goes through
    the three sites unchanged, and a request holding it is sent upstream
    with the fields still strings. *)
Lemma C1_counterexample :
  let tool_call := tool_call_of (u "edit_file") string_lines_text in
  json_loads (PyLib := cpython) string_lines_text = Some (JDict string_lines)
  /\ coerce_lines (lib := cpython) (JDict string_lines)
     = Ok (JDict integer_lines, true)
  /\ request_tool_call (lib := cpython) tool_call = Ok tool_call
  /\ response_tool_call (lib := cpython) tool_call = Ok tool_call
  /\ stream_tool_call (lib := cpython) tool_call = Ok (tool_call, false)
  /\ snd (fst (prepare_request (lib := cpython) (u "chat/completions") []
                               edit_file_request))
     = dq "{'messages': [{'role': 'assistant', 'tool_calls': [{'id': 'call_1', 'type': 'function', 'function': {'name': 'edit_file', 'arguments': '{\'start_line\':\'5\',\'end_line\':\'10\'}'}}]}]}".
Proof. repeat split; vm_compute; reflexivity. Qed.

(** ** Stream framing *)

(** C3, on a stream framed with CR LF: the sentinel line is emitted without
    its carriage return, because every line is stripped before it is
    yielded, where the comment at the [yield] and the specification have
    the line go out in its original form. *)
Theorem C3_sentinel_line_is_stripped (lib : PyLib) (json_bound : bool) :
  stream_generator json_bound [crlf_done] = [u "data: [DONE]" ++ [10%N]]
  /\ u "data: [DONE]" ++ [10%N] <> crlf_done.
Proof.
  split; [vm_compute; reflexivity|].
  intro H. vm_compute in H. discriminate.
Qed.

(** An undecodable chunk is yielded at once, ahead of the partial line
    still waiting in the buffer: the bytes reach the client in another
    order than they came. *)
Lemma raw_chunk_overtakes_buffer (lib : PyLib) (json_bound : bool) :
  stream_generator json_bound [u ": keep"; [255; 10]%N; u "-alive" ++ [10%N]]
  = [[255; 10]%N; u ": keep-alive" ++ [10%N]].
Proof. vm_compute. reflexivity. Qed.

Section FramingFacts.
Context {lib : PyLib}.

Lemma complete_lines_split (text : pystr) :
  match split_newline text with
  | Some (line, rest) =>
      complete_lines text
      = (line :: fst (complete_lines rest), snd (complete_lines rest))
  | None => complete_lines text = ([], text)
  end.
Proof.
  induction text as [|c rest IH]; [reflexivity|]. cbn [split_newline complete_lines].
  destruct (N.eqb c 10).
  - now destruct (complete_lines rest).
  - destruct (split_newline rest) as [[line tail]|]; now rewrite IH.
Qed.

Lemma split_newline_shorter (text line rest : pystr) :
  split_newline text = Some (line, rest) ->
  (List.length rest < List.length text)%nat.
Proof.
  revert line rest. induction text as [|c text IH]; intros line rest;
    cbn [split_newline]; [discriminate|].
  destruct (N.eqb c 10).
  - intro H. injection H as <- <-. cbn. lia.
  - destruct (split_newline text) as [[l t]|]; [|discriminate].
    intro H. injection H as <- <-. specialize (IH l t eq_refl). cbn. lia.
Qed.

(** The [while] loop ends within the fuel given: it yields one emission per
    complete line of the buffer, in order, and leaves what follows the last
    newline. *)
Lemma drain_lines_complete (json_bound : bool) (fuel : nat) (buffer : pystr) :
  (List.length buffer <= fuel)%nat ->
  drain_lines json_bound fuel buffer
  = (map (relay_line json_bound) (fst (complete_lines buffer)),
     snd (complete_lines buffer)).
Proof.
  revert buffer. induction fuel as [|fuel IH]; intros buffer Hlen.
  - destruct buffer; [reflexivity|cbn in Hlen; lia].
  - cbn [drain_lines]. pose proof (complete_lines_split buffer) as Hs.
    destruct (split_newline buffer) as [[line rest]|] eqn:E.
    + rewrite IH by (apply split_newline_shorter in E; lia).
      now rewrite Hs.
    + now rewrite Hs.
Qed.

(** The lines and the remainder put together give the text back, and no
    line holds a newline. *)
Lemma complete_lines_join (text : pystr) :
  flat_map (fun l => l ++ [10%N]) (fst (complete_lines text))
  ++ snd (complete_lines text) = text.
Proof.
  induction text as [|c rest IH]; [reflexivity|]. cbn [complete_lines].
  destruct (complete_lines rest) as [ls tail]. cbn [fst snd] in IH.
  destruct (N.eqb c 10) eqn:E.
  - apply N.eqb_eq in E. subst c. cbn. now rewrite IH.
  - destruct ls as [|l ls']; cbn in *; now rewrite IH.
Qed.

Lemma complete_lines_no_newline (text : pystr) :
  Forall (fun l => ~ In 10%N l) (fst (complete_lines text))
  /\ ~ In 10%N (snd (complete_lines text)).
Proof.
  induction text as [|c rest [IHl IHr]]; cbn [complete_lines].
  - split; [constructor|intros []].
  - destruct (complete_lines rest) as [ls tail]. cbn [fst snd] in *.
    destruct (N.eqb c 10) eqn:E.
    + split; [constructor; [intros []|exact IHl]|exact IHr].
    + apply N.eqb_neq in E. destruct ls as [|l ls']; cbn [fst snd].
      * split; [constructor|]. intros [H|H]; [congruence|now apply IHr].
      * inversion IHl as [|? ? Hl Hls]; subst. split; [|exact IHr].
        constructor; [|exact Hls]. intros [H|H]; [congruence|now apply Hl].
Qed.

(** Text arriving after a buffered remainder: the lines already complete
    stay, the remainder is continued. *)
Lemma complete_lines_app (text more : pystr) :
  complete_lines (text ++ more)
  = (fst (complete_lines text)
       ++ fst (complete_lines (snd (complete_lines text) ++ more)),
     snd (complete_lines (snd (complete_lines text) ++ more))).
Proof.
  induction text as [|c rest IH]; cbn [app complete_lines fst snd].
  - now destruct (complete_lines more).
  - rewrite IH. destruct (complete_lines rest) as [ls tail]. cbn [fst snd].
    destruct (N.eqb c 10) eqn:E; [reflexivity|].
    destruct ls as [|l ls']; cbn [fst snd app complete_lines]; [|reflexivity].
    rewrite E. now destruct (complete_lines (tail ++ more)) as [[|l ls] t].
Qed.

(** Chunk boundaries do not show: when every chunk decodes, the relay emits
    one line per complete line of the whole text, in order, each as
    [relay_line] gives it, then the remainder. *)
Lemma stream_chunks_framing (json_bound : bool) (chunks : list bytes)
      (texts : list pystr) (buffer : pystr) :
  Forall2 (fun chunk text => utf8_decode chunk = Ok text) chunks texts ->
  fst (complete_lines buffer) = [] ->
  stream_chunks json_bound buffer chunks
  = map (relay_line json_bound)
        (fst (complete_lines (buffer ++ List.concat texts)))
    ++ flush (snd (complete_lines (buffer ++ List.concat texts))).
Proof.
  intro H. revert buffer.
  induction H as [|chunk text chunks texts Hd _ IH]; intros buffer Hb;
    cbn [stream_chunks List.concat].
  - rewrite app_nil_r, Hb. cbn [map app].
    pose proof (complete_lines_join buffer) as Hj. rewrite Hb in Hj.
    cbn in Hj. now rewrite Hj.
  - rewrite Hd. rewrite drain_lines_complete by lia.
    rewrite IH.
    + rewrite (app_assoc buffer text (List.concat texts)).
      rewrite (complete_lines_app (buffer ++ text) (List.concat texts)).
      cbn [fst snd]. now rewrite map_app, <- app_assoc.
    + pose proof (complete_lines_app
                    (snd (complete_lines (buffer ++ text))) []) as Ha.
      rewrite !app_nil_r in Ha.
      destruct (complete_lines_no_newline (buffer ++ text)) as [_ Hn].
      pose proof (complete_lines_split (snd (complete_lines (buffer ++ text))))
        as Hs.
      destruct (split_newline (snd (complete_lines (buffer ++ text))))
        as [[l r]|] eqn:E; [|now rewrite Hs].
      exfalso. apply Hn. clear - E.
      revert l r E.
      induction (snd (complete_lines (buffer ++ text))) as [|c s IHs];
        intros l r E; cbn [split_newline] in E; [discriminate|].
      destruct (N.eqb c 10) eqn:Ec.
      * apply N.eqb_eq in Ec. now left.
      * right. destruct (split_newline s) as [[l' r']|]; [|discriminate].
        now apply (IHs l' r').
Qed.

Theorem stream_generator_framing (json_bound : bool) (chunks : list bytes)
        (texts : list pystr) :
  Forall2 (fun chunk text => utf8_decode chunk = Ok text) chunks texts ->
  stream_generator json_bound chunks
  = map (relay_line json_bound) (fst (complete_lines (List.concat texts)))
    ++ flush (snd (complete_lines (List.concat texts))).
Proof.
  intro H. unfold stream_generator.
  now rewrite (stream_chunks_framing json_bound chunks texts [] H eq_refl).
Qed.
End FramingFacts.

(** ** UTF-8: decoding then encoding gives the bytes back *)

Section Utf8Facts.

Local Ltac split_bounds :=
  repeat match goal with
         | H : _ && _ = true |- _ => apply andb_true_iff in H; destruct H
         | H : _ || _ = true |- _ => apply orb_true_iff in H
         | H : (_ <=? _)%N = true |- _ => apply N.leb_le in H
         | H : (_ <? _)%N = true |- _ => apply N.ltb_lt in H
         | H : (_ <? _)%N = false |- _ => apply N.ltb_ge in H
         | H : negb _ = true |- _ => apply negb_true_iff in H
         | H : (_ =? _)%N = false |- _ => apply N.eqb_neq in H
         end.

Lemma div_mod_64 (a r : N) :
  (r < 64 -> (a * 64 + r) / 64 = a /\ (a * 64 + r) mod 64 = r)%N.
Proof.
  intro H. split.
  - symmetry. apply (N.div_unique _ 64 a r); lia.
  - symmetry. apply (N.mod_unique _ 64 a r); lia.
Qed.

Lemma encode_two (b0 b1 : N) :
  (194 <= b0 -> b0 <= 223 -> 128 <= b1 -> b1 <= 191 ->
   utf8_encode_char ((b0 - 192) * 64 + (b1 - 128)) = [b0; b1])%N.
Proof.
  intros. unfold utf8_encode_char.
  destruct (div_mod_64 (b0 - 192) (b1 - 128) ltac:(lia)) as [Hd Hm].
  destruct (N.ltb_spec ((b0 - 192) * 64 + (b1 - 128)) 128); [lia|].
  destruct (N.ltb_spec ((b0 - 192) * 64 + (b1 - 128)) 2048); [|lia].
  rewrite Hd, Hm. f_equal; [lia|f_equal; lia].
Qed.

Lemma encode_three (b0 b1 b2 : N) :
  (224 <= b0 -> b0 <= 239 -> 128 <= b1 -> b1 <= 191 -> 128 <= b2 ->
   b2 <= 191 -> (b0 = 224 -> 160 <= b1) ->
   utf8_encode_char ((b0 - 224) * 4096 + (b1 - 128) * 64 + (b2 - 128))
   = [b0; b1; b2])%N.
Proof.
  intros. unfold utf8_encode_char.
  set (c := ((b0 - 224) * 4096 + (b1 - 128) * 64 + (b2 - 128))%N).
  assert (Hc : c = (((b0 - 224) * 64 + (b1 - 128)) * 64 + (b2 - 128))%N)
    by (unfold c; lia).
  destruct (div_mod_64 ((b0 - 224) * 64 + (b1 - 128)) (b2 - 128) ltac:(lia))
    as [Hd Hm].
  destruct (div_mod_64 (b0 - 224) (b1 - 128) ltac:(lia)) as [Hd' Hm'].
  assert (H64 : (c / 64 = (b0 - 224) * 64 + (b1 - 128))%N)
    by (rewrite Hc; exact Hd).
  assert (H4096 : (c / 4096 = b0 - 224)%N).
  { change 4096%N with (64 * 64)%N. rewrite <- N.Div0.div_div.
    now rewrite H64. }
  destruct (N.ltb_spec c 128); [unfold c in *; lia|].
  destruct (N.ltb_spec c 2048); [unfold c in *; lia|].
  destruct (N.ltb_spec c 65536); [|unfold c in *; lia].
  rewrite H4096, H64, Hm', Hc, Hm.
  f_equal; [lia|f_equal; [lia|f_equal; lia]].
Qed.

Lemma encode_four (b0 b1 b2 b3 : N) :
  (240 <= b0 -> b0 <= 244 -> 128 <= b1 -> b1 <= 191 -> 128 <= b2 ->
   b2 <= 191 -> 128 <= b3 -> b3 <= 191 -> (b0 = 240 -> 144 <= b1) ->
   utf8_encode_char ((b0 - 240) * 262144 + (b1 - 128) * 4096
                     + (b2 - 128) * 64 + (b3 - 128))
   = [b0; b1; b2; b3])%N.
Proof.
  intros. unfold utf8_encode_char.
  set (c := ((b0 - 240) * 262144 + (b1 - 128) * 4096
             + (b2 - 128) * 64 + (b3 - 128))%N).
  set (c2 := (((b0 - 240) * 64 + (b1 - 128)) * 64 + (b2 - 128))%N).
  assert (Hc : c = (c2 * 64 + (b3 - 128))%N) by (unfold c, c2; lia).
  destruct (div_mod_64 c2 (b3 - 128) ltac:(lia)) as [Hd Hm].
  destruct (div_mod_64 ((b0 - 240) * 64 + (b1 - 128)) (b2 - 128) ltac:(lia))
    as [Hd2 Hm2].
  destruct (div_mod_64 (b0 - 240) (b1 - 128) ltac:(lia)) as [Hd3 Hm3].
  assert (H64 : (c / 64 = c2)%N) by (rewrite Hc; exact Hd).
  assert (H4096 : (c / 4096 = (b0 - 240) * 64 + (b1 - 128))%N).
  { change 4096%N with (64 * 64)%N. rewrite <- N.Div0.div_div.
    rewrite H64. exact Hd2. }
  assert (H262144 : (c / 262144 = b0 - 240)%N).
  { change 262144%N with (4096 * 64)%N. rewrite <- N.Div0.div_div.
    rewrite H4096. exact Hd3. }
  destruct (N.ltb_spec c 128); [unfold c in *; lia|].
  destruct (N.ltb_spec c 2048); [unfold c in *; lia|].
  destruct (N.ltb_spec c 65536); [unfold c in *; lia|].
  rewrite H262144, H4096, Hm3, H64. unfold c2 at 1. rewrite Hm2, Hc, Hm.
  f_equal; [lia|f_equal; [lia|f_equal; [lia|f_equal; lia]]].
Qed.

Lemma utf8_encode_decode_bounded (n : nat) (b : bytes) (s : pystr) :
  (List.length b <= n)%nat -> utf8_decode b = Ok s -> utf8_encode s = b.
Proof.
  revert b s. induction n as [|n IH]; intros b s Hlen.
  { destruct b; [|cbn in Hlen; lia]. intro H. now injection H as <-. }
  destruct b as [|b0 r0]; [intro H; now injection H as <-|].
  cbn [utf8_decode]. cbn [List.length] in Hlen.
  destruct (b0 <? 128)%N eqn:E1.
  { destruct (utf8_decode r0) as [s'|] eqn:Ed; [|discriminate].
    cbn [bind]. intro H. injection H as <-.
    cbn [utf8_encode flat_map]. fold (utf8_encode s').
    rewrite (IH r0 s' ltac:(lia) Ed).
    unfold utf8_encode_char. now rewrite E1. }
  destruct ((194 <=? b0) && (b0 <=? 223))%N eqn:E2.
  { destruct r0 as [|b1 r1]; [discriminate|].
    destruct (is_cont b1) eqn:C1; [|discriminate].
    destruct (utf8_decode r1) as [s'|] eqn:Ed; [|discriminate].
    cbn [bind]. intro H. injection H as <-.
    cbn [utf8_encode flat_map]. fold (utf8_encode s').
    cbn [List.length] in Hlen. rewrite (IH r1 s' ltac:(lia) Ed).
    unfold is_cont in C1. split_bounds.
    now rewrite encode_two. }
  destruct ((224 <=? b0) && (b0 <=? 239))%N eqn:E3.
  { destruct r0 as [|b1 [|b2 r2]]; try discriminate.
    destruct (is_cont b1 && is_cont b2
              && (negb (b0 =? 224) || (160 <=? b1))
              && (negb (b0 =? 237) || (b1 <=? 159)))%N eqn:C; [|discriminate].
    destruct (utf8_decode r2) as [s'|] eqn:Ed; [|discriminate].
    cbn [bind]. intro H. injection H as <-.
    cbn [utf8_encode flat_map]. fold (utf8_encode s').
    cbn [List.length] in Hlen. rewrite (IH r2 s' ltac:(lia) Ed).
    unfold is_cont in C. split_bounds.
    rewrite encode_three; try assumption; [reflexivity|].
    intros ->.
    match goal with
    | H : _ \/ _ |- _ => destruct H; split_bounds; [congruence|assumption]
    end. }
  destruct ((240 <=? b0) && (b0 <=? 244))%N eqn:E4; [|discriminate].
  destruct r0 as [|b1 [|b2 [|b3 r3]]]; try discriminate.
  destruct (is_cont b1 && is_cont b2 && is_cont b3
            && (negb (b0 =? 240) || (144 <=? b1))
            && (negb (b0 =? 244) || (b1 <=? 143)))%N eqn:C; [|discriminate].
  destruct (utf8_decode r3) as [s'|] eqn:Ed; [|discriminate].
  cbn [bind]. intro H. injection H as <-.
  cbn [utf8_encode flat_map]. fold (utf8_encode s').
  cbn [List.length] in Hlen. rewrite (IH r3 s' ltac:(lia) Ed).
  unfold is_cont in C. split_bounds.
  rewrite encode_four; try assumption; [reflexivity|].
  intros ->.
  match goal with
  | H : _ \/ _ |- _ => destruct H; split_bounds; [congruence|assumption]
  end.
Qed.

Lemma utf8_encode_decode (b : bytes) (s : pystr) :
  utf8_decode b = Ok s -> utf8_encode s = b.
Proof. apply (utf8_encode_decode_bounded (List.length b)). lia. Qed.

Lemma utf8_encode_app (a b : pystr) :
  utf8_encode (a ++ b) = utf8_encode a ++ utf8_encode b.
Proof. apply flat_map_app. Qed.
End Utf8Facts.

(** ** What the stream relay passes through *)

Section PassThrough.
Context {lib : PyLib}.

Lemma relay_line_plain (json_bound : bool) (l : pystr) :
  plain_line l -> relay_line json_bound l = utf8_encode l ++ [10%N].
Proof.
  intros [Hs Hk]. unfold relay_line. rewrite Hs.
  assert ((startswith (u "data: ") l
           && negb (pystr_eqb l (u "data: [DONE]"))) = false) as ->.
  { destruct Hk as [-> | ->]; [reflexivity|].
    rewrite pystr_eqb_refl. apply andb_false_r. }
  now rewrite utf8_encode_app.
Qed.

Lemma concat_flush (buffer : pystr) :
  List.concat (flush buffer) = utf8_encode buffer.
Proof. destruct buffer; [reflexivity|]. cbn [flush List.concat]. apply app_nil_r. Qed.

(** A decodable stream of plain lines reaches the client byte for byte,
    however it was cut into chunks. *)
Theorem plain_stream_passes_through (json_bound : bool) (chunks : list bytes)
        (texts : list pystr) :
  Forall2 (fun chunk text => utf8_decode chunk = Ok text) chunks texts ->
  Forall plain_line (fst (complete_lines (List.concat texts))) ->
  List.concat (stream_generator json_bound chunks) = List.concat chunks.
Proof.
  intros Hd Hp. rewrite (stream_generator_framing json_bound chunks texts Hd).
  rewrite concat_app, concat_flush.
  assert (Hlines : forall lines,
             Forall plain_line lines ->
             List.concat (map (relay_line json_bound) lines)
             = utf8_encode (flat_map (fun l => l ++ [10%N]) lines)).
  { induction 1 as [|l lines Hl _ IH]; [reflexivity|].
    cbn [map List.concat flat_map]. rewrite IH, (relay_line_plain _ _ Hl).
    now rewrite !utf8_encode_app. }
  rewrite (Hlines _ Hp), <- utf8_encode_app, complete_lines_join.
  clear Hp Hlines. induction Hd as [|chunk text chunks texts Hc _ IH];
    [reflexivity|].
  cbn [List.concat]. rewrite utf8_encode_app, IH.
  now rewrite (utf8_encode_decode _ _ Hc).
Qed.
End PassThrough.

(** * Further properties *)

(** ** The retry engine *)

Section EngineFacts.
Context {lib : PyLib}.
Variable cfg : config.
Variable w : world.
Variable max_retries : Z.
Variable base_delay : Q.

(** One iteration, read through [verdict]. *)
Lemma retry_loop_verdict (remaining attempt : nat) :
  retry_loop cfg w max_retries base_delay (S remaining) attempt =
  match verdict cfg w max_retries base_delay attempt (func w attempt) with
  | Retry d =>
      (Call attempt :: Sleep d
         :: fst (retry_loop cfg w max_retries base_delay remaining (S attempt)),
       snd (retry_loop cfg w max_retries base_delay remaining (S attempt)))
  | Stop => ([Call attempt], outcome_of (func w attempt))
  | Fail e => ([Call attempt], Raised e)
  end.
Proof.
  rewrite retry_loop_step. unfold verdict, backoff_decision, outcome_of.
  cbv zeta.
  destruct (func w attempt) as [r|e].
  - destruct (status_code r =? 429)%Z.
    + destruct (on_429 cfg w max_retries base_delay attempt r); reflexivity.
    + destruct (status_code r >=? 500)%Z;
        [destruct (may_retry max_retries attempt);
         [destruct (backoff_delay w base_delay attempt)|]|]; reflexivity.
  - destruct e; try reflexivity.
    destruct (may_retry max_retries attempt);
      [destruct (backoff_delay w base_delay attempt)|]; reflexivity.
Qed.

Lemma backoff_decision_cases (attempt : nat) :
  ((attempt < 1024)%nat
   /\ backoff_decision w base_delay attempt
      = Retry (jittered w base_delay attempt))
  \/ ((1024 <= attempt)%nat
      /\ backoff_decision w base_delay attempt = Fail OverflowError).
Proof.
  unfold backoff_decision.
  destruct (Nat.lt_ge_cases attempt 1024) as [H | H].
  - left. split; [exact H|]. now rewrite (backoff_delay_small w _ _ H).
  - right. split; [exact H|]. now rewrite (backoff_delay_large w _ _ H).
Qed.

(** The engine sleeps only when a retry is left. *)
Lemma verdict_may_retry (attempt : nat) (o : result response) (d : Q) :
  verdict cfg w max_retries base_delay attempt o = Retry d ->
  may_retry max_retries attempt = true.
Proof.
  unfold verdict, on_429.
  destruct (may_retry max_retries attempt); [reflexivity|].
  destruct o as [r|e].
  - destruct (status_code r =? 429)%Z.
    + destruct (aread r) as [body|]; cbn [bind or_original]; [|discriminate].
      destruct (utf8_decode body) as [text|]; cbn [bind or_original];
        [|discriminate].
      destruct (str_contains (u "Too many failed attempts") text);
        cbn [or_original]; [discriminate|].
      destruct (dict_lookup (u "x-ratelimit-reset-requests") (resp_headers r))
        as [[|c h]|]; cbn [or_original]; try discriminate.
      destruct (py_int (c :: h)); cbn [or_original]; discriminate.
    + destruct (status_code r >=? 500)%Z; discriminate.
  - destruct e; discriminate.
Qed.

(** The only failure of its own the engine has is the delay that cannot be
    computed, after a failed attempt numbered 1024 or more. *)
Lemma verdict_fail (attempt : nat) (o : result response) (e : exn) :
  verdict cfg w max_retries base_delay attempt o = Fail e ->
  e = OverflowError /\ (1024 <= attempt)%nat /\ transient o = true.
Proof.
  assert (Hb : backoff_decision w base_delay attempt = Fail e ->
               e = OverflowError /\ (1024 <= attempt)%nat).
  { destruct (backoff_decision_cases attempt) as [[_ ->] | [H ->]];
      [discriminate|].
    intro E. injection E as <-. now split. }
  unfold verdict, transient. destruct o as [r|x].
  - destruct (status_code r =? 429)%Z.
    + destruct (on_429 cfg w max_retries base_delay attempt r); discriminate.
    + destruct (status_code r >=? 500)%Z eqn:E5; [|discriminate].
      destruct (may_retry max_retries attempt); [|discriminate].
      intro H. destruct (Hb H) as [-> Ha]. repeat split; [exact Ha|].
      rewrite Z.geb_leb in E5. exact E5.
  - destruct x; try discriminate.
    destruct (may_retry max_retries attempt); [|discriminate].
    intro H. destruct (Hb H) as [-> Ha]. now repeat split.
Qed.

(** The first [k] attempts are told to sleep, the next one decides: the
    loop makes these [k + 1] calls and ends there. *)
Lemma retry_loop_prefix (d : nat -> Q) (k remaining attempt : nat) :
  (k < remaining)%nat ->
  (forall i, (attempt <= i < attempt + k)%nat ->
             verdict cfg w max_retries base_delay i (func w i) = Retry (d i)) ->
  retry_loop cfg w max_retries base_delay remaining attempt
  = (alternate attempt (map d (seq attempt k)),
     match verdict cfg w max_retries base_delay (attempt + k)
                   (func w (attempt + k)) with
     | Fail e => Raised e
     | Stop => outcome_of (func w (attempt + k)%nat)
     | Retry _ =>
         snd (retry_loop cfg w max_retries base_delay (remaining - k)
                         (attempt + k))
     end)
  \/ exists x, verdict cfg w max_retries base_delay (attempt + k)
                       (func w (attempt + k)) = Retry x.
Proof.
  revert remaining attempt.
  induction k as [|k IH]; intros remaining attempt Hlt Hsleep;
    (destruct remaining as [|remaining]; [lia|]).
  - rewrite Nat.add_0_r.
    destruct (verdict cfg w max_retries base_delay attempt (func w attempt))
      as [x| |e] eqn:Hv; [right; now exists x| |];
      left; rewrite retry_loop_verdict, Hv; reflexivity.
  - destruct (IH remaining (S attempt) ltac:(lia)
                 ltac:(intros i Hi; apply Hsleep; lia)) as [Hrun | [x Hx]].
    + left. rewrite retry_loop_verdict, (Hsleep attempt ltac:(lia)), Hrun.
      cbn [fst snd seq map alternate].
      replace (S attempt + k)%nat with (attempt + S k)%nat by lia.
      replace (remaining - k)%nat with (S remaining - S k)%nat by lia.
      reflexivity.
    + right. exists x.
      now replace (attempt + S k)%nat with (S attempt + k)%nat by lia.
Qed.

Lemma retry_loop_run (d : nat -> Q) (k remaining attempt : nat) :
  (k < remaining)%nat ->
  (forall i, (attempt <= i < attempt + k)%nat ->
             verdict cfg w max_retries base_delay i (func w i) = Retry (d i)) ->
  verdict cfg w max_retries base_delay (attempt + k) (func w (attempt + k))
  = Stop ->
  retry_loop cfg w max_retries base_delay remaining attempt
  = (alternate attempt (map d (seq attempt k)),
     outcome_of (func w (attempt + k)%nat)).
Proof.
  intros Hlt Hsleep Hstop.
  destruct (retry_loop_prefix d k remaining attempt Hlt Hsleep)
    as [H | [x Hx]]; [|congruence].
  now rewrite Hstop in H.
Qed.

Lemma retry_loop_fails (d : nat -> Q) (k remaining attempt : nat) (e : exn) :
  (k < remaining)%nat ->
  (forall i, (attempt <= i < attempt + k)%nat ->
             verdict cfg w max_retries base_delay i (func w i) = Retry (d i)) ->
  verdict cfg w max_retries base_delay (attempt + k) (func w (attempt + k))
  = Fail e ->
  retry_loop cfg w max_retries base_delay remaining attempt
  = (alternate attempt (map d (seq attempt k)), Raised e).
Proof.
  intros Hlt Hsleep Hfail.
  destruct (retry_loop_prefix d k remaining attempt Hlt Hsleep)
    as [H | [x Hx]]; [|congruence].
  now rewrite Hfail in H.
Qed.

(** With the iterations the budget leaves, the loop always stops on a
    call. *)
Lemma retry_loop_shape (remaining attempt : nat) :
  (Z.of_nat attempt + Z.of_nat remaining = max_retries + 1)%Z ->
  (0 < remaining)%nat ->
  exists ds res,
    retry_loop cfg w max_retries base_delay remaining attempt
    = (alternate attempt ds, res)
    /\ (List.length ds < remaining)%nat
    /\ (res = outcome_of (func w (attempt + List.length ds)%nat)
        \/ (res = Raised OverflowError
            /\ (1024 <= attempt + List.length ds)%nat
            /\ transient (func w (attempt + List.length ds)%nat) = true)).
Proof.
  revert attempt.
  induction remaining as [|remaining IH]; intros attempt Hsum Hpos; [lia|].
  rewrite retry_loop_verdict.
  destruct (verdict cfg w max_retries base_delay attempt (func w attempt))
    as [d| |e] eqn:Hv.
  - apply verdict_may_retry in Hv. unfold may_retry in Hv.
    apply Z.ltb_lt in Hv.
    destruct (IH (S attempt) ltac:(lia) ltac:(lia))
      as (ds & res & Hloop & Hlen & Hres).
    exists (d :: ds), res. rewrite Hloop.
    cbn [fst snd alternate List.length].
    replace (attempt + S (List.length ds))%nat
      with (S attempt + List.length ds)%nat by lia.
    split; [reflexivity|]. split; [lia|exact Hres].
  - exists [], (outcome_of (func w attempt)).
    cbn [alternate List.length]. rewrite Nat.add_0_r.
    split; [reflexivity|]. split; [lia|now left].
  - apply verdict_fail in Hv as (-> & Ha & Ht).
    exists [], (Raised OverflowError).
    cbn [alternate List.length]. rewrite Nat.add_0_r.
    split; [reflexivity|]. split; [lia|now right].
Qed.

(** Whatever the budget, a response the loop returns is one [func]
    returned, and an exception it raises is one [func] raised, the one past
    the loop or the one of the delay. *)
Lemma retry_loop_genuine (remaining attempt : nat) :
  match snd (retry_loop cfg w max_retries base_delay remaining attempt) with
  | Returned r => exists k, func w k = Ok r
  | Raised e =>
      e = end_of_loop \/ e = OverflowError \/ exists k, func w k = Raise e
  end.
Proof.
  revert attempt.
  induction remaining as [|remaining IH]; intro attempt.
  - cbn. now left.
  - rewrite retry_loop_verdict.
    destruct (verdict cfg w max_retries base_delay attempt (func w attempt))
      as [d| |e] eqn:Hv.
    + cbn [snd]. apply IH.
    + cbn [snd]. unfold outcome_of.
      destruct (func w attempt) as [r|e] eqn:Hf.
      * now exists attempt.
      * right. right. now exists attempt.
    + cbn [snd]. apply verdict_fail in Hv as (-> & _). right. now left.
Qed.

Lemma verdict_final (attempt : nat) (r : response) :
  final r = true ->
  verdict cfg w max_retries base_delay attempt (Ok r) = Stop.
Proof.
  unfold final, verdict. intro H. apply andb_true_iff in H as [H1 H2].
  apply negb_true_iff in H1. rewrite H1.
  apply Z.ltb_lt in H2.
  now replace (status_code r >=? 500)%Z with false
    by (symmetry; rewrite Z.geb_leb; apply Z.leb_gt; lia).
Qed.

Lemma verdict_transient (attempt : nat) (o : result response) :
  transient o = true ->
  verdict cfg w max_retries base_delay attempt o
  = if may_retry max_retries attempt
    then backoff_decision w base_delay attempt else Stop.
Proof.
  unfold transient, verdict. destruct o as [r|e].
  - intro H. apply Z.leb_le in H.
    replace (status_code r =? 429)%Z with false
      by (symmetry; apply Z.eqb_neq; lia).
    replace (status_code r >=? 500)%Z with true
      by (symmetry; rewrite Z.geb_leb; apply Z.leb_le; lia).
    reflexivity.
  - destruct e; try discriminate. reflexivity.
Qed.

Lemma verdict_plain_429 (attempt : nat) (r : response) :
  is_plain_429 r = true ->
  verdict cfg w max_retries base_delay attempt (Ok r)
  = if may_retry max_retries attempt
    then match backoff_delay w base_delay attempt with
         | Ok delay => Retry delay
         | Raise _ => Stop
         end
    else Stop.
Proof.
  unfold is_plain_429, verdict, on_429. intro H.
  apply andb_true_iff in H as [H Hh]. apply andb_true_iff in H as [Hs Hb].
  rewrite Hs.
  destruct (aread r) as [body|]; [|discriminate]. cbn [bind].
  destruct (utf8_decode body) as [text|]; [|discriminate]. cbn [bind].
  apply negb_true_iff in Hb. rewrite Hb.
  destruct (dict_lookup (u "x-ratelimit-reset-requests") (resp_headers r))
    as [[|c h]|]; try discriminate;
    (destruct (may_retry max_retries attempt); [|reflexivity]);
    now destruct (backoff_delay w base_delay attempt).
Qed.

Lemma verdict_unexpected (attempt : nat) (e : exn) :
  transient (Raise e) = false ->
  verdict cfg w max_retries base_delay attempt (Raise e) = Stop.
Proof. destruct e; cbn; congruence. Qed.

(** Every attempt up to the last is met by the jittered backoff: the loop
    uses the whole budget, as long as the budget ends before attempt
    1024. *)
Lemma retry_loop_exhausts (n : nat) :
  Z.of_nat n = max_retries ->
  (forall k, (k <= n)%nat ->
             verdict cfg w max_retries base_delay k (func w k)
             = if may_retry max_retries k
               then Retry (jittered w base_delay k) else Stop) ->
  retry_loop cfg w max_retries base_delay (S n) 0
  = (alternate 0 (map (jittered w base_delay) (seq 0 n)),
     outcome_of (func w n)).
Proof.
  intros Hn Hall.
  apply (retry_loop_run (jittered w base_delay) n (S n) 0); [lia| |].
  - intros i Hi. rewrite (Hall i ltac:(lia)). unfold may_retry.
    now replace (Z.of_nat i <? max_retries)%Z with true
      by (symmetry; apply Z.ltb_lt; lia).
  - cbn [Nat.add]. rewrite (Hall n ltac:(lia)). unfold may_retry.
    now replace (Z.of_nat n <? max_retries)%Z with false
      by (symmetry; apply Z.ltb_ge; lia).
Qed.

(** The jittered backoff, where it can be computed. *)
Lemma backoff_below_1024 (n k : nat) (answer : decision) :
  Z.of_nat n = max_retries ->
  (n <= 1024)%nat ->
  (answer = backoff_decision w base_delay k
   \/ answer = match backoff_delay w base_delay k with
               | Ok delay => Retry delay
               | Raise _ => Stop
               end) ->
  (if may_retry max_retries k then answer else Stop)
  = if may_retry max_retries k
    then Retry (jittered w base_delay k) else Stop.
Proof.
  intros Hn Hsmall Hanswer. unfold may_retry.
  destruct (Z.of_nat k <? max_retries)%Z eqn:E; [|reflexivity].
  apply Z.ltb_lt in E.
  assert (Hk : (k < 1024)%nat) by lia.
  destruct Hanswer as [-> | ->].
  - unfold backoff_decision. now rewrite (backoff_delay_small w _ _ Hk).
  - now rewrite (backoff_delay_small w _ _ Hk).
Qed.
End EngineFacts.

Lemma retry_with_backoff_loop {lib : PyLib} (cfg : config) (w : world)
      (max_retries : option Z) (base_delay : option Q) :
  retry_with_backoff cfg w max_retries base_delay
  = retry_loop cfg w (retries_of cfg max_retries) (delay_of cfg base_delay)
               (Z.to_nat (retries_of cfg max_retries + 1)) 0.
Proof. reflexivity. Qed.

Lemma calls_alternate (attempt : nat) (ds : list Q) :
  calls (alternate attempt ds) = S (List.length ds)
  /\ sleeps (alternate attempt ds) = ds
  /\ call_attempts (alternate attempt ds) = seq attempt (S (List.length ds)).
Proof.
  revert attempt. induction ds as [|d ds IH]; intro attempt.
  - now cbn.
  - destruct (IH (S attempt)) as (Hc & Hs & Ha).
    cbn [alternate calls sleeps call_attempts List.length].
    rewrite Hc, Hs, Ha. now cbn.
Qed.

Lemma budget_iterations (n : Z) :
  (0 <= n)%Z -> Z.to_nat (n + 1) = S (Z.to_nat n).
Proof. lia. Qed.

(** X1: with a budget of at least zero, a first response whose status is
    neither 429 nor 500 or more is returned after that single call, with no
    sleep (lines 154-155). *)
Theorem final_response_returned_at_once {lib : PyLib}
        (cfg : config) (w : world)
        (max_retries : option Z) (base_delay : option Q) (r : response) :
  (0 <= retries_of cfg max_retries)%Z ->
  func w 0 = Ok r ->
  status_code r <> 429%Z ->
  (status_code r < 500)%Z ->
  retry_with_backoff cfg w max_retries base_delay = ([Call 0], Returned r).
Proof.
  intros Hn Hf H429 H500.
  rewrite retry_with_backoff_loop, (budget_iterations _ Hn).
  rewrite (retry_loop_run cfg w _ _ (fun _ => 0%Q) 0 _ 0 (Nat.lt_0_succ _)).
  - cbn [Nat.add seq map alternate]. now rewrite Hf.
  - intros i Hi. lia.
  - cbn [Nat.add]. rewrite Hf. apply verdict_final. unfold final.
    apply andb_true_iff. split.
    + apply negb_true_iff, Z.eqb_neq, H429.
    + now apply Z.ltb_lt.
Qed.

Lemma final_response_returned_at_once_witness :
  retry_with_backoff (lib := cpython) default_config not_found_world None None
  = ([Call 0], Returned not_found_response).
Proof.
  apply (@final_response_returned_at_once cpython default_config
           not_found_world None None not_found_response).
  - cbn. lia.
  - reflexivity.
  - cbn. lia.
  - cbn. lia.
Defined.

(** X2: with a budget of at most 1024 retries, when every attempt is
    answered with a status of 500 or more, the engine calls
    [max_retries + 1] times, sleeps
    [base_delay * 2**attempt + uniform(0, 1)] after each attempt but the
    last, and returns the last response rather than raising
    (lines 139-152). *)
Theorem server_errors_use_whole_budget {lib : PyLib}
        (cfg : config) (w : world)
        (max_retries : option Z) (base_delay : option Q)
        (rs : nat -> response) (n : nat) :
  retries_of cfg max_retries = Z.of_nat n ->
  (n <= 1024)%nat ->
  (forall k, (k <= n)%nat ->
             func w k = Ok (rs k) /\ (500 <= status_code (rs k))%Z) ->
  retry_with_backoff cfg w max_retries base_delay
  = (alternate 0 (map (jittered w (delay_of cfg base_delay)) (seq 0 n)),
     Returned (rs n)).
Proof.
  intros Hn Hsmall Hall.
  rewrite retry_with_backoff_loop, budget_iterations by lia.
  rewrite Hn, Nat2Z.id.
  rewrite (retry_loop_exhausts cfg w (Z.of_nat n) _ n eq_refl).
  - now rewrite (proj1 (Hall n (Nat.le_refl n))).
  - intros k Hk. destruct (Hall k Hk) as [Hf Hs]. rewrite Hf.
    rewrite verdict_transient by (now apply Z.leb_le).
    apply (backoff_below_1024 w (Z.of_nat n) _ n k _ eq_refl Hsmall).
    now left.
Qed.

Lemma server_errors_use_whole_budget_witness :
  retry_with_backoff (lib := cpython) default_config always_unavailable
                     None None
  = ([Call 0; Sleep 1; Call 1; Sleep 2; Call 2; Sleep 4; Call 3; Sleep 8;
      Call 4; Sleep 16; Call 5],
     Returned bad_gateway_response).
Proof.
  refine (eq_trans
            (@server_errors_use_whole_budget cpython default_config
               always_unavailable None None (fun _ => bad_gateway_response)
               5 eq_refl _ _)
            _).
  - lia.
  - intros k _. split; [reflexivity|cbn; lia].
  - vm_compute. reflexivity.
Defined.

(** X3: with a budget of at most 1024 retries, a 429 that is not the
    lockout and has no reset header, or an empty one, is retried with the
    jittered exponential backoff; when every attempt meets one, the budget
    is used up and the last 429 is returned (lines 83-86, 124-137). *)
Theorem plain_429_backs_off {lib : PyLib}
        (cfg : config) (w : world)
        (max_retries : option Z) (base_delay : option Q)
        (rs : nat -> response) (n : nat) :
  retries_of cfg max_retries = Z.of_nat n ->
  (n <= 1024)%nat ->
  (forall k, (k <= n)%nat ->
             func w k = Ok (rs k) /\ is_plain_429 (rs k) = true) ->
  retry_with_backoff cfg w max_retries base_delay
  = (alternate 0 (map (jittered w (delay_of cfg base_delay)) (seq 0 n)),
     Returned (rs n)).
Proof.
  intros Hn Hsmall Hall.
  rewrite retry_with_backoff_loop, budget_iterations by lia.
  rewrite Hn, Nat2Z.id.
  rewrite (retry_loop_exhausts cfg w (Z.of_nat n) _ n eq_refl).
  - now rewrite (proj1 (Hall n (Nat.le_refl n))).
  - intros k Hk. destruct (Hall k Hk) as [Hf Hs]. rewrite Hf.
    rewrite (verdict_plain_429 cfg w _ _ k _ Hs).
    apply (backoff_below_1024 w (Z.of_nat n) _ n k _ eq_refl Hsmall).
    now right.
Qed.

Lemma plain_429_backs_off_witness :
  retry_with_backoff (lib := cpython) default_config always_limited
                     (Some 2%Z) (Some 2%Q)
  = ([Call 0; Sleep 2; Call 1; Sleep 4; Call 2],
     Returned plain_429_response).
Proof.
  refine (eq_trans
            (@plain_429_backs_off cpython default_config always_limited
               (Some 2%Z) (Some 2%Q) (fun _ => plain_429_response)
               2 eq_refl _ _)
            _).
  - lia.
  - intros k _. split; reflexivity.
  - vm_compute. reflexivity.
Defined.

(** X4: with a negative retry budget the engine never calls upstream and
    raises the exception placed after the loop; the handler answers 500
    with that text (lines 57, 172-173, 826-831). *)
Theorem negative_budget_calls_nothing {lib : PyLib}
        (cfg : config) (w : world)
        (max_retries : option Z) (base_delay : option Q) :
  (retries_of cfg max_retries < 0)%Z ->
  retry_with_backoff cfg w max_retries base_delay = ([], Raised end_of_loop)
  /\ forall (up : upstream) (clock : nat -> Z) (draws : nat -> Q)
            (path : pystr) (request_headers : headers) (body : bytes),
       max_retries = None ->
       proxy_request cfg up clock draws path request_headers body
       = ([],
          {| client_status := 500; client_headers := [];
             body_sent :=
               Buffered (utf8_encode
                           (u "Internal proxy error: "
                              ++ u "Unexpected end of retry_with_backoff")) |}).
Proof.
  intro Hn.
  assert (Hloop : forall w' d,
             retry_loop cfg w' (retries_of cfg max_retries) d
                        (Z.to_nat (retries_of cfg max_retries + 1)) 0
             = ([], Raised end_of_loop)).
  { intros w' d.
    now replace (Z.to_nat (retries_of cfg max_retries + 1)) with O by lia. }
  split.
  - rewrite retry_with_backoff_loop. apply Hloop.
  - intros up clock draws path request_headers body Hdefault.
    subst max_retries. unfold proxy_request.
    destruct (prepare_request path request_headers body) as [[hdrs body'] b].
    rewrite retry_with_backoff_loop, Hloop. reflexivity.
Qed.

Lemma negative_budget_calls_nothing_witness :
  retry_with_backoff (lib := cpython) default_config not_found_world
                     (Some (-1)%Z) None
  = ([], Raised end_of_loop).
Proof.
  apply (@negative_budget_calls_nothing cpython default_config
           not_found_world (Some (-1)%Z) None).
  cbn. lia.
Defined.

(** X5: with a budget of at least zero, every run of the engine is call,
    sleep, call, ..., call: it starts and ends with a call to [func], the
    attempts are numbered from 0 without gaps and there are at most
    [max_retries] sleeps.  The result is what the last call returned or
    raised, with one exception: when the last call is attempt 1024 or later
    and failed with a status of 500 or more or a transport error, the run
    can end with the [OverflowError] of the delay that cannot be computed
    (lines 142, 159). *)
Theorem run_alternates_and_ends_on_last_call {lib : PyLib}
        (cfg : config) (w : world)
        (max_retries : option Z) (base_delay : option Q) :
  (0 <= retries_of cfg max_retries)%Z ->
  exists (ds : list Q) (res : outcome),
    retry_with_backoff cfg w max_retries base_delay = (alternate 0 ds, res)
    /\ (Z.of_nat (List.length ds) <= retries_of cfg max_retries)%Z
    /\ calls (alternate 0 ds) = S (List.length ds)
    /\ sleeps (alternate 0 ds) = ds
    /\ call_attempts (alternate 0 ds) = seq 0 (S (List.length ds))
    /\ (res = outcome_of (func w (List.length ds))
        \/ (res = Raised OverflowError
            /\ (1024 <= List.length ds)%nat
            /\ transient (func w (List.length ds)) = true)).
Proof.
  intro Hn.
  destruct (retry_loop_shape cfg w (retries_of cfg max_retries)
              (delay_of cfg base_delay)
              (S (Z.to_nat (retries_of cfg max_retries))) 0
              ltac:(lia) ltac:(lia)) as (ds & res & Hloop & Hlen & Hres).
  exists ds, res. cbn [Nat.add] in Hres.
  rewrite retry_with_backoff_loop, (budget_iterations _ Hn).
  split; [exact Hloop|]. split; [lia|].
  destruct (calls_alternate 0 ds) as (Hc & Hs & Ha).
  split; [exact Hc|]. split; [exact Hs|]. split; [exact Ha|exact Hres].
Qed.

Lemma run_alternates_and_ends_on_last_call_witness :
  exists (ds : list Q) (res : outcome),
    retry_with_backoff (lib := cpython) default_config recovering None None
    = (alternate 0 ds, res)
    /\ (Z.of_nat (List.length ds) <= 5)%Z
    /\ calls (alternate 0 ds) = S (List.length ds)
    /\ sleeps (alternate 0 ds) = ds
    /\ call_attempts (alternate 0 ds) = seq 0 (S (List.length ds))
    /\ (res = outcome_of (func recovering (List.length ds))
        \/ (res = Raised OverflowError
            /\ (1024 <= List.length ds)%nat
            /\ transient (func recovering (List.length ds)) = true)).
Proof.
  apply (@run_alternates_and_ends_on_last_call cpython default_config
           recovering None None).
  cbn. lia.
Defined.

(** X6: when the first [k] attempts fail with a status of 500 or more or
    with a transport error and attempt [k] is answered with a status below
    500 other than 429, the engine sleeps the jittered backoff after each
    failure, makes [k + 1] calls and returns that answer, provided [k] is
    within the budget and at most 1024. *)
Theorem recovers_after_transient_failures {lib : PyLib}
        (cfg : config) (w : world)
        (max_retries : option Z) (base_delay : option Q)
        (k : nat) (r : response) :
  (Z.of_nat k <= retries_of cfg max_retries)%Z ->
  (k <= 1024)%nat ->
  (forall i, (i < k)%nat -> transient (func w i) = true) ->
  func w k = Ok r ->
  final r = true ->
  retry_with_backoff cfg w max_retries base_delay
  = (alternate 0 (map (jittered w (delay_of cfg base_delay)) (seq 0 k)),
     Returned r).
Proof.
  intros Hk Hsmall Hfail Hf Hfinal.
  rewrite retry_with_backoff_loop, budget_iterations by lia.
  rewrite (retry_loop_run cfg w _ _
             (jittered w (delay_of cfg base_delay)) k
             (S (Z.to_nat (retries_of cfg max_retries))) 0 ltac:(lia)).
  - cbn [Nat.add]. now rewrite Hf.
  - intros i Hi. rewrite verdict_transient by (apply Hfail; lia).
    unfold may_retry.
    replace (Z.of_nat i <? retries_of cfg max_retries)%Z with true
      by (symmetry; apply Z.ltb_lt; lia).
    unfold backoff_decision.
    now rewrite (backoff_delay_small w _ i ltac:(lia)).
  - cbn [Nat.add]. rewrite Hf. now apply verdict_final.
Qed.

Lemma recovers_after_transient_failures_witness :
  retry_with_backoff (lib := cpython) default_config recovering None None
  = ([Call 0; Sleep 1; Call 1; Sleep 2; Call 2], Returned ok_response).
Proof.
  refine (eq_trans
            (@recovers_after_transient_failures cpython default_config
               recovering None None 2 ok_response _ _ _ eq_refl eq_refl)
            _).
  - cbn. lia.
  - lia.
  - intros i Hi. destruct i as [|[|i]]; [reflexivity|reflexivity|lia].
  - vm_compute. reflexivity.
Defined.

(** X7: an exception of the first call that is not a transport error is
    raised again at once, without sleep or retry, and the handler answers
    500 with its text (lines 168-170, 826-831). *)
Theorem unexpected_exception_not_retried {lib : PyLib}
        (cfg : config) (e : exn) :
  (0 <= MAX_RETRIES cfg)%Z ->
  transient (Raise e) = false ->
  (forall (w : world) (base_delay : option Q),
      func w 0 = Raise e ->
      retry_with_backoff cfg w None base_delay = ([Call 0], Raised e))
  /\ forall (up : upstream) (clock : nat -> Z) (draws : nat -> Q)
            (path : pystr) (request_headers : headers) (body : bytes),
       (forall h b, up h b 0%nat = Raise e) ->
       proxy_request cfg up clock draws path request_headers body
       = ([Call 0],
          {| client_status := 500; client_headers := [];
             body_sent :=
               Buffered (utf8_encode
                           (u "Internal proxy error: " ++ exn_text e)) |}).
Proof.
  intros Hn He.
  assert (Hrun : forall (w : world) (base_delay : option Q),
             func w 0 = Raise e ->
             retry_with_backoff cfg w None base_delay = ([Call 0], Raised e)).
  { intros w base_delay Hf.
    rewrite retry_with_backoff_loop. cbn [retries_of].
    rewrite (budget_iterations _ Hn).
    rewrite (retry_loop_run cfg w _ _ (fun _ => 0%Q) 0 _ 0 (Nat.lt_0_succ _)).
    - cbn [Nat.add seq map alternate]. now rewrite Hf.
    - intros i Hi. lia.
    - cbn [Nat.add]. rewrite Hf. now apply verdict_unexpected. }
  split; [exact Hrun|].
  intros up clock draws path request_headers body Hup.
  unfold proxy_request.
  destruct (prepare_request path request_headers body) as [[hdrs body'] b].
  rewrite Hrun by apply Hup.
  destruct e; try reflexivity. discriminate.
Qed.

Lemma unexpected_exception_not_retried_witness :
  retry_with_backoff (lib := cpython) default_config broken_client None None
  = ([Call 0], Raised (OtherException (u "Event loop is closed"))).
Proof.
  apply (proj1 (@unexpected_exception_not_retried cpython default_config
                  (OtherException (u "Event loop is closed"))
                  ltac:(cbn; lia) eq_refl)).
  reflexivity.
Defined.

(** X22: with a budget of more than 1024 retries, when attempts 0 to 1024
    all fail with a status of 500 or more or with a transport error, the
    engine sleeps the jittered backoff after each of the first 1024
    attempts and ends at attempt 1024 with the [OverflowError] of the delay
    it cannot compute, after 1025 calls; the handler answers 500 with the
    text of that exception (lines 142, 159, 168-170, 826-831). *)
Theorem delay_overflow_ends_the_run {lib : PyLib} (cfg : config) :
  (1024 < MAX_RETRIES cfg)%Z ->
  (forall (w : world) (base_delay : option Q),
      (forall i, (i <= 1024)%nat -> transient (func w i) = true) ->
      retry_with_backoff cfg w None base_delay
      = (alternate 0 (map (jittered w (delay_of cfg base_delay))
                          (seq 0 1024)),
         Raised OverflowError))
  /\ forall (up : upstream) (clock : nat -> Z) (draws : nat -> Q)
            (path : pystr) (request_headers : headers) (body : bytes),
       (forall h b i, (i <= 1024)%nat -> transient (up h b i) = true) ->
       calls (fst (proxy_request cfg up clock draws path request_headers body))
       = 1025%nat
       /\ snd (proxy_request cfg up clock draws path request_headers body)
          = {| client_status := 500; client_headers := [];
               body_sent :=
                 Buffered (utf8_encode
                             (u "Internal proxy error: "
                                ++ u "int too large to convert to float")) |}.
Proof.
  intro Hn.
  assert (Hrun : forall (w : world) (base_delay : option Q),
             (forall i, (i <= 1024)%nat -> transient (func w i) = true) ->
             retry_with_backoff cfg w None base_delay
             = (alternate 0 (map (jittered w (delay_of cfg base_delay))
                                 (seq 0 1024)),
                Raised OverflowError)).
  { intros w base_delay Hfail.
    rewrite retry_with_backoff_loop. cbn [retries_of].
    rewrite budget_iterations by lia.
    apply (retry_loop_fails cfg w _ _
             (jittered w (delay_of cfg base_delay)) 1024
             (S (Z.to_nat (MAX_RETRIES cfg))) 0 OverflowError); [lia| |].
    - intros i Hi. rewrite verdict_transient by (apply Hfail; lia).
      unfold may_retry.
      replace (Z.of_nat i <? MAX_RETRIES cfg)%Z with true
        by (symmetry; apply Z.ltb_lt; lia).
      unfold backoff_decision.
      now rewrite (backoff_delay_small w _ i ltac:(lia)).
    - rewrite verdict_transient by (apply Hfail; lia).
      unfold may_retry.
      replace (Z.of_nat (0 + 1024) <? MAX_RETRIES cfg)%Z with true
        by (symmetry; apply Z.ltb_lt; lia).
      unfold backoff_decision.
      now rewrite (backoff_delay_large w _ (0 + 1024) ltac:(lia)). }
  split; [exact Hrun|].
  intros up clock draws path request_headers body Hup.
  unfold proxy_request.
  destruct (prepare_request path request_headers body) as [[hdrs body'] b].
  rewrite Hrun by (intros i Hi; apply Hup; exact Hi).
  cbn [fst snd]. split; [|reflexivity].
  destruct (calls_alternate 0
              (map (jittered {| func := up hdrs body'; time_time := clock;
                                uniform := draws |} (delay_of cfg None))
                   (seq 0 1024))) as (Hc & _).
  rewrite Hc, length_map, length_seq. reflexivity.
Qed.

Lemma delay_overflow_ends_the_run_witness :
  retry_with_backoff (lib := cpython) patient_config always_unavailable
                     None None
  = (alternate 0 (map (jittered always_unavailable 1) (seq 0 1024)),
     Raised OverflowError).
Proof.
  apply (proj1 (@delay_overflow_ends_the_run cpython patient_config
                  ltac:(cbn; lia))).
  intros i _. reflexivity.
Defined.

(** ** The handler around the engine *)

(** X8: whatever the upstream does, the status the client receives is 500
    or 502 with no upstream headers, or it is the status of a response some
    upstream call returned for the forwarded request, sent on with that
    response's headers (lines 629-634, 806-831). *)
Theorem client_status_is_upstream_or_proxy_error {lib : PyLib}
        (cfg : config) (up : upstream) (clock : nat -> Z) (draws : nat -> Q)
        (path : pystr) (request_headers : headers) (body : bytes) :
  let '(hdrs, sent, _) := prepare_request path request_headers body in
  let answer :=
    snd (proxy_request cfg up clock draws path request_headers body) in
  ((client_status answer = 500%Z \/ client_status answer = 502%Z)
   /\ client_headers answer = [])
  \/ exists (k : nat) (r : response),
       up hdrs sent k = Ok r
       /\ client_status answer = status_code r
       /\ client_headers answer = resp_headers r.
Proof.
  unfold proxy_request.
  destruct (prepare_request path request_headers body) as [[hdrs sent] bound].
  rewrite retry_with_backoff_loop.
  pose proof (retry_loop_genuine cfg
                {| func := up hdrs sent; time_time := clock; uniform := draws |}
                (retries_of cfg None) (delay_of cfg None)
                (Z.to_nat (retries_of cfg None + 1)) 0) as Hg.
  destruct (retry_loop _ _ _ _ _ _) as [evs [r|e]]; cbn [snd] in *.
  - destruct Hg as [k Hk]. cbn [func] in Hk. unfold relay_response.
    destruct (is_streaming r).
    + right. now exists k, r.
    + destruct (aread_in_handler r) as [content|e].
      * right. now exists k, r.
      * left. destruct e; cbn; auto.
  - left. destruct e; cbn; auto.
Qed.

(** X9: a first upstream answer that is not a stream, whose status is below
    500 and not 429, and that is not a 200 on a chat-completions path,
    reaches the client after a single call with its status, its headers and
    its content byte for byte (lines 154-155, 636-641, 806-818). *)
Theorem other_answers_relayed_untouched {lib : PyLib}
        (cfg : config) (up : upstream) (clock : nat -> Z) (draws : nat -> Q)
        (path : pystr) (request_headers : headers) (body : bytes)
        (r : response) (content : bytes) :
  (0 <= MAX_RETRIES cfg)%Z ->
  (forall h b, up h b 0%nat = Ok r) ->
  status_code r <> 429%Z ->
  (status_code r < 500)%Z ->
  status_code r <> 200%Z \/ str_contains (u "chat/completions") path = false ->
  is_streaming r = false ->
  aread r = Ok content ->
  proxy_request cfg up clock draws path request_headers body
  = ([Call 0],
     {| client_status := status_code r; client_headers := resp_headers r;
        body_sent := Buffered content |}).
Proof.
  intros Hn Hup H429 H500 Hrelay Hstream Hread.
  unfold proxy_request.
  destruct (prepare_request path request_headers body) as [[hdrs sent] bound].
  rewrite retry_with_backoff_loop. cbn [retries_of].
  rewrite (budget_iterations _ Hn).
  rewrite (retry_loop_run cfg _ _ _ (fun _ => 0%Q) 0 _ 0 (Nat.lt_0_succ _)).
  - cbn [Nat.add seq map alternate func]. rewrite Hup. cbn [outcome_of].
    unfold relay_response, aread_in_handler.
    replace (status_code r =? 429)%Z with false
      by (symmetry; apply Z.eqb_neq; exact H429).
    rewrite Hstream, Hread.
    unfold non_streaming_content.
    assert ((status_code r =? 200)%Z
            && str_contains (u "chat/completions") path = false) as ->;
      [|reflexivity].
    destruct Hrelay as [H | H].
    + apply Z.eqb_neq in H. now rewrite H.
    + rewrite H. apply andb_false_r.
  - intros i Hi. lia.
  - cbn [Nat.add func]. rewrite Hup. apply verdict_final. unfold final.
    apply andb_true_iff. split.
    + apply negb_true_iff, Z.eqb_neq, H429.
    + now apply Z.ltb_lt.
Qed.

Lemma other_answers_relayed_untouched_witness :
  proxy_request (lib := cpython) default_config
                (fun _ _ _ => Ok not_found_response)
                (fun _ => 1700000000%Z) (fun _ => 0)
                (u "chat/completions") [] (dq "{'model': 'm'}")
  = ([Call 0],
     {| client_status := 404;
        client_headers := [(u "content-type", u "application/json")];
        body_sent := Buffered (dq "{'error': 'Not found'}") |}).
Proof.
  apply (@other_answers_relayed_untouched cpython default_config
           (fun _ _ _ => Ok not_found_response) _ _ _ _ _
           not_found_response (dq "{'error': 'Not found'}")).
  - cbn. lia.
  - reflexivity.
  - cbn. lia.
  - cbn. lia.
  - left. cbn. lia.
  - reflexivity.
  - reflexivity.
Defined.

(** ** Path mapping *)

Lemma startswith_app (p rest : pystr) : startswith p (p ++ rest) = true.
Proof.
  induction p as [|c p IH]; [now destruct rest|].
  cbn. now rewrite N.eqb_refl.
Qed.

(** X10: when the base URL ends with [/api/v1], a leading [api/] is removed
    from the path exactly once; otherwise the path is used as it is.  The
    URL is the base, a slash and that path, followed by [?] and the query
    string only when the query string is not empty (lines 186-199). *)
Theorem api_prefix_removed_once (base query : pystr) :
  (forall rest,
      endswith (u "/api/v1") base = true ->
      target_url base (u "api/" ++ rest) query
      = base ++ u "/" ++ rest
             ++ match query with [] => [] | _ => u "?" ++ query end)
  /\ forall path,
       endswith (u "/api/v1") base = false
       \/ startswith (u "api/") path = false ->
       target_url base path query
       = base ++ u "/" ++ path
              ++ match query with [] => [] | _ => u "?" ++ query end.
Proof.
  split.
  - intros rest Hbase. unfold target_url, target_path.
    rewrite startswith_app, Hbase. cbn [andb].
    change (slice_from 4 (u "api/" ++ rest)) with rest.
    destruct query; [now rewrite app_nil_r|].
    now rewrite <- !app_assoc.
  - intros path H. unfold target_url, target_path.
    assert (startswith (u "api/") path && endswith (u "/api/v1") base = false)
      as ->.
    { destruct H as [H | H]; rewrite H; [apply andb_false_r|reflexivity]. }
    destruct query; [now rewrite app_nil_r|].
    now rewrite <- !app_assoc.
Qed.

Lemma api_prefix_removed_once_witness :
  target_url default_base_url (u "api/api/tags") (u "limit=5")
  = u "https://api.venice.ai/api/v1/api/tags?limit=5"
  /\ target_url (u "https://api.openai.com/v1") (u "api/tags") []
     = u "https://api.openai.com/v1/api/tags".
Proof.
  split.
  - refine (eq_trans
              (proj1 (api_prefix_removed_once default_base_url (u "limit=5"))
                     (u "api/tags") eq_refl)
              _).
    vm_compute. reflexivity.
  - refine (eq_trans
              (proj2 (api_prefix_removed_once (u "https://api.openai.com/v1") [])
                     (u "api/tags") (or_introl eq_refl))
              _).
    vm_compute. reflexivity.
Defined.

(** ** What is sent upstream *)

Section RequestSideFacts.
Context {lib : PyLib}.

Lemma rewrite_chat_request_headers (hdrs h : headers) (body b : bytes) :
  rewrite_chat_request hdrs body = Ok (h, b) ->
  h = dict_set (u "content-length") (content_length b) hdrs.
Proof.
  unfold rewrite_chat_request.
  destruct (loads_bytes body) as [body_json|]; cbn [bind]; [|discriminate].
  destruct (rewrite_chat_json body_json); cbn [bind]; [|discriminate].
  intro H. now injection H as <- <-.
Qed.

Lemma rewrite_embeddings_request_headers (hdrs h : headers) (body b : bytes) :
  rewrite_embeddings_request hdrs body = Ok (h, b) ->
  h = if dict_has (u "content-length") hdrs
      then dict_set (u "content-length") (content_length b) hdrs
      else hdrs.
Proof.
  unfold rewrite_embeddings_request.
  destruct (loads_bytes body) as [body_json|]; cbn [bind]; [|discriminate].
  destruct (py_get body_json (u "encoding_format") JNull) as [fmt|];
    cbn [bind]; [|discriminate].
  destruct (if eq_str fmt (u "base64")
            then py_setitem body_json (u "encoding_format") (JStr (u "float"))
            else Ok body_json); cbn [bind]; [|discriminate].
  intro H. now injection H as <- <-.
Qed.

(** The headers sent are the client's without [host], with at most the
    content length set anew. *)
Lemma prepare_request_headers (path : pystr) (request_headers : headers)
      (body : bytes) :
  let hdrs := dict_pop (u "host") request_headers in
  let '(h, b, _) := prepare_request path request_headers body in
  h = hdrs \/ h = dict_set (u "content-length") (content_length b) hdrs.
Proof.
  intro hdrs.
  destruct (is_chat_route path body) eqn:Hc.
  - rewrite (prepare_request_chat _ _ _ Hc). fold hdrs.
    destruct (rewrite_chat_request hdrs body) as [[h b]|] eqn:E;
      cbn [or_original]; [|now left].
    right. now apply rewrite_chat_request_headers in E.
  - destruct (is_embeddings_route path body) eqn:He.
    + rewrite (prepare_request_embeddings _ _ _ He). fold hdrs.
      destruct (rewrite_embeddings_request hdrs body) as [[h b]|] eqn:E;
        cbn [or_original]; [|now left].
      apply rewrite_embeddings_request_headers in E.
      destruct (dict_has (u "content-length") hdrs); [now right|now left].
    + unfold prepare_request. rewrite Hc, He. now left.
Qed.

Lemma rewrite_embeddings_request_dict (hdrs : headers) (body : bytes)
      (d : dict json) :
  loads_bytes body = Ok (JDict d) ->
  rewrite_embeddings_request hdrs body
  = let body' := dumps_bytes (JDict (float_encoding d)) in
    Ok (if dict_has (u "content-length") hdrs
        then dict_set (u "content-length") (content_length body') hdrs
        else hdrs,
        body').
Proof.
  intro H. unfold rewrite_embeddings_request, float_encoding, field_or.
  rewrite H. cbn [bind py_get].
  destruct (dict_lookup (u "encoding_format") d) as [fmt|]; cbn [bind].
  - now destruct (eq_str fmt (u "base64")).
  - reflexivity.
Qed.
End RequestSideFacts.

(** X11: the [host] header of the client is never sent upstream, and every
    other header except [content-length] is sent with the value the client
    gave, on every route and whether or not a rewrite succeeds
    (lines 202-203, 397-403, 420-424). *)
Theorem host_header_never_forwarded {lib : PyLib}
        (path : pystr) (request_headers : headers) (body : bytes) :
  let sent := fst (fst (prepare_request path request_headers body)) in
  dict_has (u "host") sent = false
  /\ forall k, k <> u "host" -> k <> u "content-length" ->
               dict_lookup k sent = dict_lookup k request_headers.
Proof.
  pose proof (prepare_request_headers path request_headers body) as H.
  cbv zeta in H.
  destruct (prepare_request path request_headers body) as [[h b] bound].
  cbn [fst]. destruct H as [-> | ->].
  - split; [apply dict_has_pop_same|].
    intros k Hk _. now apply dict_lookup_pop_other.
  - split.
    + unfold dict_has. rewrite dict_lookup_set_other by discriminate.
      now rewrite dict_lookup_pop_same.
    + intros k Hk Hcl. rewrite dict_lookup_set_other by assumption.
      now apply dict_lookup_pop_other.
Qed.

(** X12: a request with an empty body, and a request whose path neither
    contains [chat/completions] nor equals [embeddings], is sent upstream
    with the body as it came and all headers but [host]; neither rewrite is
    entered (lines 211, 407). *)
Theorem unrewritten_requests_forwarded_as_is {lib : PyLib}
        (path : pystr) (request_headers : headers) (body : bytes) :
  body = []
  \/ (str_contains (u "chat/completions") path = false
      /\ path <> u "embeddings") ->
  prepare_request path request_headers body
  = (dict_pop (u "host") request_headers, body, false).
Proof.
  intro H. unfold prepare_request, is_chat_route, is_embeddings_route.
  destruct H as [-> | [Hchat Hemb]].
  - now rewrite !andb_false_r.
  - rewrite Hchat. cbn [andb].
    now rewrite (pystr_eqb_neq _ _ Hemb).
Qed.

Lemma unrewritten_requests_forwarded_as_is_witness :
  prepare_request (lib := cpython) (u "models")
                  [(u "host", u "localhost:8000");
                   (u "authorization", u "Bearer k")]
                  []
  = ([(u "authorization", u "Bearer k")], [], false)
  /\ prepare_request (lib := cpython) (u "images/generations") []
                     (dq "{'logprobs': true}")
     = ([], dq "{'logprobs': true}", false).
Proof.
  split.
  - exact (@unrewritten_requests_forwarded_as_is cpython (u "models")
             [(u "host", u "localhost:8000");
              (u "authorization", u "Bearer k")]
             [] (or_introl eq_refl)).
  - refine (@unrewritten_requests_forwarded_as_is cpython
              (u "images/generations") [] (dq "{'logprobs': true}")
              (or_intror (conj eq_refl _))).
    intro H. vm_compute in H. discriminate.
Defined.

(** X13: on the [embeddings] path, a body that parses to an object is sent
    as the serialization of that object with [encoding_format] set to
    [float] when it was the string [base64] and unchanged otherwise; no key
    is added, removed or moved, and [content-length] is set to the new
    length only when the client sent that header (lines 407-424). *)
Theorem embeddings_base64_becomes_float {lib : PyLib}
        (path : pystr) (request_headers : headers) (body : bytes)
        (d : dict json) :
  is_embeddings_route path body = true ->
  loads_bytes body = Ok (JDict d) ->
  let hdrs := dict_pop (u "host") request_headers in
  let sent := dumps_bytes (JDict (float_encoding d)) in
  prepare_request path request_headers body
  = (if dict_has (u "content-length") hdrs
     then dict_set (u "content-length") (content_length sent) hdrs
     else hdrs,
     sent, true)
  /\ map fst (float_encoding d) = map fst d
  /\ (forall k, k <> u "encoding_format" ->
                dict_lookup k (float_encoding d) = dict_lookup k d)
  /\ (dict_lookup (u "encoding_format") d = Some (JStr (u "base64")) ->
      dict_lookup (u "encoding_format") (float_encoding d)
      = Some (JStr (u "float")))
  /\ (dict_lookup (u "encoding_format") d <> Some (JStr (u "base64")) ->
      float_encoding d = d).
Proof.
  intros Hroute Hloads hdrs sent. split.
  { rewrite (prepare_request_embeddings _ _ _ Hroute). fold hdrs.
    now rewrite (rewrite_embeddings_request_dict hdrs body d Hloads). }
  unfold float_encoding, field_or.
  destruct (dict_lookup (u "encoding_format") d) as [fmt|] eqn:E.
  - destruct (eq_str fmt (u "base64")) eqn:Ef.
    + repeat split.
      * apply dict_keys_set_present. unfold dict_has. now rewrite E.
      * intros k Hk. now apply dict_lookup_set_other.
      * intros _. apply dict_lookup_set_same.
      * intro Hne. destruct fmt; try discriminate. cbn [eq_str] in Ef.
        apply pystr_eqb_eq in Ef. now subst.
    + repeat split. intro H. injection H as ->. cbn [eq_str] in Ef.
      now rewrite pystr_eqb_refl in Ef.
  - repeat split. discriminate.
Qed.

Lemma embeddings_base64_becomes_float_witness :
  prepare_request (lib := cpython) (u "embeddings")
                  [(u "host", u "localhost:8000"); (u "content-length", u "53")]
                  base64_embeddings_body
  = ([(u "content-length", u "57")],
     dq "{'model': 'm', 'input': 'hi', 'encoding_format': 'float'}",
     true).
Proof.
  refine (eq_trans
            (proj1 (@embeddings_base64_becomes_float cpython (u "embeddings")
                      [(u "host", u "localhost:8000");
                       (u "content-length", u "53")]
                      base64_embeddings_body base64_embeddings_json
                      eq_refl _))
            _).
  - vm_compute. reflexivity.
  - vm_compute. reflexivity.
Defined.

(** ** The coercion, further *)

Section CoercionMore.
Context {lib : PyLib}.

(** One field of an object, by what the object holds under the key. *)
Lemma convert_field_dict (k : pystr) (d : dict json) (m : bool) :
  convert_field k (JDict d, m) =
  match dict_lookup k d with
  | Some (JStr s) =>
      match py_int s with
      | Some n => Ok (JDict (dict_set k (JInt n) d), true)
      | None => Raise ValueError
      end
  | _ => Ok (JDict d, m)
  end.
Proof.
  unfold convert_field, py_in, py_getitem, dict_has, int. cbn [bind].
  destruct (dict_lookup k d) as [v|]; cbn [bind]; [|reflexivity].
  destruct v; try reflexivity.
  now destruct (py_int s).
Qed.

Lemma lookup_end_after_start (x : json) (d : dict json) :
  dict_lookup (u "end_line") (dict_set (u "start_line") x d)
  = dict_lookup (u "end_line") d.
Proof. apply dict_lookup_set_other. discriminate. Qed.

Lemma lookup_start_after_end (x : json) (d : dict json) :
  dict_lookup (u "start_line") (dict_set (u "end_line") x d)
  = dict_lookup (u "start_line") d.
Proof. apply dict_lookup_set_other. discriminate. Qed.

(** After one field was converted. *)
Lemma convert_field_post (k : pystr) (d : dict json) (m : bool)
      (a' : json) (m' : bool) :
  convert_field k (JDict d, m) = Ok (a', m') ->
  exists d',
    a' = JDict d'
    /\ not_str_at k d'
    /\ (forall s, dict_lookup k d = Some (JStr s) ->
                  exists n, py_int s = Some n
                            /\ dict_lookup k d' = Some (JInt n))
    /\ ((forall s, dict_lookup k d <> Some (JStr s)) -> d' = d)
    /\ (forall k', k' <> k -> dict_lookup k' d' = dict_lookup k' d).
Proof.
  rewrite convert_field_dict.
  destruct (dict_lookup k d) as [v|] eqn:E.
  - destruct v as [| | | |s| |];
      try (intro H; injection H as <- <-; exists d;
           split; [reflexivity|]; split; [intros s Hs; congruence|];
           split; [intros s Hs; congruence|]; split; reflexivity).
    destruct (py_int s) as [n|] eqn:En; [|discriminate].
    intro H. injection H as <- <-. exists (dict_set k (JInt n) d).
    split; [reflexivity|]. split.
    { intros s' Hs. rewrite dict_lookup_set_same in Hs. discriminate. }
    split.
    { intros s' Hs. injection Hs as <-. exists n.
      split; [exact En|apply dict_lookup_set_same]. }
    split.
    { intro Hnot. now destruct (Hnot s). }
    intros k' Hk. now apply dict_lookup_set_other.
  - intro H. injection H as <- <-. exists d.
    split; [reflexivity|]. split; [intros s Hs; congruence|].
    split; [intros s Hs; congruence|]. split; reflexivity.
Qed.

(** A string-typed line field that [int] rejects makes the coercion raise
    [ValueError], whatever the other field holds. *)
Lemma coerce_lines_rejects (d : dict json) (k x : pystr) :
  k = u "start_line" \/ k = u "end_line" ->
  dict_lookup k d = Some (JStr x) ->
  py_int x = None ->
  coerce_lines (JDict d) = Raise ValueError.
Proof.
  intros Hk Hl Hint. unfold coerce_lines. rewrite convert_field_dict.
  destruct Hk as [-> | ->].
  - now rewrite Hl, Hint.
  - destruct (dict_lookup (u "start_line") d) as [v|]; cbn [bind].
    + destruct v; cbn [bind];
        try (rewrite convert_field_dict, Hl, Hint; reflexivity).
      destruct (py_int s); cbn [bind]; [|reflexivity].
      now rewrite convert_field_dict, lookup_end_after_start, Hl, Hint.
    + now rewrite convert_field_dict, Hl, Hint.
Qed.

(** The body shared by the three sites raises a [ValueError]: the tool call
    is left as it was. *)
Lemma sites_keep_tool_call (t f : dict json) (s : pystr) :
  dict_lookup (u "function") t = Some (JDict f) ->
  dict_lookup (u "name") f = Some (JStr (u "read_file")) ->
  dict_lookup (u "arguments") f = Some (JStr s) ->
  s <> [] ->
  json_loads s = None
  \/ (exists d, json_loads s = Some (JDict d)
                /\ coerce_lines (JDict d) = Raise ValueError) ->
  request_tool_call (JDict t) = Ok (JDict t)
  /\ response_tool_call (JDict t) = Ok (JDict t)
  /\ stream_tool_call (JDict t) = Ok (JDict t, false).
Proof.
  intros Hf Hn Ha Hs Hbad.
  destruct (read_file_guard t f (JStr (u "unknown")) s Hf Hn Ha Hs)
    as (E1 & E2 & E3).
  destruct (read_file_guard t f (JStr []) s Hf Hn Ha Hs) as (E1' & _ & _).
  unfold request_tool_call, response_tool_call, stream_tool_call.
  cbn [isinstance_dict]. rewrite E1, E1', E2. cbn [bind].
  rewrite E3. cbn [bind]. unfold loads.
  destruct Hbad as [Hl | (d & Hl & Hc)]; rewrite Hl; cbn [bind].
  - repeat split; reflexivity.
  - cbn [py_get].
    destruct (dict_lookup (u "start_line") d),
             (dict_lookup (u "end_line") d);
      cbn [bind]; rewrite Hc; repeat split; reflexivity.
Qed.

Lemma request_message_keeps (msg msg' : json) :
  request_message msg = Ok msg' -> same_message_but_lines msg msg'.
Proof.
  rewrite request_message_calls.
  destruct (tool_calls_in msg) as [[m l]|] eqn:E.
  - destruct (mapM request_tool_call l) as [l'|] eqn:El; cbn [bind];
      [|discriminate].
    destruct (log_tool_result _); cbn [bind]; [|discriminate].
    intro H. injection H as <-.
    right. exists m, l, l'. split; [exact E|]. split; [|reflexivity].
    apply mapM_Forall2 in El.
    eapply Forall2_impl; [|exact El].
    intros tc tc' Htc. apply coerced_keeps_other_fields.
    now apply request_tool_call_cases.
  - cbn [bind]. destruct (log_tool_result msg); cbn [bind]; [|discriminate].
    intro H. injection H as <-. now left.
Qed.
End CoercionMore.

(** X14: when the coercion of an arguments object succeeds, no line field
    of the result is a string: each string-typed line field was accepted by
    [int] and holds that integer, every other key keeps its place and
    value, and running the coercion again changes nothing
    (lines 324-340). *)
Theorem coercion_leaves_no_string_line {lib : PyLib}
        (d : dict json) (a' : json) (m : bool) :
  coerce_lines (JDict d) = Ok (a', m) ->
  exists d',
    a' = JDict d'
    /\ same_but_lines d d'
    /\ not_str_at (u "start_line") d'
    /\ not_str_at (u "end_line") d'
    /\ (forall k s, k = u "start_line" \/ k = u "end_line" ->
                    dict_lookup k d = Some (JStr s) ->
                    exists n, py_int s = Some n
                              /\ dict_lookup k d' = Some (JInt n))
    /\ (forall k, k = u "start_line" \/ k = u "end_line" ->
                  (forall s, dict_lookup k d <> Some (JStr s)) ->
                  dict_lookup k d' = dict_lookup k d)
    /\ coerce_lines (JDict d') = Ok (JDict d', false).
Proof.
  intro H. pose proof H as Hc. unfold coerce_lines in Hc.
  destruct (convert_field (u "start_line") (JDict d, false))
    as [[a1 m1]|] eqn:E1; cbn [bind] in Hc; [|discriminate].
  apply convert_field_post in E1
    as (d1 & -> & Hns1 & Hstr1 & Hsame1 & Hother1).
  apply convert_field_post in Hc
    as (d' & -> & Hns2 & Hstr2 & Hsame2 & Hother2).
  assert (Hstart : dict_lookup (u "start_line") d'
                   = dict_lookup (u "start_line") d1)
    by (apply Hother2; discriminate).
  assert (Hend : dict_lookup (u "end_line") d1
                 = dict_lookup (u "end_line") d)
    by (apply Hother1; discriminate).
  assert (Hns : not_str_at (u "start_line") d')
    by (intros s Hl; rewrite Hstart in Hl; now apply (Hns1 s)).
  exists d'. split; [reflexivity|]. split.
  { destruct (coerce_lines_cases _ _ _ H)
      as [[_ E] | (_ & d0 & d0' & E & E' & Hsame)].
    - injection E as ->. apply same_but_lines_refl.
    - injection E as <-. injection E' as <-. exact Hsame. }
  split; [exact Hns|]. split; [exact Hns2|]. split; [|split].
  - intros k s [-> | ->] Hl.
    + destruct (Hstr1 s Hl) as (n & Hn & Hl1). exists n.
      split; [exact Hn|]. now rewrite Hstart.
    + rewrite <- Hend in Hl. exact (Hstr2 s Hl).
  - intros k [-> | ->] Hnot.
    + rewrite Hstart. now rewrite (Hsame1 Hnot).
    + rewrite <- Hend in Hnot. now rewrite (Hsame2 Hnot).
  - now apply coerce_lines_not_str.
Qed.

Lemma coercion_leaves_no_string_line_witness :
  exists d',
    JDict integer_lines = JDict d'
    /\ same_but_lines string_lines d'
    /\ not_str_at (u "start_line") d'
    /\ not_str_at (u "end_line") d'
    /\ (forall k s, k = u "start_line" \/ k = u "end_line" ->
                    dict_lookup k string_lines = Some (JStr s) ->
                    exists n, py_int (PyLib := cpython) s = Some n
                              /\ dict_lookup k d' = Some (JInt n))
    /\ (forall k, k = u "start_line" \/ k = u "end_line" ->
                  (forall s, dict_lookup k string_lines <> Some (JStr s)) ->
                  dict_lookup k d' = dict_lookup k string_lines)
    /\ coerce_lines (lib := cpython) (JDict d') = Ok (JDict d', false).
Proof.
  apply (@coercion_leaves_no_string_line cpython string_lines
           (JDict integer_lines) true).
  vm_compute. reflexivity.
Defined.

(** X15: a [read_file] tool call whose arguments text is not JSON, or
    parses to an object with a string-typed line field that [int] rejects,
    is left exactly as it was by the request pass, the non-streaming relay
    and the stream relay, even when the other line field could have been
    converted (lines 314-367, 689-740, 517-599). *)
Theorem rejected_arguments_leave_tool_call {lib : PyLib}
        (t f : dict json) (s : pystr) :
  dict_lookup (u "function") t = Some (JDict f) ->
  dict_lookup (u "name") f = Some (JStr (u "read_file")) ->
  dict_lookup (u "arguments") f = Some (JStr s) ->
  s <> [] ->
  json_loads s = None
  \/ (exists d k x,
         json_loads s = Some (JDict d)
         /\ (k = u "start_line" \/ k = u "end_line")
         /\ dict_lookup k d = Some (JStr x)
         /\ py_int x = None) ->
  request_tool_call (JDict t) = Ok (JDict t)
  /\ response_tool_call (JDict t) = Ok (JDict t)
  /\ stream_tool_call (JDict t) = Ok (JDict t, false).
Proof.
  intros Hf Hn Ha Hs Hbad.
  apply (sites_keep_tool_call t f s Hf Hn Ha Hs).
  destruct Hbad as [Hl | (d & k & x & Hl & Hk & Hx & Hint)]; [now left|].
  right. exists d. split; [exact Hl|].
  exact (coerce_lines_rejects d k x Hk Hx Hint).
Qed.

Lemma rejected_arguments_leave_tool_call_witness :
  let before := tool_call_of (u "read_file") half_numeric_lines_text in
  request_tool_call (lib := cpython) before = Ok before
  /\ response_tool_call (lib := cpython) before = Ok before
  /\ stream_tool_call (lib := cpython) before = Ok (before, false).
Proof.
  refine (@rejected_arguments_leave_tool_call cpython
            [(u "id", JStr (u "call_1")); (u "type", JStr (u "function"));
             (u "function",
              JDict [(u "name", JStr (u "read_file"));
                     (u "arguments", JStr half_numeric_lines_text)])]
            [(u "name", JStr (u "read_file"));
             (u "arguments", JStr half_numeric_lines_text)]
            half_numeric_lines_text eq_refl eq_refl eq_refl _ _).
  - intro H. vm_compute in H. discriminate.
  - right. exists half_numeric_lines, (u "end_line"), (u "ten").
    split; [vm_compute; reflexivity|].
    split; [now right|].
    split; vm_compute; reflexivity.
Defined.

(** X16: when the chat-completions pass completes, the body sent carries
    the messages of the request in their order, each one either as it was
    or with tool calls that differ from the original ones in the line
    fields of their arguments text only; a [messages] value that is not a
    list is kept as it is (lines 281-373). *)
Theorem request_messages_kept_but_lines {lib : PyLib} (body_json b : json) :
  rewrite_chat_json body_json = Ok b ->
  exists d d',
    body_json = JDict d /\ b = JDict d'
    /\ match dict_lookup (u "messages") d with
       | Some (JList messages) =>
           exists messages',
             dict_lookup (u "messages") d' = Some (JList messages')
             /\ Forall2 same_message_but_lines messages messages'
       | other => dict_lookup (u "messages") d' = other
       end.
Proof.
  unfold rewrite_chat_json. intro H.
  destruct (pop_params unsupported_params body_json) as [b1|] eqn:E1;
    [|discriminate].
  apply pop_params_unsupported in E1 as (d & -> & ->). cbn [bind] in H.
  rewrite clean_parallel_tool_calls_dict in H. cbn [bind] in H.
  destruct (validate_tool_sequence _); [|discriminate]. cbn [bind] in H.
  destruct (log_tools _); [|discriminate]. cbn [bind] in H.
  change (transform_messages (JDict (cleaned d)) = Ok b) in H.
  pose proof (lookup_cleaned d (u "messages")) as Hlook.
  replace (is_removed d (u "messages")) with false in Hlook
    by (unfold is_removed; cbn; now destruct (malformed_parallel_flag d)).
  remember (cleaned d) as c eqn:Ec in *.
  destruct (dict_lookup (u "messages") d) as [v|] eqn:Em.
  - destruct v as [| | | | |messages|];
      try (unfold transform_messages, messages_list, py_in, py_getitem,
             dict_has in H;
           rewrite Hlook in H; cbn [bind] in H; injection H as <-;
           exists d, c; rewrite Em; now repeat split).
    rewrite (transform_messages_calls c messages Hlook) in H.
    destruct (mapM request_message messages) as [messages'|] eqn:Emap;
      [|discriminate].
    cbn [bind] in H. injection H as <-.
    exists d, (dict_set (u "messages") (JList messages') c).
    split; [reflexivity|]. split; [reflexivity|]. rewrite Em.
    exists messages'. split; [apply dict_lookup_set_same|].
    apply mapM_Forall2 in Emap.
    eapply Forall2_impl; [|exact Emap].
    intros msg msg' Hmsg. now apply request_message_keeps.
  - unfold transform_messages, messages_list, py_in, py_getitem, dict_has in H.
    rewrite Hlook in H. cbn [bind] in H. injection H as <-.
    exists d, c. rewrite Em. now repeat split.
Qed.

Lemma request_messages_kept_but_lines_witness :
  exists d d',
    JDict read_file_request = JDict d /\ JDict read_file_request_sent = JDict d'
    /\ match dict_lookup (u "messages") d with
       | Some (JList messages) =>
           exists messages',
             dict_lookup (u "messages") d' = Some (JList messages')
             /\ Forall2 (same_message_but_lines (lib := cpython))
                        messages messages'
       | other => dict_lookup (u "messages") d' = other
       end.
Proof.
  apply (@request_messages_kept_but_lines cpython (JDict read_file_request)
           (JDict read_file_request_sent)).
  vm_compute. reflexivity.
Defined.

(** X17: when the chat-completions rewrite succeeds, the [content-length]
    header sent upstream is the decimal length in bytes of the body sent,
    whether or not the client gave the header (lines 397-403). *)
Theorem content_length_matches_rewritten_body {lib : PyLib}
        (path : pystr) (request_headers : headers) (body : bytes)
        (body_json b : json) :
  is_chat_route path body = true ->
  loads_bytes body = Ok body_json ->
  rewrite_chat_json body_json = Ok b ->
  let '(hdrs, sent, _) := prepare_request path request_headers body in
  sent = dumps_bytes b
  /\ dict_lookup (u "content-length") hdrs
     = Some (str_of_N (N.of_nat (List.length sent))).
Proof.
  intros Hroute Hloads Hpass.
  rewrite (prepare_request_chat _ _ _ Hroute).
  unfold rewrite_chat_request. rewrite Hloads. cbn [bind].
  rewrite Hpass. cbn [bind or_original].
  split; [reflexivity|]. apply dict_lookup_set_same.
Qed.

Lemma content_length_matches_rewritten_body_witness :
  let '(hdrs, sent, _) :=
    prepare_request (lib := cpython) (u "chat/completions")
                    [(u "host", u "localhost:8000");
                     (u "content-length", u "97")]
                    flagged_body in
  sent = dumps_bytes (lib := cpython) (JDict flagged_clean)
  /\ dict_lookup (u "content-length") hdrs
     = Some (str_of_N (N.of_nat (List.length sent))).
Proof.
  apply (@content_length_matches_rewritten_body cpython (u "chat/completions")
           [(u "host", u "localhost:8000"); (u "content-length", u "97")]
           flagged_body (JDict flagged_json) (JDict flagged_clean)).
  - vm_compute. reflexivity.
  - vm_compute. reflexivity.
  - vm_compute. reflexivity.
Defined.

(** ** The stream relay, further *)

Section StreamMore.
Context {lib : PyLib}.

Lemma interleaved_right_all {A} (l : list A) : interleaved [] l l.
Proof. induction l; constructor; assumption. Qed.

Lemma interleaved_prefix {A} (p l1 l2 l : list A) :
  interleaved l1 l2 l -> interleaved l1 (p ++ l2) (p ++ l).
Proof. intro H. induction p; [exact H|]. cbn. now constructor. Qed.

Lemma stream_chunks_interleaved (json_bound : bool) (chunks : list bytes)
      (buffer : pystr) :
  interleaved (filter (fun chunk => negb (decodable chunk)) chunks)
              (stream_chunks json_bound buffer (filter decodable chunks))
              (stream_chunks json_bound buffer chunks).
Proof.
  revert buffer. induction chunks as [|chunk rest IH]; intro buffer.
  - apply interleaved_right_all.
  - cbn [filter].
    destruct (utf8_decode chunk) as [text|e] eqn:E;
      [assert (Hd : decodable chunk = true)
        by (unfold decodable; now rewrite E)
      |assert (Hd : decodable chunk = false)
        by (unfold decodable; now rewrite E)];
      rewrite Hd; cbn [negb stream_chunks]; rewrite E.
    + destruct (drain_lines json_bound (List.length (buffer ++ text))
                            (buffer ++ text)) as [out buffer'].
      apply interleaved_prefix, IH.
    + constructor. apply IH.
Qed.

(** A tool call the stream relay does not rewrite leaves [line] alone,
    whether the iteration ends or raises. *)
Lemma stream_tool_calls_line_kept (rebuild : list json -> json)
      (done todo : list json) (line : pystr) :
  Forall (fun tool_call => modifies tool_call = false) todo ->
  fst (stream_tool_calls rebuild done todo line) = line.
Proof.
  intro H. revert done.
  induction H as [|tc rest Htc _ IH]; intro done; [reflexivity|].
  cbn [stream_tool_calls]. unfold modifies in Htc.
  destruct (stream_tool_call tc) as [[tc' m]|e]; [|reflexivity].
  destruct m; [discriminate|]. apply IH.
Qed.

Lemma stream_choice_line_kept (rebuild : json -> json) (choice : json)
      (line : pystr) :
  Forall (fun tool_call => modifies tool_call = false) (delta_calls choice) ->
  fst (stream_choice rebuild choice line) = line.
Proof.
  unfold delta_calls, holder_calls, tool_calls_in, stream_choice, has_key,
    dict_has, py_getitem.
  destruct choice as [| | | | | |c]; try reflexivity.
  destruct (dict_lookup (u "delta") c) as [holder|]; [|reflexivity].
  destruct holder as [| | | | | |m]; try reflexivity.
  destruct (dict_lookup (u "tool_calls") m) as [v|]; [|reflexivity].
  destruct v as [| | | | |l|]; try reflexivity.
  intro H.
  pose proof (stream_tool_calls_line_kept
                (fun l0 => rebuild (put_back (JDict c) (u "delta")
                                      (put_back (JDict m) (u "tool_calls")
                                                (JList l0)))) [] l line H)
    as Hl.
  destruct (stream_tool_calls _ [] l line) as [line' r]. exact Hl.
Qed.

Lemma stream_choices_line_kept (rebuild : list json -> json)
      (done todo : list json) (line : pystr) :
  Forall (fun choice =>
            Forall (fun tool_call => modifies tool_call = false)
                   (delta_calls choice)) todo ->
  fst (stream_choices rebuild done todo line) = line.
Proof.
  intro H. revert done.
  induction H as [|choice rest Hc _ IH]; intro done; [reflexivity|].
  cbn [stream_choices].
  pose proof (stream_choice_line_kept
                (fun c => rebuild (rev done ++ c :: rest)) choice line Hc)
    as Hl.
  destruct (stream_choice _ choice line) as [line' [choice'|e]];
    cbn [fst] in Hl; subst line'; [apply IH|reflexivity].
Qed.
End StreamMore.

(** X18: the stream relay does not depend on where the upstream cut its
    chunks: two sequences of decodable chunks that carry the same text give
    the same emissions (lines 452-466, 624-628). *)
Theorem chunk_boundaries_do_not_show {lib : PyLib} (json_bound : bool)
        (chunks1 chunks2 : list bytes) (texts1 texts2 : list pystr) :
  Forall2 (fun chunk text => utf8_decode chunk = Ok text) chunks1 texts1 ->
  Forall2 (fun chunk text => utf8_decode chunk = Ok text) chunks2 texts2 ->
  List.concat texts1 = List.concat texts2 ->
  stream_generator json_bound chunks1 = stream_generator json_bound chunks2.
Proof.
  intros H1 H2 Hsame.
  rewrite (stream_generator_framing json_bound chunks1 texts1 H1).
  rewrite (stream_generator_framing json_bound chunks2 texts2 H2).
  now rewrite Hsame.
Qed.

Lemma chunk_boundaries_do_not_show_witness :
  stream_generator (lib := cpython) true events_cut_mid_line
  = stream_generator (lib := cpython) true events_cut_at_lines.
Proof.
  apply (@chunk_boundaries_do_not_show cpython true
           events_cut_mid_line events_cut_at_lines
           events_cut_mid_line events_cut_at_lines).
  - repeat constructor.
  - repeat constructor.
  - reflexivity.
Defined.

(** X19: a decodable stream whose complete lines carry no surrounding
    whitespace and are not data lines, the sentinel [data: [DONE]] apart,
    reaches the client byte for byte, however it was cut into chunks
    (lines 452-466, 622-628). *)
Theorem plain_stream_is_byte_identical {lib : PyLib} (json_bound : bool)
        (chunks : list bytes) (texts : list pystr) :
  Forall2 (fun chunk text => utf8_decode chunk = Ok text) chunks texts ->
  Forall plain_line (fst (complete_lines (List.concat texts))) ->
  List.concat (stream_generator json_bound chunks) = List.concat chunks.
Proof. exact (plain_stream_passes_through json_bound chunks texts). Qed.

Lemma plain_stream_is_byte_identical_witness :
  List.concat (stream_generator (lib := cpython) true comment_and_sentinel)
  = List.concat comment_and_sentinel.
Proof.
  apply (@plain_stream_is_byte_identical cpython true comment_and_sentinel
           comment_and_sentinel).
  - repeat constructor.
  - change (Forall plain_line [u ": ping"; u "data: [DONE]"]).
    constructor; [split; [reflexivity|left; reflexivity]|].
    constructor; [split; [reflexivity|right; reflexivity]|].
    constructor.
Defined.

(** X20: chunks that are not valid UTF-8 are yielded as they are and leave
    the buffer alone: the emissions are the undecodable chunks, in their
    order, interleaved with exactly what the relay emits for the decodable
    chunks alone (lines 454-459). *)
Theorem undecodable_chunks_forwarded_verbatim {lib : PyLib}
        (json_bound : bool) (chunks : list bytes) :
  interleaved (filter (fun chunk => negb (decodable chunk)) chunks)
              (stream_generator json_bound (filter decodable chunks))
              (stream_generator json_bound chunks).
Proof. apply stream_chunks_interleaved. Qed.

(** X21: the stream relay emits a line, stripped and followed by a newline,
    with the text it came with unless it rewrote a tool call in it: a data
    line whose payload does not parse, has no list of choices, or holds no
    tool call the coercion changes is not serialized again
    (lines 464-624). *)
Theorem event_text_kept_unless_tool_call_rewritten {lib : PyLib}
        (json_bound : bool) (line : pystr) :
  (forall d choices,
      json_loads (slice_from 6 (strip line)) = Some (JDict d) ->
      dict_lookup (u "choices") d = Some (JList choices) ->
      Forall (fun choice =>
                Forall (fun tool_call => modifies tool_call = false)
                       (delta_calls choice)) choices) ->
  relay_line json_bound line = utf8_encode (strip line ++ [10%N]).
Proof.
  intro H. unfold relay_line.
  destruct (startswith (u "data: ") (strip line)
            && negb (pystr_eqb (strip line) (u "data: [DONE]")));
    [|reflexivity].
  f_equal. f_equal. unfold rewrite_data_line, relay_loads, loads.
  destruct json_bound; [|reflexivity].
  destruct (json_loads (slice_from 6 (strip line))) as [data|] eqn:El;
    [|reflexivity].
  destruct data as [| | | |s|l|d]; try reflexivity.
  - cbn [py_in py_getitem]. now destruct (str_contains (u "choices") s).
  - cbn [py_in py_getitem].
    now destruct (existsb (fun x => eq_str x (u "choices")) l).
  - cbn [py_in py_getitem]. unfold dict_has.
    destruct (dict_lookup (u "choices") d) as [v|] eqn:Ec; [|reflexivity].
    destruct v as [| | | | |choices|]; try reflexivity.
    apply stream_choices_line_kept. exact (H d choices eq_refl Ec).
Qed.

Lemma event_text_kept_unless_tool_call_rewritten_witness :
  relay_line (lib := cpython) true content_event_line
  = dq "data: {'choices':[{'index':0,'delta':{'content':'hi'}}]}" ++ [10%N].
Proof.
  refine (eq_trans
            (@event_text_kept_unless_tool_call_rewritten cpython true
               content_event_line _)
            _).
  - intros d choices Hl Hc.
    vm_compute in Hl. injection Hl as <-.
    vm_compute in Hc. injection Hc as <-.
    repeat constructor.
  - vm_compute. reflexivity.
Defined.
